(** * Rewarded-ads ledger backend: a shallow embedding and its properties

    The development embeds [app/models.py] (the seven tables) and the
    request handlers of [app/main.py] and proves properties of the
    reward-accrual and withdrawal rules.

    Modelling conventions.
    - A table is the list of its rows in insertion order.  The constraints
      declared in [models.py] (primary keys, [unique=True] columns) are
      checked when a row is inserted; a violation raises [IntegrityError].
      SQLite does not enforce the foreign keys, and neither does the model.
    - A request works on a SQLAlchemy session.  The session is a pair of
      the committed database and the working copy the handler reads and
      writes; [commit] publishes the working copy.  A handler that raises
      before its [commit] leaves the committed database as it was.
    - [datetime] values are naive UTC instants with microsecond resolution,
      represented by the number of microseconds since the epoch.
    - Amounts are Python floats in the source.  They are embedded as exact
      rationals ([Q]): rounding, infinities and NaN are outside the model.
    - Everything a handler draws from outside (clock readings, uuid4
      values, the random draw, the salted password hash) is passed in as an
      explicit environment record, one record type per handler. *)

From Stdlib Require Import List String Ascii ZArith QArith Bool Lia Lqa.
From Stdlib Require Import Permutation Sorted.
Import ListNotations.

Local Open Scope string_scope.
Local Open Scope list_scope.
Local Open Scope Z_scope.

(** ** Time *)

Definition datetime := Z.

Definition usec_per_second : Z := 1000000.
Definition usec_per_day : Z := 86400 * usec_per_second.

(** [dt.replace(hour=0, minute=0, second=0, microsecond=0)] *)
Definition start_of_day (dt : datetime) : datetime := dt - dt mod usec_per_day.

(** ** Exceptions and results *)

Inductive Exn : Type :=
| HTTPException (status_code : Z) (detail : string)
| IntegrityError
| AttributeError
| OverflowError.

Inductive result (A : Type) : Type :=
| Ok (a : A)
| Raise (e : Exn).
Arguments Ok {A} a.
Arguments Raise {A} e.

Definition HTTP_400_BAD_REQUEST : Z := 400.
Definition HTTP_403_FORBIDDEN : Z := 403.
Definition HTTP_404_NOT_FOUND : Z := 404.
Definition HTTP_429_TOO_MANY_REQUESTS : Z := 429.

(** The failure kinds of the specification, and the kind each response of
    [main.py] stands for.  The three uses of status 400 are told apart by
    their detail text. *)
Inductive FailureKind : Type :=
| NOT_FOUND | CONFLICT | VALIDATION_ERROR | RATE_LIMITED | INVALID_STATE | FORBIDDEN.

Definition failure_kind (e : Exn) : option FailureKind :=
  match e with
  | HTTPException 404 _ => Some NOT_FOUND
  | HTTPException 429 _ => Some RATE_LIMITED
  | HTTPException 403 _ => Some FORBIDDEN
  | HTTPException 400 d =>
      if d =? "Email already used" then Some CONFLICT
      else if d =? "Already completed" then Some INVALID_STATE
      else if (d =? "Invalid token") || (d =? "Minimum is $10")
              || (d =? "Insufficient balance") then Some VALIDATION_ERROR
      else None
  | _ => None
  end%string.

(** ** models.py *)

Module User.
Record t : Type := mk {
    id : string;
    email : string;
    username : string;
    password_hash : string;
    is_active : bool;
    created_at : datetime
  }.
End User.

Module AuthAccount.
Record t : Type := mk {
    id : string;
    user_id : string;
    provider : string;
    provider_id : string;
    created_at : datetime
  }.
End AuthAccount.

Module AdUnit.
Record t : Type := mk {
    id : string;
    name : string;
    reward_min : Q;
    reward_max : Q;
    cooldown_seconds : Z;
    daily_cap : Z;
    is_active : bool
  }.
End AdUnit.

Module AdView.
Record t : Type := mk {
    id : string;
    user_id : string;
    ad_unit_id : string;
    session_token : string;
    started_at : datetime;
    completed_at : option datetime;
    rewarded_amount : option Q;
    status : string
  }.
End AdView.

Module Balance.
Record t : Type := mk {
    user_id : string;
    available : Q;
    pending : Q;
    updated_at : datetime
  }.
End Balance.

Module Transaction.
Record t : Type := mk {
    id : string;
    user_id : string;
    type : string;
    source : string;
    amount : Q;
    occurred_at : datetime
  }.
End Transaction.

Module Withdrawal.
Record t : Type := mk {
    id : string;
    user_id : string;
    amount : Q;
    fee : Q;
    payout_method : string;
    destination : string;
    status : string;
    created_at : datetime;
    reviewed_at : option datetime;
    review_notes : option string
  }.
End Withdrawal.

(** ** The database *)

Record DB : Type := mkDB {
  users : list User.t;
  auth_accounts : list AuthAccount.t;
  ad_units : list AdUnit.t;
  ad_views : list AdView.t;
  balances : list Balance.t;
  transactions : list Transaction.t;
  withdrawals : list Withdrawal.t
}.

Definition empty_db : DB := mkDB [] [] [] [] [] [] [].

(** ** The session monad *)

Record Session : Type := mkSession {
  committed : DB;
  working : DB
}.

Definition M (A : Type) : Type := Session -> result A * Session.

Definition ret {A} (a : A) : M A := fun s => (Ok a, s).

Definition bind {A B} (m : M A) (k : A -> M B) : M B :=
  fun s =>
    match m s with
    | (Ok a, s') => k a s'
    | (Raise e, s') => (Raise e, s')
    end.

Definition raise {A} (e : Exn) : M A := fun s => (Raise e, s).

Notation "x <- m ;; k" := (bind m (fun x => k))
  (at level 61, m at next level, right associativity).
Notation "m ;;; k" := (bind m (fun _ => k))
  (at level 61, right associativity).

(** A read of the working copy. *)
Definition query {A} (f : DB -> A) : M A := fun s => (Ok (f (working s)), s).

(** A write to the working copy. *)
Definition modify (f : DB -> DB) : M unit :=
  fun s => (Ok tt, mkSession (committed s) (f (working s))).

(** [db.commit()] *)
Definition commit : M unit :=
  fun s => (Ok tt, mkSession (working s) (working s)).

(** One request: [get_db] opens a session on the stored database, the
    handler runs, and the session is closed.  What was not committed is
    lost. *)
Definition run_request {A} (m : M A) (db : DB) : result A * DB :=
  let (r, s) := m (mkSession db db) in (r, committed s).

(** ** Table access *)

Definition set_users (f : list User.t -> list User.t) (db : DB) : DB :=
  mkDB (f (users db)) (auth_accounts db) (ad_units db) (ad_views db)
       (balances db) (transactions db) (withdrawals db).
Definition set_auth_accounts (f : list AuthAccount.t -> list AuthAccount.t) (db : DB) : DB :=
  mkDB (users db) (f (auth_accounts db)) (ad_units db) (ad_views db)
       (balances db) (transactions db) (withdrawals db).
Definition set_ad_units (f : list AdUnit.t -> list AdUnit.t) (db : DB) : DB :=
  mkDB (users db) (auth_accounts db) (f (ad_units db)) (ad_views db)
       (balances db) (transactions db) (withdrawals db).
Definition set_ad_views (f : list AdView.t -> list AdView.t) (db : DB) : DB :=
  mkDB (users db) (auth_accounts db) (ad_units db) (f (ad_views db))
       (balances db) (transactions db) (withdrawals db).
Definition set_balances (f : list Balance.t -> list Balance.t) (db : DB) : DB :=
  mkDB (users db) (auth_accounts db) (ad_units db) (ad_views db)
       (f (balances db)) (transactions db) (withdrawals db).
Definition set_transactions (f : list Transaction.t -> list Transaction.t) (db : DB) : DB :=
  mkDB (users db) (auth_accounts db) (ad_units db) (ad_views db)
       (balances db) (f (transactions db)) (withdrawals db).
Definition set_withdrawals (f : list Withdrawal.t -> list Withdrawal.t) (db : DB) : DB :=
  mkDB (users db) (auth_accounts db) (ad_units db) (ad_views db)
       (balances db) (transactions db) (f (withdrawals db)).

(** [db.get(Model, key)]: the row with that primary key. *)
Definition get_User (key : string) (db : DB) : option User.t :=
  find (fun u => User.id u =? key)%string (users db).
Definition get_AdUnit (key : string) (db : DB) : option AdUnit.t :=
  find (fun a => AdUnit.id a =? key)%string (ad_units db).
Definition get_Withdrawal (key : string) (db : DB) : option Withdrawal.t :=
  find (fun w => Withdrawal.id w =? key)%string (withdrawals db).

(** [user.balance], the one-to-one relationship: the balance row keyed by
    the user's id, or [None]. *)
Definition user_balance (user : User.t) (db : DB) : option Balance.t :=
  find (fun b => Balance.user_id b =? User.id user)%string (balances db).

(** [user.withdrawals] *)
Definition user_withdrawals (user : User.t) (db : DB) : list Withdrawal.t :=
  filter (fun w => Withdrawal.user_id w =? User.id user)%string (withdrawals db).

(** [db.add(row)] followed by the flush that sends the INSERT.  No handler
    reads the database between an [add] and the next flush or commit, so
    the constraint check is made at the [add]. *)
Definition add_User (u : User.t) : M unit :=
  clash <- query (fun db => existsb (fun x => (User.id x =? User.id u)
                                           || (User.email x =? User.email u))%string
                                    (users db)) ;;
  if clash then raise IntegrityError else modify (set_users (fun l => (l ++ [u])%list)).

Definition add_AuthAccount (a : AuthAccount.t) : M unit :=
  clash <- query (fun db =>
    existsb (fun x => (AuthAccount.id x =? AuthAccount.id a)
                      || (AuthAccount.provider_id x =? AuthAccount.provider_id a))%string
            (auth_accounts db)) ;;
  if clash then raise IntegrityError else modify (set_auth_accounts (fun l => (l ++ [a])%list)).

Definition add_AdUnit (a : AdUnit.t) : M unit :=
  clash <- query (fun db => existsb (fun x => AdUnit.id x =? AdUnit.id a)%string (ad_units db)) ;;
  if clash then raise IntegrityError else modify (set_ad_units (fun l => (l ++ [a])%list)).

Definition add_AdView (v : AdView.t) : M unit :=
  clash <- query (fun db =>
    existsb (fun x => (AdView.id x =? AdView.id v)
                      || (AdView.session_token x =? AdView.session_token v))%string
            (ad_views db)) ;;
  if clash then raise IntegrityError else modify (set_ad_views (fun l => (l ++ [v])%list)).

Definition add_Balance (b : Balance.t) : M unit :=
  clash <- query (fun db => existsb (fun x => Balance.user_id x =? Balance.user_id b)%string
                                    (balances db)) ;;
  if clash then raise IntegrityError else modify (set_balances (fun l => (l ++ [b])%list)).

Definition add_Transaction (t : Transaction.t) : M unit :=
  clash <- query (fun db => existsb (fun x => Transaction.id x =? Transaction.id t)%string
                                    (transactions db)) ;;
  if clash then raise IntegrityError else modify (set_transactions (fun l => (l ++ [t])%list)).

Definition add_Withdrawal (w : Withdrawal.t) : M unit :=
  clash <- query (fun db => existsb (fun x => Withdrawal.id x =? Withdrawal.id w)%string
                                    (withdrawals db)) ;;
  if clash then raise IntegrityError else modify (set_withdrawals (fun l => (l ++ [w])%list)).

(** Attribute assignment on a loaded row: the UPDATE is keyed by the
    row's primary key. *)
Definition update_AdView (key : string) (f : AdView.t -> AdView.t) : M unit :=
  modify (set_ad_views (map (fun v => if (AdView.id v =? key)%string then f v else v))).

Definition update_Balance (key : string) (f : Balance.t -> Balance.t) : M unit :=
  modify (set_balances (map (fun b => if (Balance.user_id b =? key)%string then f b else b))).

Definition update_Withdrawal (key : string) (f : Withdrawal.t -> Withdrawal.t) : M unit :=
  modify (set_withdrawals (map (fun w => if (Withdrawal.id w =? key)%string then f w else w))).

(** [query.order_by(key.desc())].  SQL leaves the order of rows with equal
    keys open; the model keeps them in table order. *)
Fixpoint insert_desc {A} (key : A -> Z) (x : A) (l : list A) : list A :=
  match l with
  | [] => [x]
  | y :: l' => if key y <=? key x then x :: l else y :: insert_desc key x l'
  end.

Definition order_by_desc {A} (key : A -> Z) (l : list A) : list A :=
  fold_right (insert_desc key) [] l.

(** [timedelta(seconds=n)], in microseconds.  Python normalises to days
    and rejects more than 999999999 of them. *)
Definition timedelta_seconds (n : Z) : M Z :=
  if (Z.abs (n / 86400) >? 999999999) then raise OverflowError
  else ret (n * usec_per_second).

(** [random.uniform(a, b)] is [a + (b - a) * random()], the draw
    [random()] lying in the half-open interval from 0 to 1. *)
Definition uniform (draw a b : Q) : Q := (a + (b - a) * draw)%Q.

Definition or_raise {A} (o : option A) (e : Exn) : M A :=
  match o with
  | Some a => ret a
  | None => raise e
  end.

Definition raise_if (b : bool) (e : Exn) : M unit :=
  if b then raise e else ret tt.

Fixpoint mapM {A B} (f : A -> M B) (l : list A) : M (list B) :=
  match l with
  | [] => ret []
  | x :: l' => y <- f x ;; ys <- mapM f l' ;; ret (y :: ys)
  end.

(** ** main.py: request and response models *)

Module AuthRegisterRequest.
Record t : Type := mk { email : string; password : string; username : string }.
End AuthRegisterRequest.

Module AuthRegisterResponse.
Record t : Type := mk { message : string; user_id : string; verification_required : bool }.
End AuthRegisterResponse.

Module GoogleAuthRequest.
Record t : Type := mk { id_token : string }.
End GoogleAuthRequest.

Module TokenResponse.
Record t : Type := mk { access_token : string; token_type : string; user_id : string }.
End TokenResponse.

Module BalanceResponse.
Record t : Type := mk { balance : Q; pending : Q; currency : string }.
End BalanceResponse.

Module AdStartRequest.
Record t : Type := mk { ad_unit_id : string }.
End AdStartRequest.

Module AdStartResponse.
Record t : Type := mk { session_token : string; cooldown_seconds : Z }.
End AdStartResponse.

Module AdCompleteRequest.
Record t : Type := mk { session_token : string }.
End AdCompleteRequest.

Module AdCompleteResponse.
Record t : Type := mk { reward : Q; new_balance : Q }.
End AdCompleteResponse.

Module EarningsItem.
Record t : Type := mk {
    transaction_id : string;
    amount : Q;
    occurred_at : datetime;
    source : string
  }.
End EarningsItem.

Module EarningsHistoryResponse.
Record t : Type := mk { items : list EarningsItem.t }.
End EarningsHistoryResponse.

Module WithdrawRequest.
Record t : Type := mk { amount : Q; payout_method : string; destination : string }.
End WithdrawRequest.

Module WithdrawResponse.
Record t : Type := mk { withdrawal_id : string; status : string; queued_at : datetime }.
End WithdrawResponse.

(** The [status] field of [AdminWithdrawalReviewRequest] is a string
    constrained by the pattern [^(approved|rejected)$]: two values. *)
Inductive ReviewStatus : Type := approved | rejected.

Definition review_status_str (d : ReviewStatus) : string :=
  match d with
  | approved => "approved"
  | rejected => "rejected"
  end.

Module AdminWithdrawalReviewRequest.
Record t : Type := mk { status : ReviewStatus; review_notes : option string }.
End AdminWithdrawalReviewRequest.

Module AdminUserSummary.
Record t : Type := mk {
    user_id : string;
    email : string;
    username : string;
    balance : Q;
    pending : Q
  }.
End AdminUserSummary.

Module AdminWithdrawalSummary.
Record t : Type := mk {
    withdrawal_id : string;
    user_id : string;
    amount : Q;
    status : string;
    created_at : datetime
  }.
End AdminWithdrawalSummary.

(** ** main.py: what each handler draws from outside *)

(** [on_startup]: the primary key of the seeded ad unit. *)
Record StartupEnv : Type := mkStartupEnv { su_unit_id : string }.

(** [register]: [pwd_context.hash] with its salt drawn, the new primary
    key, and the two column defaults read from the clock. *)
Record RegisterEnv : Type := mkRegisterEnv {
  reg_hash : string -> string;
  reg_user_id : string;
  reg_created_at : datetime;
  reg_balance_updated_at : datetime
}.

(** [google_auth]: [uuid4().hex] hashed as the password, the keys and
    clock defaults of the three rows, and the [uuid4().hex] returned as
    access token. *)
Record GoogleEnv : Type := mkGoogleEnv {
  g_password : string;
  g_hash : string -> string;
  g_user_id : string;
  g_user_created_at : datetime;
  g_balance_updated_at : datetime;
  g_account_id : string;
  g_account_created_at : datetime;
  g_access_token : string
}.

(** [ads_start]: the [utcnow()] of the cooldown test, the [utcnow()] of
    the day boundary, [uuid4().hex], and the key and [started_at] default
    of the inserted row. *)
Record StartEnv : Type := mkStartEnv {
  st_now_elapsed : datetime;
  st_now_day : datetime;
  st_session_token : string;
  st_view_id : string;
  st_started_at : datetime
}.

(** [ads_complete]: [random.random()], the two [utcnow()] calls, and the
    key and [occurred_at] default of the transaction. *)
Record CompleteEnv : Type := mkCompleteEnv {
  cp_random : Q;
  cp_completed_at : datetime;
  cp_updated_at : datetime;
  cp_transaction_id : string;
  cp_occurred_at : datetime
}.

(** [request_withdraw] *)
Record WithdrawEnv : Type := mkWithdrawEnv {
  wd_updated_at : datetime;
  wd_withdrawal_id : string;
  wd_created_at : datetime;
  wd_transaction_id : string;
  wd_occurred_at : datetime
}.

(** [review_withdrawal] *)
Record ReviewEnv : Type := mkReviewEnv { rv_reviewed_at : datetime }.

(** ** main.py: dependencies and handlers *)

Definition ADMIN_TOKEN : string := "admin_demo".

Definition get_user (user_id : string) : M User.t :=
  user <- query (get_User user_id) ;;
  or_raise user (HTTPException HTTP_404_NOT_FOUND "User not found").

Definition require_admin (admin_token : string) : M unit :=
  raise_if (negb (admin_token =? ADMIN_TOKEN)%string)
           (HTTPException HTTP_403_FORBIDDEN "Not authorized").

Definition on_startup (env : StartupEnv) : M unit :=
  first <- query (fun db => hd_error (ad_units db)) ;;
  match first with
  | Some _ => ret tt
  | None =>
      add_AdUnit (AdUnit.mk (su_unit_id env) "Rewarded Video" 0.002 0.01 60 30 true) ;;;
      commit
  end.

Definition register (env : RegisterEnv) (payload : AuthRegisterRequest.t)
  : M AuthRegisterResponse.t :=
  existing <- query (fun db =>
    find (fun u => User.email u =? AuthRegisterRequest.email payload)%string (users db)) ;;
  match existing with
  | Some _ => raise (HTTPException HTTP_400_BAD_REQUEST "Email already used")
  | None =>
      let user := User.mk (reg_user_id env)
                          (AuthRegisterRequest.email payload)
                          (AuthRegisterRequest.username payload)
                          (reg_hash env (AuthRegisterRequest.password payload))
                          true
                          (reg_created_at env) in
      add_User user ;;;
      add_Balance (Balance.mk (User.id user) 0 0 (reg_balance_updated_at env)) ;;;
      commit ;;;
      ret (AuthRegisterResponse.mk "Registered successfully" (User.id user) true)
  end.

(** [f"google_{id_token[:8]}@example.com"] and [f"google_{id_token[:8]}"] *)
Definition google_email (id_token : string) : string :=
  ("google_" ++ substring 0 8 id_token ++ "@example.com")%string.
Definition google_username (id_token : string) : string :=
  ("google_" ++ substring 0 8 id_token)%string.

Definition google_auth (env : GoogleEnv) (payload : GoogleAuthRequest.t)
  : M TokenResponse.t :=
  let id_token := GoogleAuthRequest.id_token payload in
  raise_if (id_token =? "")%string
           (HTTPException HTTP_400_BAD_REQUEST "Invalid token") ;;;
  auth_account <- query (fun db =>
    find (fun a => (AuthAccount.provider a =? "google")
                   && (AuthAccount.provider_id a =? id_token))%string
         (auth_accounts db)) ;;
  user <- match auth_account with
          | Some a =>
              user <- query (get_User (AuthAccount.user_id a)) ;;
              or_raise user AttributeError
          | None =>
              let user := User.mk (g_user_id env)
                                  (google_email id_token)
                                  (google_username id_token)
                                  (g_hash env (g_password env))
                                  true
                                  (g_user_created_at env) in
              add_User user ;;;
              add_Balance (Balance.mk (User.id user) 0 0 (g_balance_updated_at env)) ;;;
              add_AuthAccount (AuthAccount.mk (g_account_id env) (User.id user) "google"
                                              id_token (g_account_created_at env)) ;;;
              commit ;;;
              ret user
          end ;;
  ret (TokenResponse.mk (g_access_token env) "bearer" (User.id user)).

(** The first query of [ads_start]: the user's ad views, latest start first. *)
Definition recent_view_of (user : User.t) (db : DB) : option AdView.t :=
  hd_error (order_by_desc AdView.started_at
              (filter (fun v => AdView.user_id v =? User.id user)%string (ad_views db))).

(** The second query of [ads_start]: how many of the user's ad views are
    completed and were started at or after [since]. *)
Definition daily_count_of (user : User.t) (since : datetime) (db : DB) : Z :=
  Z.of_nat (List.length (filter (fun v => (AdView.user_id v =? User.id user)%string
                                     && (AdView.status v =? "completed")%string
                                     && (since <=? AdView.started_at v))
                           (ad_views db))).

Definition ads_start (env : StartEnv) (user_id : string) (payload : AdStartRequest.t)
  : M AdStartResponse.t :=
  user <- get_user user_id ;;
  found <- query (get_AdUnit (AdStartRequest.ad_unit_id payload)) ;;
  match found with
  | None => raise (HTTPException HTTP_404_NOT_FOUND "Ad unit not found")
  | Some ad_unit =>
      raise_if (negb (AdUnit.is_active ad_unit))
               (HTTPException HTTP_404_NOT_FOUND "Ad unit not found") ;;;
      recent_view <- query (recent_view_of user) ;;
      match recent_view with
      | Some recent =>
          let elapsed := st_now_elapsed env - AdView.started_at recent in
          cooldown <- timedelta_seconds (AdUnit.cooldown_seconds ad_unit) ;;
          raise_if (elapsed <? cooldown)
                   (HTTPException HTTP_429_TOO_MANY_REQUESTS "Cooldown active")
      | None => ret tt
      end ;;;
      daily_count <- query (daily_count_of user (start_of_day (st_now_day env))) ;;
      raise_if (daily_count >=? AdUnit.daily_cap ad_unit)
               (HTTPException HTTP_429_TOO_MANY_REQUESTS "Daily cap reached") ;;;
      add_AdView (AdView.mk (st_view_id env) (User.id user) (AdUnit.id ad_unit)
                            (st_session_token env) (st_started_at env)
                            None None "started") ;;;
      commit ;;;
      ret (AdStartResponse.mk (st_session_token env) (AdUnit.cooldown_seconds ad_unit))
  end.

Definition complete_view (now : datetime) (reward : Q) (v : AdView.t) : AdView.t :=
  AdView.mk (AdView.id v) (AdView.user_id v) (AdView.ad_unit_id v)
            (AdView.session_token v) (AdView.started_at v)
            (Some now) (Some reward) "completed".

Definition credit (now : datetime) (reward : Q) (b : Balance.t) : Balance.t :=
  Balance.mk (Balance.user_id b) (Balance.available b + reward)%Q
             (Balance.pending b) now.

Definition ads_complete (env : CompleteEnv) (user_id : string) (payload : AdCompleteRequest.t)
  : M AdCompleteResponse.t :=
  user <- get_user user_id ;;
  found <- query (fun db =>
    find (fun v => AdView.session_token v =? AdCompleteRequest.session_token payload)%string
         (ad_views db)) ;;
  match found with
  | None => raise (HTTPException HTTP_404_NOT_FOUND "Session not found")
  | Some ad_view =>
      raise_if (negb (AdView.user_id ad_view =? User.id user)%string)
               (HTTPException HTTP_404_NOT_FOUND "Session not found") ;;;
      raise_if (negb (AdView.status ad_view =? "started")%string)
               (HTTPException HTTP_400_BAD_REQUEST "Already completed") ;;;
      ad_unit <- query (get_AdUnit (AdView.ad_unit_id ad_view)) ;;
      let reward := match ad_unit with
                    | Some u => uniform (cp_random env) (AdUnit.reward_min u) (AdUnit.reward_max u)
                    | None => 0%Q
                    end in
      update_AdView (AdView.id ad_view) (complete_view (cp_completed_at env) reward) ;;;
      loaded <- query (user_balance user) ;;
      balance <- or_raise loaded AttributeError ;;
      update_Balance (Balance.user_id balance) (credit (cp_updated_at env) reward) ;;;
      add_Transaction (Transaction.mk (cp_transaction_id env) (User.id user)
                                      "earn" "ad_view" reward (cp_occurred_at env)) ;;;
      commit ;;;
      ret (AdCompleteResponse.mk reward (Balance.available balance + reward)%Q)
  end.

Definition get_balance (user_id : string) : M BalanceResponse.t :=
  user <- get_user user_id ;;
  loaded <- query (user_balance user) ;;
  balance <- or_raise loaded AttributeError ;;
  ret (BalanceResponse.mk (Balance.available balance) (Balance.pending balance) "USD").

Definition earnings_item (t : Transaction.t) : EarningsItem.t :=
  EarningsItem.mk (Transaction.id t) (Transaction.amount t)
                  (Transaction.occurred_at t) (Transaction.source t).

(** The query of [get_history]. *)
Definition history_rows (user : User.t) (db : DB) : list Transaction.t :=
  firstn 20 (order_by_desc Transaction.occurred_at
               (filter (fun t => Transaction.user_id t =? User.id user)%string
                       (transactions db))).

Definition get_history (user_id : string) : M EarningsHistoryResponse.t :=
  user <- get_user user_id ;;
  rows <- query (history_rows user) ;;
  ret (EarningsHistoryResponse.mk (map earnings_item rows)).

Definition hold (now : datetime) (amount : Q) (b : Balance.t) : Balance.t :=
  Balance.mk (Balance.user_id b) (Balance.available b - amount)%Q
             (Balance.pending b + amount)%Q now.

Definition request_withdraw (env : WithdrawEnv) (user_id : string) (payload : WithdrawRequest.t)
  : M WithdrawResponse.t :=
  user <- get_user user_id ;;
  let amount := WithdrawRequest.amount payload in
  raise_if (QMicromega.Qlt_bool amount 10)
           (HTTPException HTTP_400_BAD_REQUEST "Minimum is $10") ;;;
  loaded <- query (user_balance user) ;;
  balance <- or_raise loaded AttributeError ;;
  raise_if (QMicromega.Qlt_bool (Balance.available balance) amount)
           (HTTPException HTTP_400_BAD_REQUEST "Insufficient balance") ;;;
  update_Balance (Balance.user_id balance) (hold (wd_updated_at env) amount) ;;;
  let withdrawal := Withdrawal.mk (wd_withdrawal_id env) (User.id user) amount 0.2
                                  (WithdrawRequest.payout_method payload)
                                  (WithdrawRequest.destination payload)
                                  "pending" (wd_created_at env) None None in
  add_Withdrawal withdrawal ;;;
  add_Transaction (Transaction.mk (wd_transaction_id env) (User.id user)
                                  "spend" "withdrawal" (- amount)%Q (wd_occurred_at env)) ;;;
  commit ;;;
  ret (WithdrawResponse.mk (Withdrawal.id withdrawal) (Withdrawal.status withdrawal)
                           (Withdrawal.created_at withdrawal)).

Definition withdraw_response (w : Withdrawal.t) : WithdrawResponse.t :=
  WithdrawResponse.mk (Withdrawal.id w) (Withdrawal.status w) (Withdrawal.created_at w).

Definition list_withdrawals (user_id : string) : M (list WithdrawResponse.t) :=
  user <- get_user user_id ;;
  rows <- query (user_withdrawals user) ;;
  ret (map withdraw_response rows).

Definition list_users (admin_token : string) : M (list AdminUserSummary.t) :=
  require_admin admin_token ;;;
  rows <- query users ;;
  mapM (fun user =>
          loaded <- query (user_balance user) ;;
          balance <- or_raise loaded AttributeError ;;
          ret (AdminUserSummary.mk (User.id user) (User.email user) (User.username user)
                                   (Balance.available balance) (Balance.pending balance)))
       rows.

Definition list_withdrawals_admin (admin_token : string) : M (list AdminWithdrawalSummary.t) :=
  require_admin admin_token ;;;
  rows <- query (fun db => order_by_desc Withdrawal.created_at (withdrawals db)) ;;
  ret (map (fun w => AdminWithdrawalSummary.mk (Withdrawal.id w) (Withdrawal.user_id w)
                       (Withdrawal.amount w) (Withdrawal.status w) (Withdrawal.created_at w))
           rows).

Definition review (now : datetime) (payload : AdminWithdrawalReviewRequest.t)
                  (w : Withdrawal.t) : Withdrawal.t :=
  Withdrawal.mk (Withdrawal.id w) (Withdrawal.user_id w) (Withdrawal.amount w)
                (Withdrawal.fee w) (Withdrawal.payout_method w) (Withdrawal.destination w)
                (review_status_str (AdminWithdrawalReviewRequest.status payload))
                (Withdrawal.created_at w)
                (Some now)
                (AdminWithdrawalReviewRequest.review_notes payload).

Definition review_withdrawal (env : ReviewEnv) (admin_token : string) (withdrawal_id : string)
                             (payload : AdminWithdrawalReviewRequest.t)
  : M WithdrawResponse.t :=
  require_admin admin_token ;;;
  found <- query (get_Withdrawal withdrawal_id) ;;
  withdrawal <- or_raise found (HTTPException HTTP_404_NOT_FOUND "Withdrawal not found") ;;
  update_Withdrawal (Withdrawal.id withdrawal) (review (rv_reviewed_at env) payload) ;;;
  commit ;;;
  ret (withdraw_response (review (rv_reviewed_at env) payload withdrawal)).

(** ** Requests and reachable databases *)

Inductive Request : Type :=
| ReqStartup (env : StartupEnv)
| ReqRegister (env : RegisterEnv) (payload : AuthRegisterRequest.t)
| ReqGoogleAuth (env : GoogleEnv) (payload : GoogleAuthRequest.t)
| ReqAdsStart (env : StartEnv) (user_id : string) (payload : AdStartRequest.t)
| ReqAdsComplete (env : CompleteEnv) (user_id : string) (payload : AdCompleteRequest.t)
| ReqGetBalance (user_id : string)
| ReqGetHistory (user_id : string)
| ReqWithdraw (env : WithdrawEnv) (user_id : string) (payload : WithdrawRequest.t)
| ReqListWithdrawals (user_id : string)
| ReqListUsers (admin_token : string)
| ReqListWithdrawalsAdmin (admin_token : string)
| ReqReview (env : ReviewEnv) (admin_token : string) (withdrawal_id : string)
            (payload : AdminWithdrawalReviewRequest.t).

(** The database a request leaves behind. *)
Definition exec (r : Request) (db : DB) : DB :=
  match r with
  | ReqStartup env => snd (run_request (on_startup env) db)
  | ReqRegister env p => snd (run_request (register env p) db)
  | ReqGoogleAuth env p => snd (run_request (google_auth env p) db)
  | ReqAdsStart env u p => snd (run_request (ads_start env u p) db)
  | ReqAdsComplete env u p => snd (run_request (ads_complete env u p) db)
  | ReqGetBalance u => snd (run_request (get_balance u) db)
  | ReqGetHistory u => snd (run_request (get_history u) db)
  | ReqWithdraw env u p => snd (run_request (request_withdraw env u p) db)
  | ReqListWithdrawals u => snd (run_request (list_withdrawals u) db)
  | ReqListUsers a => snd (run_request (list_users a) db)
  | ReqListWithdrawalsAdmin a => snd (run_request (list_withdrawals_admin a) db)
  | ReqReview env a w p => snd (run_request (review_withdrawal env a w p) db)
  end.

Definition exec_all (rs : list Request) (db : DB) : DB :=
  fold_left (fun d r => exec r d) rs db.

(** A deployment starts with its ad inventory and nothing else; every
    later database is the result of a sequence of requests. *)
Definition fresh_db (units : list AdUnit.t) : DB := mkDB [] [] units [] [] [] [].

Inductive reachable (units : list AdUnit.t) : DB -> Prop :=
| reach_fresh : reachable units (fresh_db units)
| reach_exec : forall db r, reachable units db -> reachable units (exec r db).

(** ** The responses of the handlers, by name *)

Definition user_not_found : Exn := HTTPException 404 "User not found".

Definition email_already_used : Exn := HTTPException 400 "Email already used".

Definition ad_unit_not_found : Exn := HTTPException 404 "Ad unit not found".
Definition cooldown_active : Exn := HTTPException 429 "Cooldown active".
Definition daily_cap_reached : Exn := HTTPException 429 "Daily cap reached".

Definition session_not_found : Exn := HTTPException 404 "Session not found".
Definition already_completed : Exn := HTTPException 400 "Already completed".

Definition minimum_is_10 : Exn := HTTPException 400 "Minimum is $10".
Definition insufficient_balance : Exn := HTTPException 400 "Insufficient balance".

Definition not_authorized : Exn := HTTPException 403 "Not authorized".
Definition withdrawal_not_found : Exn := HTTPException 404 "Withdrawal not found".

(** ** Parts of the handlers, named for the statements below *)

Definition registered_user (env : RegisterEnv) (p : AuthRegisterRequest.t) : User.t :=
  User.mk (reg_user_id env) (AuthRegisterRequest.email p) (AuthRegisterRequest.username p)
          (reg_hash env (AuthRegisterRequest.password p)) true (reg_created_at env).

Definition user_clash (u : User.t) (db : DB) : bool :=
  existsb (fun x => (User.id x =? User.id u) || (User.email x =? User.email u))%string
          (users db).

Definition balance_clash (key : string) (db : DB) : bool :=
  existsb (fun x => Balance.user_id x =? key)%string (balances db).

Definition find_email (email : string) (db : DB) : option User.t :=
  find (fun u => User.email u =? email)%string (users db).

Definition google_user (env : GoogleEnv) (id_token : string) : User.t :=
  User.mk (g_user_id env) (google_email id_token) (google_username id_token)
          (g_hash env (g_password env)) true (g_user_created_at env).

Definition find_google_account (id_token : string) (db : DB) : option AuthAccount.t :=
  find (fun a => (AuthAccount.provider a =? "google")
                 && (AuthAccount.provider_id a =? id_token))%string
       (auth_accounts db).

Definition account_clash (key id_token : string) (db : DB) : bool :=
  existsb (fun x => (AuthAccount.id x =? key) || (AuthAccount.provider_id x =? id_token))%string
          (auth_accounts db).

Definition started_view (env : StartEnv) (user : User.t) (ad_unit : AdUnit.t) : AdView.t :=
  AdView.mk (st_view_id env) (User.id user) (AdUnit.id ad_unit) (st_session_token env)
            (st_started_at env) None None "started".

Definition view_clash (env : StartEnv) (db : DB) : bool :=
  existsb (fun x => (AdView.id x =? st_view_id env)
                    || (AdView.session_token x =? st_session_token env))%string
          (ad_views db).

(** The cooldown test of [ads_start] lets the request through. *)
Definition cooldown_passed (env : StartEnv) (ad_unit : AdUnit.t) (user : User.t) (db : DB)
  : Prop :=
  match recent_view_of user db with
  | None => True
  | Some recent =>
      Z.abs (AdUnit.cooldown_seconds ad_unit / 86400) <= 999999999
      /\ AdUnit.cooldown_seconds ad_unit * usec_per_second
         <= st_now_elapsed env - AdView.started_at recent
  end.

(** The test a view has to pass to be counted by [daily_count_of]. *)
Definition counted (user : User.t) (since : datetime) (v : AdView.t) : bool :=
  (AdView.user_id v =? User.id user)%string
  && (AdView.status v =? "completed")%string
  && (since <=? AdView.started_at v).

(** [ads_start] once user and ad unit are resolved and the cooldown test
    is behind. *)
Definition ads_start_tail (env : StartEnv) (user : User.t) (ad_unit : AdUnit.t) (db : DB)
  : result AdStartResponse.t * DB :=
  if daily_count_of user (start_of_day (st_now_day env)) db >=? AdUnit.daily_cap ad_unit
  then (Raise daily_cap_reached, db)
  else if view_clash env db then (Raise IntegrityError, db)
  else (Ok (AdStartResponse.mk (st_session_token env) (AdUnit.cooldown_seconds ad_unit)),
        set_ad_views (fun l => (l ++ [started_view env user ad_unit])%list) db).

Definition find_session (token : string) (db : DB) : option AdView.t :=
  find (fun v => AdView.session_token v =? token)%string (ad_views db).

(** The reward [ads_complete] pays for a view. *)
Definition reward_for (env : CompleteEnv) (ad_view : AdView.t) (db : DB) : Q :=
  match get_AdUnit (AdView.ad_unit_id ad_view) db with
  | Some u => uniform (cp_random env) (AdUnit.reward_min u) (AdUnit.reward_max u)
  | None => 0%Q
  end.

Definition transaction_clash (key : string) (db : DB) : bool :=
  existsb (fun x => Transaction.id x =? key)%string (transactions db).

Definition withdrawal_clash (key : string) (db : DB) : bool :=
  existsb (fun x => Withdrawal.id x =? key)%string (withdrawals db).

Definition requested_withdrawal (env : WithdrawEnv) (user : User.t) (p : WithdrawRequest.t)
  : Withdrawal.t :=
  Withdrawal.mk (wd_withdrawal_id env) (User.id user) (WithdrawRequest.amount p) 0.2
                (WithdrawRequest.payout_method p) (WithdrawRequest.destination p)
                "pending" (wd_created_at env) None None.

Definition is_terminal (w : Withdrawal.t) : bool :=
  ((Withdrawal.status w =? "approved") || (Withdrawal.status w =? "rejected"))%string.

(** ** What a request can do to the database

    [effect db db'] lists the ways a single request changes the stored
    database, with the facts the handler has checked on the way. *)

(** The ad unit [on_startup] seeds. *)
Definition seeded_unit (env : StartupEnv) : AdUnit.t :=
  AdUnit.mk (su_unit_id env) "Rewarded Video" 0.002 0.01 60 30 true.

Definition new_user_db (u : User.t) (accounts : list AuthAccount.t) (now : datetime) (db : DB)
  : DB :=
  mkDB (users db ++ [u]) (auth_accounts db ++ accounts) (ad_units db) (ad_views db)
       (balances db ++ [Balance.mk (User.id u) 0 0 now])
       (transactions db) (withdrawals db).

Definition completed_db (env : CompleteEnv) (user : User.t) (ad_view : AdView.t)
                        (reward : Q) (db : DB) : DB :=
  mkDB (users db) (auth_accounts db) (ad_units db)
       (map (fun v => if (AdView.id v =? AdView.id ad_view)%string
                      then complete_view (cp_completed_at env) reward v else v)
            (ad_views db))
       (map (fun b => if (Balance.user_id b =? User.id user)%string
                      then credit (cp_updated_at env) reward b else b)
            (balances db))
       (transactions db ++ [Transaction.mk (cp_transaction_id env) (User.id user)
                              "earn" "ad_view" reward (cp_occurred_at env)])
       (withdrawals db).

Definition withdrawn_db (env : WithdrawEnv) (user : User.t) (p : WithdrawRequest.t) (db : DB)
  : DB :=
  mkDB (users db) (auth_accounts db) (ad_units db) (ad_views db)
       (map (fun b => if (Balance.user_id b =? User.id user)%string
                      then hold (wd_updated_at env) (WithdrawRequest.amount p) b else b)
            (balances db))
       (transactions db ++ [Transaction.mk (wd_transaction_id env) (User.id user)
                              "spend" "withdrawal" (- WithdrawRequest.amount p)%Q
                              (wd_occurred_at env)])
       (withdrawals db ++ [requested_withdrawal env user p]).

Definition reviewed_db (env : ReviewEnv) (p : AdminWithdrawalReviewRequest.t)
                       (w : Withdrawal.t) (db : DB) : DB :=
  set_withdrawals
    (map (fun x => if (Withdrawal.id x =? Withdrawal.id w)%string
                   then review (rv_reviewed_at env) p x else x)) db.

Inductive effect (db : DB) : DB -> Prop :=
| eff_none : effect db db
| eff_startup : forall env,
    ad_units db = [] ->
    effect db (set_ad_units (fun l => (l ++ [seeded_unit env])%list) db)
| eff_new_user : forall u accounts now,
    user_clash u db = false ->
    balance_clash (User.id u) db = false ->
    effect db (new_user_db u accounts now db)
| eff_start : forall env uid user ad_unit,
    get_User uid db = Some user ->
    view_clash env db = false ->
    effect db (set_ad_views (fun l => (l ++ [started_view env user ad_unit])%list) db)
| eff_complete : forall env uid user ad_view balance reward,
    get_User uid db = Some user ->
    find_session (AdView.session_token ad_view) db = Some ad_view ->
    AdView.user_id ad_view = User.id user ->
    AdView.status ad_view = "started" ->
    user_balance user db = Some balance ->
    transaction_clash (cp_transaction_id env) db = false ->
    effect db (completed_db env user ad_view reward db)
| eff_withdraw : forall env uid user balance p,
    get_User uid db = Some user ->
    user_balance user db = Some balance ->
    withdrawal_clash (wd_withdrawal_id env) db = false ->
    transaction_clash (wd_transaction_id env) db = false ->
    effect db (withdrawn_db env user p db)
| eff_review : forall env p wid w,
    get_Withdrawal wid db = Some w ->
    effect db (reviewed_db env p w db).

(** How the withdrawal table of [db'] may differ from that of [db]: the
    old rows are kept in place, each with its status either untouched or
    set to a review decision, and the rows added are pending. *)
Definition withdrawals_evolve (db db' : DB) : Prop :=
  exists g added,
    withdrawals db' = map g (withdrawals db) ++ added
    /\ (forall x, Withdrawal.id (g x) = Withdrawal.id x
                  /\ (Withdrawal.status (g x) = Withdrawal.status x
                      \/ Withdrawal.status (g x) = "approved"
                      \/ Withdrawal.status (g x) = "rejected"))
    /\ Forall (fun w => Withdrawal.status w = "pending") added.

(** Over several requests: the old rows are kept in place, each with its
    status either untouched or set to a review decision. *)
Definition statuses_kept (db db' : DB) : Prop :=
  exists g rest,
    withdrawals db' = map g (withdrawals db) ++ rest
    /\ forall x, Withdrawal.id (g x) = Withdrawal.id x
                 /\ (Withdrawal.status (g x) = Withdrawal.status x
                     \/ Withdrawal.status (g x) = "approved"
                     \/ Withdrawal.status (g x) = "rejected").

(** ** The ledger *)

Definition Qsum (l : list Q) : Q := fold_right Qplus 0%Q l.

Definition transactions_of (uid : string) (db : DB) : list Transaction.t :=
  filter (fun t => Transaction.user_id t =? uid)%string (transactions db).

Definition withdrawals_of (uid : string) (db : DB) : list Withdrawal.t :=
  filter (fun w => Withdrawal.user_id w =? uid)%string (withdrawals db).

(** The sum of the amounts of a user's transactions, and of the amounts of
    a user's withdrawal requests. *)
Definition sum_transactions (uid : string) (db : DB) : Q :=
  Qsum (map Transaction.amount (transactions_of uid db)).

Definition sum_withdrawals (uid : string) (db : DB) : Q :=
  Qsum (map Withdrawal.amount (withdrawals_of uid db)).


Record ledger_inv (db : DB) : Prop := mk_ledger_inv {
  inv_tx_owner : forall t, In t (transactions db) ->
                   get_User (Transaction.user_id t) db <> None;
  inv_wd_owner : forall w, In w (withdrawals db) ->
                   get_User (Withdrawal.user_id w) db <> None;
  inv_has_balance : forall u, In u (users db) -> user_balance u db <> None;
  inv_available : forall b, In b (balances db) ->
                    (Balance.available b == sum_transactions (Balance.user_id b) db)%Q;
  inv_pending : forall b, In b (balances db) ->
                  (Balance.pending b == sum_withdrawals (Balance.user_id b) db)%Q
}.

(** ** Orders and counts *)

(** Descending order of keys: [x] may stand before [y]. *)
Definition desc {A} (key : A -> Z) (x y : A) : Prop := key y <= key x.

(** The count as the claim words it, per user and per ad unit: the user's
    views of that ad unit that are completed and were started at or after
    [since].  (The handler's own count is [daily_count_of].) *)
Definition daily_count_for_unit (user : User.t) (ad_unit : AdUnit.t) (since : datetime)
                                (db : DB) : Z :=
  Z.of_nat (List.length
              (filter (fun v => (AdView.user_id v =? User.id user)%string
                                && (AdView.ad_unit_id v =? AdUnit.id ad_unit)%string
                                && (AdView.status v =? "completed")%string
                                && (since <=? AdView.started_at v))
                      (ad_views db))).

(** ** Rounds of starting and completing *)

(** [k] rounds of starting a session on ad unit [aid] and completing it at
    once, the [i]-th round with the environments [se i] and [ce i];
    [None] as soon as a request is refused. *)
Fixpoint run_rounds (se : nat -> StartEnv) (ce : nat -> CompleteEnv) (uid aid : string)
                    (k i : nat) (db : DB) : option DB :=
  match k with
  | O => Some db
  | S k' =>
      match run_request (ads_start (se i) uid (AdStartRequest.mk aid)) db with
      | (Ok _, db1) =>
          match run_request (ads_complete (ce i) uid
                               (AdCompleteRequest.mk (st_session_token (se i)))) db1 with
          | (Ok _, db2) => run_rounds se ce uid aid k' (S i) db2
          | (Raise _, _) => None
          end
      | (Raise _, _) => None
      end
  end.

(** The view and the transaction that round [j] leaves behind. *)
Definition done_view (se : nat -> StartEnv) (ce : nat -> CompleteEnv)
                     (user : User.t) (ad_unit : AdUnit.t) (j : nat) : AdView.t :=
  complete_view (cp_completed_at (ce j))
                (uniform (cp_random (ce j)) (AdUnit.reward_min ad_unit)
                         (AdUnit.reward_max ad_unit))
                (started_view (se j) user ad_unit).

Definition done_transaction (ce : nat -> CompleteEnv) (user : User.t) (ad_unit : AdUnit.t)
                            (j : nat) : Transaction.t :=
  Transaction.mk (cp_transaction_id (ce j)) (User.id user) "earn" "ad_view"
                 (uniform (cp_random (ce j)) (AdUnit.reward_min ad_unit)
                          (AdUnit.reward_max ad_unit))
                 (cp_occurred_at (ce j)).

(** The database after [i] rounds on top of [db0]. *)
Definition after_rounds (se : nat -> StartEnv) (ce : nat -> CompleteEnv)
                        (user : User.t) (ad_unit : AdUnit.t) (db0 : DB) (i : nat) (db : DB)
  : Prop :=
  users db = users db0
  /\ ad_units db = ad_units db0
  /\ user_balance user db <> None
  /\ ad_views db = ad_views db0 ++ map (done_view se ce user ad_unit) (seq 0 i)
  /\ transactions db = transactions db0 ++ map (done_transaction ce user ad_unit) (seq 0 i).

(** What the rounds [0 .. K-1] and the attempt [K] need from their
    environments: every reading falls in the day that begins at [day],
    every start is read at least the cooldown after the views stored
    before and after the starts of the earlier rounds, and the generated
    keys and tokens are new. *)
Definition rounds_env (se : nat -> StartEnv) (ce : nat -> CompleteEnv) (user : User.t)
                      (ad_unit : AdUnit.t) (day : datetime) (db0 : DB) (K : nat) : Prop :=
  Z.abs (AdUnit.cooldown_seconds ad_unit / 86400) <= 999999999
  /\ (forall i, (i <= K)%nat ->
        start_of_day (st_now_day (se i)) = day /\ day <= st_started_at (se i))
  /\ (forall v i, (i <= K)%nat ->
        In v (ad_views db0) -> AdView.user_id v = User.id user ->
        AdUnit.cooldown_seconds ad_unit * usec_per_second
        <= st_now_elapsed (se i) - AdView.started_at v)
  /\ (forall i j, (i < j <= K)%nat ->
        AdUnit.cooldown_seconds ad_unit * usec_per_second
        <= st_now_elapsed (se j) - st_started_at (se i))
  /\ (forall i x, (i <= K)%nat -> In x (ad_views db0) ->
        AdView.id x <> st_view_id (se i)
        /\ AdView.session_token x <> st_session_token (se i))
  /\ (forall i j, (i <= K)%nat -> (j <= K)%nat -> i <> j ->
        st_view_id (se i) <> st_view_id (se j)
        /\ st_session_token (se i) <> st_session_token (se j))
  /\ (forall i x, (i < K)%nat -> In x (transactions db0) ->
        Transaction.id x <> cp_transaction_id (ce i))
  /\ (forall i j, (i < K)%nat -> (j < K)%nat -> i <> j ->
        cp_transaction_id (ce i) <> cp_transaction_id (ce j)).

(** ** Worked data *)

Definition demo_unit : AdUnit.t := AdUnit.mk "unit-1" "Rewarded Video" 16 16 60 30 true.

Definition demo_register : Request :=
  ReqRegister (mkRegisterEnv (fun pw => ("bcrypt:" ++ pw)%string) "user-1" 1000 1001)
              (AuthRegisterRequest.mk "ann@example.com" "correct horse" "ann").

Definition demo_start : Request :=
  ReqAdsStart (mkStartEnv 2000 2001 "token-1" "view-1" 2002) "user-1"
              (AdStartRequest.mk "unit-1").

Definition demo_complete : Request :=
  ReqAdsComplete (mkCompleteEnv 0.5 3000 3001 "tx-1" 3002) "user-1"
                 (AdCompleteRequest.mk "token-1").

Definition demo_withdraw : Request :=
  ReqWithdraw (mkWithdrawEnv 4000 "wd-1" 4001 "tx-2" 4002) "user-1"
              (WithdrawRequest.mk 10 "paypal" "ann@example.com").

Definition demo_user : User.t :=
  User.mk "user-1" "ann@example.com" "ann" "bcrypt:correct horse" true 1000.

Definition demo_started_db : DB :=
  exec_all [demo_register; demo_start] (fresh_db [demo_unit]).

Definition demo_completed_db : DB :=
  exec_all [demo_register; demo_start; demo_complete] (fresh_db [demo_unit]).

Definition demo_withdrawn_db : DB :=
  exec_all [demo_register; demo_start; demo_complete; demo_withdraw] (fresh_db [demo_unit]).

Definition demo_approve : Request :=
  ReqReview (mkReviewEnv 5000) "admin_demo" "wd-1"
            (AdminWithdrawalReviewRequest.mk approved (Some "paid")).

Definition demo_approved_db : DB :=
  exec_all [demo_register; demo_start; demo_complete; demo_withdraw; demo_approve]
           (fresh_db [demo_unit]).

Definition cap_unit_a : AdUnit.t := AdUnit.mk "unit-a" "Video A" 0.002 0.01 60 1 true.
Definition cap_unit_b : AdUnit.t := AdUnit.mk "unit-b" "Video B" 0.002 0.01 60 1 true.

(** One user who has completed a view of ad unit A a little after
    midnight. *)
Definition cap_db : DB :=
  exec_all [demo_register;
            ReqAdsStart (mkStartEnv 2000 2001 "token-1" "view-1" 2002) "user-1"
                        (AdStartRequest.mk "unit-a");
            ReqAdsComplete (mkCompleteEnv 0.5 3000 3001 "tx-1" 3002) "user-1"
                           (AdCompleteRequest.mk "token-1")]
           (fresh_db [cap_unit_a; cap_unit_b]).

Definition cap_registered_db : DB :=
  exec_all [demo_register] (fresh_db [cap_unit_a; cap_unit_b]).

(** Two starts 61 seconds apart on the first day of the epoch. *)
Definition cap_se (i : nat) : StartEnv :=
  match i with
  | O => mkStartEnv 2000 2001 "token-1" "view-1" 2002
  | _ => mkStartEnv 61002000 61002001 "token-2" "view-2" 61002002
  end.

Definition cap_ce (i : nat) : CompleteEnv :=
  match i with
  | O => mkCompleteEnv 0.5 3000 3001 "tx-1" 3002
  | _ => mkCompleteEnv 0.5 61003000 61003001 "tx-2" 61003002
  end.

(** A deployment seeded by [on_startup], with one registered user who has
    started a session. *)
Definition seeded_started_db : DB :=
  exec_all [ReqStartup (mkStartupEnv "unit-1"); demo_register; demo_start] empty_db.

(** A user holding 15 available. *)
Definition funded_db : DB :=
  mkDB [demo_user] [] [seeded_unit (mkStartupEnv "unit-1")] []
       [Balance.mk "user-1" 15 0 1001] [] [].

(** ** Requests as labelled transitions

    [transition r db db'] tells what request [r] does to the stored
    database, with everything its handler has checked before storing. *)
Definition google_account (env : GoogleEnv) (id_token : string) : AuthAccount.t :=
  AuthAccount.mk (g_account_id env) (g_user_id env) "google" id_token
                 (g_account_created_at env).

Inductive transition : Request -> DB -> DB -> Prop :=
| tr_none : forall r db, transition r db db
| tr_startup : forall env db,
    ad_units db = [] ->
    transition (ReqStartup env) db
               (set_ad_units (fun l => l ++ [seeded_unit env]) db)
| tr_register : forall env p db,
    find_email (AuthRegisterRequest.email p) db = None ->
    user_clash (registered_user env p) db = false ->
    balance_clash (reg_user_id env) db = false ->
    transition (ReqRegister env p) db
               (new_user_db (registered_user env p) [] (reg_balance_updated_at env) db)
| tr_google : forall env p db,
    GoogleAuthRequest.id_token p <> "" ->
    find_google_account (GoogleAuthRequest.id_token p) db = None ->
    user_clash (google_user env (GoogleAuthRequest.id_token p)) db = false ->
    balance_clash (g_user_id env) db = false ->
    account_clash (g_account_id env) (GoogleAuthRequest.id_token p) db = false ->
    transition (ReqGoogleAuth env p) db
               (new_user_db (google_user env (GoogleAuthRequest.id_token p))
                            [google_account env (GoogleAuthRequest.id_token p)]
                            (g_balance_updated_at env) db)
| tr_start : forall env uid p db user ad_unit,
    get_User uid db = Some user ->
    get_AdUnit (AdStartRequest.ad_unit_id p) db = Some ad_unit ->
    AdUnit.is_active ad_unit = true ->
    cooldown_passed env ad_unit user db ->
    daily_count_of user (start_of_day (st_now_day env)) db < AdUnit.daily_cap ad_unit ->
    view_clash env db = false ->
    transition (ReqAdsStart env uid p) db
               (set_ad_views (fun l => l ++ [started_view env user ad_unit]) db)
| tr_complete : forall env uid p db user v b,
    get_User uid db = Some user ->
    find_session (AdCompleteRequest.session_token p) db = Some v ->
    AdView.user_id v = User.id user ->
    AdView.status v = "started" ->
    user_balance user db = Some b ->
    transaction_clash (cp_transaction_id env) db = false ->
    transition (ReqAdsComplete env uid p) db
               (completed_db env user v (reward_for env v db) db)
| tr_withdraw : forall env uid p db user b,
    get_User uid db = Some user ->
    user_balance user db = Some b ->
    (10 <= WithdrawRequest.amount p)%Q ->
    (WithdrawRequest.amount p <= Balance.available b)%Q ->
    withdrawal_clash (wd_withdrawal_id env) db = false ->
    transaction_clash (wd_transaction_id env) db = false ->
    transition (ReqWithdraw env uid p) db (withdrawn_db env user p db)
| tr_review : forall env token wid p db w,
    token = ADMIN_TOKEN ->
    get_Withdrawal wid db = Some w ->
    transition (ReqReview env token wid p) db (reviewed_db env p w db).

(** The primary keys and [unique=True] columns of [models.py]. *)
Record keys_unique (db : DB) : Prop := mk_keys_unique {
  ku_user_ids : NoDup (map User.id (users db));
  ku_emails : NoDup (map User.email (users db));
  ku_account_ids : NoDup (map AuthAccount.id (auth_accounts db));
  ku_provider_ids : NoDup (map AuthAccount.provider_id (auth_accounts db));
  ku_unit_ids : NoDup (map AdUnit.id (ad_units db));
  ku_view_ids : NoDup (map AdView.id (ad_views db));
  ku_tokens : NoDup (map AdView.session_token (ad_views db));
  ku_balance_keys : NoDup (map Balance.user_id (balances db));
  ku_transaction_ids : NoDup (map Transaction.id (transactions db));
  ku_withdrawal_ids : NoDup (map Withdrawal.id (withdrawals db))
}.


(** A view is either started, with no completion time and no reward, or
    completed, with both. *)
Definition view_consistent (v : AdView.t) : Prop :=
  (AdView.status v = "started"
   /\ AdView.completed_at v = None /\ AdView.rewarded_amount v = None)
  \/ (AdView.status v = "completed"
      /\ AdView.completed_at v <> None /\ AdView.rewarded_amount v <> None).

(** A withdrawal is for at least 10 with the fee 0.2, and is either
    pending and unreviewed or decided and reviewed. *)
Definition withdrawal_consistent (w : Withdrawal.t) : Prop :=
  (10 <= Withdrawal.amount w)%Q
  /\ Withdrawal.fee w = 0.2%Q
  /\ ((Withdrawal.status w = "pending"
       /\ Withdrawal.reviewed_at w = None /\ Withdrawal.review_notes w = None)
      \/ ((Withdrawal.status w = "approved" \/ Withdrawal.status w = "rejected")
          /\ Withdrawal.reviewed_at w <> None)).

(** A transaction is an earning from an ad view or a spending of at least
    10 on a withdrawal. *)
Definition transaction_consistent (t : Transaction.t) : Prop :=
  (Transaction.type t = "earn" /\ Transaction.source t = "ad_view")
  \/ (Transaction.type t = "spend" /\ Transaction.source t = "withdrawal"
      /\ (Transaction.amount t <= - (10))%Q).

Definition is_raise {A} (x : result A) : bool :=
  match x with
  | Ok _ => false
  | Raise _ => true
  end.

(** Whether the handler of a request raises on a database. *)
Definition raised (r : Request) (db : DB) : bool :=
  match r with
  | ReqStartup env => is_raise (fst (run_request (on_startup env) db))
  | ReqRegister env p => is_raise (fst (run_request (register env p) db))
  | ReqGoogleAuth env p => is_raise (fst (run_request (google_auth env p) db))
  | ReqAdsStart env u p => is_raise (fst (run_request (ads_start env u p) db))
  | ReqAdsComplete env u p => is_raise (fst (run_request (ads_complete env u p) db))
  | ReqGetBalance u => is_raise (fst (run_request (get_balance u) db))
  | ReqGetHistory u => is_raise (fst (run_request (get_history u) db))
  | ReqWithdraw env u p => is_raise (fst (run_request (request_withdraw env u p) db))
  | ReqListWithdrawals u => is_raise (fst (run_request (list_withdrawals u) db))
  | ReqListUsers a => is_raise (fst (run_request (list_users a) db))
  | ReqListWithdrawalsAdmin a => is_raise (fst (run_request (list_withdrawals_admin a) db))
  | ReqReview env a w p => is_raise (fst (run_request (review_withdrawal env a w p) db))
  end.

(** The requests whose handlers only read. *)
Definition read_only (r : Request) : bool :=
  match r with
  | ReqGetBalance _ | ReqGetHistory _ | ReqListWithdrawals _
  | ReqListUsers _ | ReqListWithdrawalsAdmin _ => true
  | _ => false
  end.


Definition withdrawal_summary (w : Withdrawal.t) : AdminWithdrawalSummary.t :=
  AdminWithdrawalSummary.mk (Withdrawal.id w) (Withdrawal.user_id w) (Withdrawal.amount w)
                            (Withdrawal.status w) (Withdrawal.created_at w).


(** The draw of a completion is in [0, 1), as [random.random()] gives it. *)
Definition well_drawn (r : Request) : Prop :=
  match r with
  | ReqAdsComplete env _ _ => (0 <= cp_random env)%Q /\ (cp_random env < 1)%Q
  | _ => True
  end.

Definition rewards_nonneg (db : DB) : Prop :=
  forall u, In u (ad_units db) ->
    (0 <= AdUnit.reward_min u)%Q /\ (AdUnit.reward_min u <= AdUnit.reward_max u)%Q.

Definition balances_nonneg (db : DB) : Prop :=
  forall b, In b (balances db) ->
    (0 <= Balance.available b)%Q /\ (0 <= Balance.pending b)%Q.





(** The columns of a view, and of a withdrawal, that no handler writes
    after the insert. *)
Definition view_fixed (v : AdView.t) : string * string * string * string * datetime :=
  (AdView.id v, AdView.user_id v, AdView.ad_unit_id v, AdView.session_token v,
   AdView.started_at v).

Definition withdrawal_fixed (w : Withdrawal.t)
  : string * string * Q * Q * string * string * datetime :=
  (Withdrawal.id w, Withdrawal.user_id w, Withdrawal.amount w, Withdrawal.fee w,
   Withdrawal.payout_method w, Withdrawal.destination w, Withdrawal.created_at w).

(** [l'] is [l] with rows added at the end, as far as [key] tells. *)
Definition extends {A B} (key : A -> B) (l l' : list A) : Prop :=
  exists added, map key l' = map key l ++ added.

Record rows_kept (db db' : DB) : Prop := mk_rows_kept {
  rk_users : extends (fun x => x) (users db) (users db');
  rk_accounts : extends (fun x => x) (auth_accounts db) (auth_accounts db');
  rk_units : extends (fun x => x) (ad_units db) (ad_units db');
  rk_inventory : ad_units db <> [] -> ad_units db' = ad_units db;
  rk_views : extends view_fixed (ad_views db) (ad_views db');
  rk_balances : extends Balance.user_id (balances db) (balances db');
  rk_withdrawals : extends withdrawal_fixed (withdrawals db) (withdrawals db')
}.

(** * Proofs *)

(** ** Running a handler

    Each handler is unfolded once and for all into a decision tree over
    the stored database: which response it gives and which database it
    leaves.  The later proofs rewrite with these equations. *)

Ltac proj_simpl :=
  cbn [working committed fst snd
       users auth_accounts ad_units ad_views balances transactions withdrawals
       User.id User.email AuthAccount.id AuthAccount.provider_id AdUnit.id
       AdView.id AdView.session_token Balance.user_id Transaction.id Withdrawal.id
       Withdrawal.status Withdrawal.created_at].

Ltac run_handler :=
  cbv beta iota zeta delta
      [run_request bind ret raise query modify commit or_raise raise_if
       get_user require_admin
       add_User add_AuthAccount add_AdUnit add_AdView add_Balance add_Transaction
       add_Withdrawal update_AdView update_Balance update_Withdrawal timedelta_seconds
       set_users set_auth_accounts set_ad_units set_ad_views set_balances
       set_transactions set_withdrawals];
  proj_simpl.

Ltac break_atomic :=
  match goal with
  | |- context [match ?x with _ => _ end] =>
      lazymatch x with
      | context [match _ with _ => _ end] => fail
      | _ => destruct x eqn:?
      end
  end.

Ltac flatten_handler := run_handler; repeat (break_atomic; proj_simpl; try reflexivity).

Lemma on_startup_run env db :
  run_request (on_startup env) db =
  match ad_units db with
  | _ :: _ => (Ok tt, db)
  | [] => (Ok tt, set_ad_units
                    (fun l => (l ++ [AdUnit.mk (su_unit_id env) "Rewarded Video"
                                               0.002 0.01 60 30 true])%list) db)
  end.
Proof.
  unfold on_startup. run_handler.
  destruct (ad_units db) eqn:E; cbn [hd_error]; proj_simpl;
    rewrite ?E; cbn [existsb]; proj_simpl; rewrite ?E; reflexivity.
Qed.

Lemma register_run env p db :
  run_request (register env p) db =
  match find (fun u => User.email u =? AuthRegisterRequest.email p)%string (users db) with
  | Some _ => (Raise (HTTPException 400 "Email already used"), db)
  | None =>
      if user_clash (registered_user env p) db then (Raise IntegrityError, db)
      else if balance_clash (reg_user_id env) db then (Raise IntegrityError, db)
      else (Ok (AuthRegisterResponse.mk "Registered successfully" (reg_user_id env) true),
            mkDB (users db ++ [registered_user env p]) (auth_accounts db) (ad_units db)
                 (ad_views db)
                 (balances db ++ [Balance.mk (reg_user_id env) 0 0 (reg_balance_updated_at env)])
                 (transactions db) (withdrawals db))
  end.
Proof.
  unfold register, user_clash, balance_clash, registered_user. flatten_handler.
Qed.

Lemma google_auth_run env p db :
  run_request (google_auth env p) db =
  let id_token := GoogleAuthRequest.id_token p in
  if (id_token =? "")%string then (Raise (HTTPException 400 "Invalid token"), db)
  else match find_google_account id_token db with
  | Some a =>
      match get_User (AuthAccount.user_id a) db with
      | Some user => (Ok (TokenResponse.mk (g_access_token env) "bearer" (User.id user)), db)
      | None => (Raise AttributeError, db)
      end
  | None =>
      if user_clash (google_user env id_token) db then (Raise IntegrityError, db)
      else if balance_clash (g_user_id env) db then (Raise IntegrityError, db)
      else if account_clash (g_account_id env) id_token db then (Raise IntegrityError, db)
      else (Ok (TokenResponse.mk (g_access_token env) "bearer" (g_user_id env)),
            mkDB (users db ++ [google_user env id_token])
                 (auth_accounts db ++ [AuthAccount.mk (g_account_id env) (g_user_id env) "google"
                                                     id_token (g_account_created_at env)])
                 (ad_units db) (ad_views db)
                 (balances db ++ [Balance.mk (g_user_id env) 0 0 (g_balance_updated_at env)])
                 (transactions db) (withdrawals db))
  end.
Proof.
  unfold google_auth, find_google_account, user_clash, balance_clash, account_clash,
    google_user.
  flatten_handler.
Qed.

Lemma ads_start_run env uid p db :
  run_request (ads_start env uid p) db =
  match get_User uid db with
  | None => (Raise user_not_found, db)
  | Some user =>
      match get_AdUnit (AdStartRequest.ad_unit_id p) db with
      | None => (Raise ad_unit_not_found, db)
      | Some ad_unit =>
          if negb (AdUnit.is_active ad_unit) then (Raise ad_unit_not_found, db)
          else match recent_view_of user db with
          | None => ads_start_tail env user ad_unit db
          | Some recent =>
              if Z.abs (AdUnit.cooldown_seconds ad_unit / 86400) >? 999999999
              then (Raise OverflowError, db)
              else if st_now_elapsed env - AdView.started_at recent
                      <? AdUnit.cooldown_seconds ad_unit * usec_per_second
              then (Raise cooldown_active, db)
              else ads_start_tail env user ad_unit db
          end
      end
  end.
Proof.
  unfold ads_start, ads_start_tail, view_clash, started_view. flatten_handler.
Qed.

Lemma ads_complete_run env uid p db :
  run_request (ads_complete env uid p) db =
  match get_User uid db with
  | None => (Raise user_not_found, db)
  | Some user =>
      match find_session (AdCompleteRequest.session_token p) db with
      | None => (Raise session_not_found, db)
      | Some ad_view =>
          if negb (AdView.user_id ad_view =? User.id user)%string
          then (Raise session_not_found, db)
          else if negb (AdView.status ad_view =? "started")%string
          then (Raise already_completed, db)
          else match user_balance user db with
          | None => (Raise AttributeError, db)
          | Some balance =>
              let reward := reward_for env ad_view db in
              if transaction_clash (cp_transaction_id env) db then (Raise IntegrityError, db)
              else
                (Ok (AdCompleteResponse.mk reward (Balance.available balance + reward)%Q),
                 mkDB (users db) (auth_accounts db) (ad_units db)
                      (map (fun v => if (AdView.id v =? AdView.id ad_view)%string
                                     then complete_view (cp_completed_at env) reward v else v)
                           (ad_views db))
                      (map (fun b => if (Balance.user_id b =? Balance.user_id balance)%string
                                     then credit (cp_updated_at env) reward b else b)
                           (balances db))
                      (transactions db ++ [Transaction.mk (cp_transaction_id env) (User.id user)
                                             "earn" "ad_view" reward (cp_occurred_at env)])
                      (withdrawals db))
          end
      end
  end.
Proof.
  unfold ads_complete, find_session, reward_for, transaction_clash, user_balance.
  flatten_handler.
Qed.

Lemma request_withdraw_run env uid p db :
  run_request (request_withdraw env uid p) db =
  match get_User uid db with
  | None => (Raise user_not_found, db)
  | Some user =>
      let amount := WithdrawRequest.amount p in
      if QMicromega.Qlt_bool amount 10 then (Raise minimum_is_10, db)
      else match user_balance user db with
      | None => (Raise AttributeError, db)
      | Some balance =>
          if QMicromega.Qlt_bool (Balance.available balance) amount
          then (Raise insufficient_balance, db)
          else if withdrawal_clash (wd_withdrawal_id env) db then (Raise IntegrityError, db)
          else if transaction_clash (wd_transaction_id env) db then (Raise IntegrityError, db)
          else
            (Ok (WithdrawResponse.mk (wd_withdrawal_id env) "pending" (wd_created_at env)),
             mkDB (users db) (auth_accounts db) (ad_units db) (ad_views db)
                  (map (fun b => if (Balance.user_id b =? Balance.user_id balance)%string
                                 then hold (wd_updated_at env) amount b else b)
                       (balances db))
                  (transactions db ++ [Transaction.mk (wd_transaction_id env) (User.id user)
                                         "spend" "withdrawal" (- amount)%Q (wd_occurred_at env)])
                  (withdrawals db ++ [requested_withdrawal env user p]))
      end
  end.
Proof.
  unfold request_withdraw, withdrawal_clash, transaction_clash, requested_withdrawal.
  flatten_handler.
Qed.

Lemma review_withdrawal_run env token wid p db :
  run_request (review_withdrawal env token wid p) db =
  if negb (token =? ADMIN_TOKEN)%string then (Raise not_authorized, db)
  else match get_Withdrawal wid db with
  | None => (Raise withdrawal_not_found, db)
  | Some w =>
      (Ok (withdraw_response (review (rv_reviewed_at env) p w)),
       set_withdrawals
         (map (fun x => if (Withdrawal.id x =? Withdrawal.id w)%string
                        then review (rv_reviewed_at env) p x else x)) db)
  end.
Proof.
  unfold review_withdrawal. flatten_handler.
Qed.

(** ** List facts *)

Lemma find_eqb_key {A} (key : A -> string) (k : string) (l : list A) (x : A) :
  find (fun y => key y =? k)%string l = Some x -> key x = k /\ In x l.
Proof.
  intros H. apply find_some in H. destruct H as [Hin Hk].
  apply String.eqb_eq in Hk. auto.
Qed.

Lemma find_app {A} (p : A -> bool) (l l' : list A) :
  find p (l ++ l') = match find p l with Some x => Some x | None => find p l' end.
Proof.
  induction l as [|a l IH]; cbn; [reflexivity|].
  destruct (p a); auto.
Qed.

Lemma find_map_stable {A} (p : A -> bool) (g : A -> A) (l : list A) :
  (forall x, p (g x) = p x) ->
  find p (map g l) = option_map g (find p l).
Proof.
  intros Hp. induction l as [|a l IH]; cbn; [reflexivity|].
  rewrite Hp. destruct (p a); auto.
Qed.

Lemma filter_map_stable {A} (p : A -> bool) (g : A -> A) (l : list A) :
  (forall x, p (g x) = p x) ->
  filter p (map g l) = map g (filter p l).
Proof.
  intros Hp. induction l as [|a l IH]; cbn; [reflexivity|].
  rewrite Hp. destruct (p a); cbn; congruence.
Qed.

Lemma existsb_find_none {A} (p : A -> bool) (l : list A) :
  existsb p l = false <-> find p l = None.
Proof.
  induction l as [|a l IH]; cbn; [tauto|].
  destruct (p a); cbn; [split; discriminate | exact IH].
Qed.

Lemma existsb_false_forall {A} (p : A -> bool) (l : list A) :
  existsb p l = false -> forall x, In x l -> p x = false.
Proof.
  intros H x Hin. destruct (p x) eqn:E; [|reflexivity].
  assert (existsb p l = true) by (apply existsb_exists; eauto). congruence.
Qed.

Lemma filter_nil_forall {A} (p : A -> bool) (l : list A) :
  (forall x, In x l -> p x = false) -> filter p l = [].
Proof.
  induction l as [|a l IH]; cbn; intros H; [reflexivity|].
  rewrite (H a) by auto. apply IH. intros; apply H; auto.
Qed.

(** ** Every request is one of the listed effects *)

Lemma user_balance_key user db b :
  user_balance user db = Some b -> Balance.user_id b = User.id user.
Proof.
  unfold user_balance. intros H.
  apply (find_eqb_key Balance.user_id) in H. tauto.
Qed.

Lemma find_session_token tok db v :
  find_session tok db = Some v -> AdView.session_token v = tok.
Proof.
  unfold find_session. intros H.
  apply (find_eqb_key AdView.session_token) in H. tauto.
Qed.

Lemma get_balance_run uid db :
  run_request (get_balance uid) db =
  match get_User uid db with
  | None => (Raise user_not_found, db)
  | Some user =>
      match user_balance user db with
      | None => (Raise AttributeError, db)
      | Some b => (Ok (BalanceResponse.mk (Balance.available b) (Balance.pending b) "USD"), db)
      end
  end.
Proof.
  unfold get_balance. flatten_handler.
Qed.

Lemma get_history_run uid db :
  run_request (get_history uid) db =
  match get_User uid db with
  | None => (Raise user_not_found, db)
  | Some user =>
      (Ok (EarningsHistoryResponse.mk (map earnings_item (history_rows user db))), db)
  end.
Proof.
  unfold get_history. flatten_handler.
Qed.

Lemma list_withdrawals_run uid db :
  run_request (list_withdrawals uid) db =
  match get_User uid db with
  | None => (Raise user_not_found, db)
  | Some user => (Ok (map withdraw_response (user_withdrawals user db)), db)
  end.
Proof.
  unfold list_withdrawals. flatten_handler.
Qed.

Lemma mapM_session {A B} (f : A -> M B) (l : list A) :
  (forall x s, snd (f x s) = s) -> forall s, snd (mapM f l s) = s.
Proof.
  intros Hf. induction l as [|a l IH]; intros s; cbn [mapM]; [reflexivity|].
  unfold bind. specialize (Hf a s).
  destruct (f a s) as [[b|e] s1]; cbn in Hf; subst s1; [|reflexivity].
  specialize (IH s). destruct (mapM f l s) as [[bs|e] s2]; cbn in IH; subst s2; reflexivity.
Qed.

Lemma list_users_db token db : snd (run_request (list_users token) db) = db.
Proof.
  unfold list_users, run_request, require_admin, raise_if.
  unfold bind at 1.
  destruct (negb (token =? ADMIN_TOKEN)%string); cbn [raise ret]; [reflexivity|].
  unfold bind at 1. cbn [query working].
  match goal with
  | |- snd (let (r, s) := mapM ?f ?l ?s0 in _) = _ =>
      pose proof (mapM_session f l) as H; specialize (H ltac:(intros x s; flatten_handler) s0);
      destruct (mapM f l s0) as [r s1]; cbn in H; subst s1; reflexivity
  end.
Qed.

Lemma list_withdrawals_admin_db token db :
  snd (run_request (list_withdrawals_admin token) db) = db.
Proof.
  unfold list_withdrawals_admin. flatten_handler.
Qed.

Theorem exec_effect r db : effect db (exec r db).
Proof.
  destruct r; cbn [exec].
  - rewrite on_startup_run. destruct (ad_units db) eqn:E; cbn [snd].
    + now apply (eff_startup db env).
    + apply eff_none.
  - rewrite register_run.
    repeat (break_atomic; cbn [snd]; try apply eff_none).
    pose proof (eff_new_user db (registered_user env payload) []
                  (reg_balance_updated_at env)) as E.
    unfold new_user_db in E. rewrite app_nil_r in E. apply E; assumption.
  - rewrite google_auth_run. cbv zeta.
    repeat (break_atomic; cbn [snd]; try apply eff_none).
    apply (eff_new_user db (google_user env (GoogleAuthRequest.id_token payload))
             [AuthAccount.mk (g_account_id env) (g_user_id env) "google"
                (GoogleAuthRequest.id_token payload) (g_account_created_at env)]
             (g_balance_updated_at env)); assumption.
  - rewrite ads_start_run. unfold ads_start_tail.
    repeat (break_atomic; cbn [snd]; try apply eff_none);
      eapply eff_start; eassumption.
  - rewrite ads_complete_run. cbv zeta.
    repeat (break_atomic; cbn [snd]; try apply eff_none).
    match goal with
    | Hb : user_balance _ _ = Some ?b |- _ => rewrite (user_balance_key _ _ _ Hb)
    end.
    match goal with
    | Hs : find_session _ _ = Some ?v |- _ =>
        pose proof (find_session_token _ _ _ Hs) as Htok; rewrite <- Htok in Hs
    end.
    eapply eff_complete; try eassumption.
    + match goal with
      | H : negb (_ =? _)%string = false |- AdView.user_id _ = _ =>
          apply negb_false_iff, String.eqb_eq in H; exact H
      end.
    + match goal with
      | H : negb (AdView.status _ =? _)%string = false |- _ =>
          apply negb_false_iff, String.eqb_eq in H; exact H
      end.
  - rewrite get_balance_run. repeat (break_atomic; cbn [snd]; try apply eff_none).
  - rewrite get_history_run. repeat (break_atomic; cbn [snd]; try apply eff_none).
  - rewrite request_withdraw_run. cbv zeta.
    repeat (break_atomic; cbn [snd]; try apply eff_none).
    match goal with
    | Hb : user_balance _ _ = Some ?b |- _ => rewrite (user_balance_key _ _ _ Hb)
    end.
    eapply eff_withdraw; eassumption.
  - rewrite list_withdrawals_run. repeat (break_atomic; cbn [snd]; try apply eff_none).
  - rewrite list_users_db. apply eff_none.
  - rewrite list_withdrawals_admin_db. apply eff_none.
  - rewrite review_withdrawal_run.
    repeat (break_atomic; cbn [snd]; try apply eff_none).
    eapply eff_review; eassumption.
Qed.

(** ** The ledger invariant *)

Lemma Qsum_app l l' : (Qsum (l ++ l') == Qsum l + Qsum l')%Q.
Proof.
  unfold Qsum. induction l as [|a l IH]; cbn [fold_right app]; lra.
Qed.

Lemma user_clash_no_id u db :
  user_clash u db = false -> get_User (User.id u) db = None.
Proof.
  unfold user_clash, get_User. intros H.
  apply existsb_find_none. apply not_true_is_false. intros E.
  apply existsb_exists in E. destruct E as [x [Hin Hx]].
  apply existsb_false_forall with (x := x) in H; [|assumption].
  rewrite Hx in H. discriminate.
Qed.


Lemma ledger_inv_fresh units : ledger_inv (fresh_db units).
Proof.
  constructor; cbn; intros; contradiction.
Qed.

Lemma no_transactions_of_unknown uid db :
  (forall t, In t (transactions db) -> get_User (Transaction.user_id t) db <> None) ->
  get_User uid db = None ->
  transactions_of uid db = [].
Proof.
  intros Hown Hnone. unfold transactions_of. apply filter_nil_forall.
  intros t Hin. apply not_true_is_false. intros E. apply String.eqb_eq in E.
  apply (Hown t Hin). now rewrite E.
Qed.

Lemma no_withdrawals_of_unknown uid db :
  (forall w, In w (withdrawals db) -> get_User (Withdrawal.user_id w) db <> None) ->
  get_User uid db = None ->
  withdrawals_of uid db = [].
Proof.
  intros Hown Hnone. unfold withdrawals_of. apply filter_nil_forall.
  intros w Hin. apply not_true_is_false. intros E. apply String.eqb_eq in E.
  apply (Hown w Hin). now rewrite E.
Qed.

Lemma find_app_keep {A} (p : A -> bool) (l l' : list A) :
  find p l <> None -> find p (l ++ l') <> None.
Proof.
  rewrite find_app. destruct (find p l); congruence.
Qed.

Lemma ledger_inv_new_user u accounts now db :
  user_clash u db = false ->
  balance_clash (User.id u) db = false ->
  ledger_inv db -> ledger_inv (new_user_db u accounts now db).
Proof.
  intros Hu Hb [Htx Hwd Hbal Hav Hpe].
  pose proof (user_clash_no_id _ _ Hu) as Hfresh.
  constructor; unfold new_user_db, get_User, user_balance, sum_transactions,
    sum_withdrawals, transactions_of, withdrawals_of in *; cbn in *.
  - intros t Hin. apply find_app_keep. now apply Htx.
  - intros w Hin. apply find_app_keep. now apply Hwd.
  - intros u' Hin. apply in_app_or in Hin. destruct Hin as [Hin|[<-|[]]].
    + apply find_app_keep. now apply Hbal.
    + rewrite find_app. apply existsb_find_none in Hb. rewrite Hb.
      cbn. rewrite String.eqb_refl. discriminate.
  - intros b Hin. apply in_app_or in Hin. destruct Hin as [Hin|[<-|[]]].
    + now apply Hav.
    + cbn. fold (transactions_of (User.id u) db).
      rewrite (no_transactions_of_unknown _ _ Htx Hfresh). reflexivity.
  - intros b Hin. apply in_app_or in Hin. destruct Hin as [Hin|[<-|[]]].
    + now apply Hpe.
    + cbn. fold (withdrawals_of (User.id u) db).
      rewrite (no_withdrawals_of_unknown _ _ Hwd Hfresh). reflexivity.
Qed.

Lemma find_balance_map key (g : Balance.t -> Balance.t) uid l :
  (forall b, Balance.user_id (g b) = Balance.user_id b) ->
  find (fun b => Balance.user_id b =? uid)%string
       (map (fun b => if (Balance.user_id b =? key)%string then g b else b) l)
  = option_map (fun b => if (Balance.user_id b =? key)%string then g b else b)
               (find (fun b => Balance.user_id b =? uid)%string l).
Proof.
  intros Hg. apply find_map_stable. intros b.
  destruct (Balance.user_id b =? key)%string; [now rewrite Hg | reflexivity].
Qed.

Lemma sum_transactions_snoc uid db t db' :
  transactions db' = transactions db ++ [t] ->
  (sum_transactions uid db'
   == sum_transactions uid db
      + (if (Transaction.user_id t =? uid)%string then Transaction.amount t else 0))%Q.
Proof.
  intros E. unfold sum_transactions, transactions_of. rewrite E, filter_app, map_app, Qsum_app.
  cbn [filter]. destruct (Transaction.user_id t =? uid)%string; cbn; lra.
Qed.

Lemma sum_withdrawals_snoc uid db w db' :
  withdrawals db' = withdrawals db ++ [w] ->
  (sum_withdrawals uid db'
   == sum_withdrawals uid db
      + (if (Withdrawal.user_id w =? uid)%string then Withdrawal.amount w else 0))%Q.
Proof.
  intros E. unfold sum_withdrawals, withdrawals_of. rewrite E, filter_app, map_app, Qsum_app.
  cbn [filter]. destruct (Withdrawal.user_id w =? uid)%string; cbn; lra.
Qed.

Lemma ledger_inv_completed env user ad_view reward db :
  ledger_inv db ->
  get_User (User.id user) db <> None ->
  ledger_inv (completed_db env user ad_view reward db).
Proof.
  intros [Htx Hwd Hbal Hav Hpe] Huser.
  constructor.
  - cbn. intros t Hin. apply in_app_or in Hin. destruct Hin as [Hin|[<-|[]]].
    + now apply Htx.
    + exact Huser.
  - exact Hwd.
  - intros u Hin. specialize (Hbal u Hin). unfold user_balance in *. cbn.
    rewrite find_balance_map by reflexivity.
    destruct (find _ (balances db)); [discriminate | congruence].
  - cbn [balances completed_db]. intros b' Hin. apply in_map_iff in Hin.
    destruct Hin as [b [<- Hin]]. specialize (Hav b Hin).
    rewrite (sum_transactions_snoc _ db _ (completed_db env user ad_view reward db) eq_refl).
    cbn [Transaction.user_id Transaction.amount].
    destruct (Balance.user_id b =? User.id user)%string eqn:E;
      cbn [credit Balance.user_id Balance.available].
    + rewrite String.eqb_sym, E. lra.
    + rewrite String.eqb_sym, E. lra.
  - cbn [balances completed_db]. intros b' Hin. apply in_map_iff in Hin.
    destruct Hin as [b [<- Hin]]. specialize (Hpe b Hin).
    destruct (Balance.user_id b =? User.id user)%string; exact Hpe.
Qed.

Lemma ledger_inv_withdrawn env user p db :
  ledger_inv db ->
  get_User (User.id user) db <> None ->
  ledger_inv (withdrawn_db env user p db).
Proof.
  intros [Htx Hwd Hbal Hav Hpe] Huser.
  constructor.
  - cbn. intros t Hin. apply in_app_or in Hin. destruct Hin as [Hin|[<-|[]]].
    + now apply Htx.
    + exact Huser.
  - cbn. intros w Hin. apply in_app_or in Hin. destruct Hin as [Hin|[<-|[]]].
    + now apply Hwd.
    + exact Huser.
  - intros u Hin. specialize (Hbal u Hin). unfold user_balance in *. cbn.
    rewrite find_balance_map by reflexivity.
    destruct (find _ (balances db)); [discriminate | congruence].
  - cbn [balances withdrawn_db]. intros b' Hin. apply in_map_iff in Hin.
    destruct Hin as [b [<- Hin]]. specialize (Hav b Hin).
    rewrite (sum_transactions_snoc _ db _ (withdrawn_db env user p db) eq_refl).
    cbn [Transaction.user_id Transaction.amount].
    destruct (Balance.user_id b =? User.id user)%string eqn:E;
      cbn [hold Balance.user_id Balance.available];
      rewrite String.eqb_sym, E; lra.
  - cbn [balances withdrawn_db]. intros b' Hin. apply in_map_iff in Hin.
    destruct Hin as [b [<- Hin]]. specialize (Hpe b Hin).
    rewrite (sum_withdrawals_snoc _ db _ (withdrawn_db env user p db) eq_refl).
    cbn [requested_withdrawal Withdrawal.user_id Withdrawal.amount].
    destruct (Balance.user_id b =? User.id user)%string eqn:E;
      cbn [hold Balance.user_id Balance.pending];
      rewrite String.eqb_sym, E; lra.
Qed.

Lemma ledger_inv_reviewed env p w db :
  ledger_inv db -> ledger_inv (reviewed_db env p w db).
Proof.
  intros [Htx Hwd Hbal Hav Hpe].
  assert (Hsum : forall uid, sum_withdrawals uid (reviewed_db env p w db)
                             = sum_withdrawals uid db).
  { intros uid. unfold sum_withdrawals, withdrawals_of, reviewed_db. cbn.
    rewrite filter_map_stable.
    - rewrite map_map. unfold Qsum. f_equal. apply map_ext. intros x.
      destruct (Withdrawal.id x =? Withdrawal.id w)%string; reflexivity.
    - intros x. destruct (Withdrawal.id x =? Withdrawal.id w)%string; reflexivity. }
  constructor.
  - exact Htx.
  - cbn. intros w' Hin. apply in_map_iff in Hin. destruct Hin as [x [<- Hin]].
    specialize (Hwd x Hin).
    destruct (Withdrawal.id x =? Withdrawal.id w)%string; exact Hwd.
  - exact Hbal.
  - exact Hav.
  - intros b Hin. rewrite Hsum. now apply Hpe.
Qed.

Lemma ledger_inv_effect db db' : effect db db' -> ledger_inv db -> ledger_inv db'.
Proof.
  intros Heff Hinv. destruct Heff.
  - exact Hinv.
  - destruct Hinv. constructor; assumption.
  - now apply ledger_inv_new_user.
  - destruct Hinv. constructor; assumption.
  - apply ledger_inv_completed; [assumption|].
    match goal with
    | H : get_User ?uid db = Some ?u |- _ =>
        pose proof (find_eqb_key User.id uid (users db) u H) as [-> _]; rewrite H; discriminate
    end.
  - apply ledger_inv_withdrawn; [assumption|].
    match goal with
    | H : get_User ?uid db = Some ?u |- _ =>
        pose proof (find_eqb_key User.id uid (users db) u H) as [-> _]; rewrite H; discriminate
    end.
  - now apply ledger_inv_reviewed.
Qed.

Lemma reachable_ledger_inv units db : reachable units db -> ledger_inv db.
Proof.
  induction 1 as [|db r Hreach IH].
  - apply ledger_inv_fresh.
  - eapply ledger_inv_effect; [apply exec_effect | exact IH].
Qed.

Lemma reachable_exec_all units rs : reachable units (exec_all rs (fresh_db units)).
Proof.
  unfold exec_all. generalize (reach_fresh units). generalize (fresh_db units).
  induction rs as [|r rs IH]; intros db Hdb; cbn [fold_left]; [exact Hdb|].
  apply IH. now apply reach_exec.
Qed.

(** ** C1: reconciliation of balances with the ledger *)




(** ** C3: requesting a withdrawal *)




(** ** What later requests keep *)

Lemma effect_users_grow db db' : effect db db' -> exists l, users db' = users db ++ l.
Proof.
  destruct 1; cbn; try (exists []; now rewrite app_nil_r).
  now exists [u].
Qed.

Lemma exec_all_users rs db : exists l, users (exec_all rs db) = users db ++ l.
Proof.
  unfold exec_all. revert db. induction rs as [|r rs IH]; intros db; cbn [fold_left].
  - exists []. now rewrite app_nil_r.
  - destruct (IH (exec r db)) as [l Hl].
    destruct (effect_users_grow db (exec r db) (exec_effect r db)) as [l0 Hl0].
    exists (l0 ++ l). now rewrite Hl, Hl0, app_assoc.
Qed.

Lemma find_app_some {A} (p : A -> bool) (l l' : list A) x :
  find p l = Some x -> find p (l ++ l') = Some x.
Proof.
  intros H. now rewrite find_app, H.
Qed.

Lemma exec_all_snoc rs r db : exec_all (rs ++ [r]) db = exec r (exec_all rs db).
Proof.
  unfold exec_all. now rewrite fold_left_app.
Qed.

Lemma effect_user_kept db db' uid user :
  effect db db' -> get_User uid db = Some user -> get_User uid db' = Some user.
Proof.
  intros Heff Hu. destruct (effect_users_grow db db' Heff) as [l Hl].
  unfold get_User in *. rewrite Hl. now apply find_app_some.
Qed.

Lemma exec_all_user_kept rs db uid user :
  get_User uid db = Some user -> get_User uid (exec_all rs db) = Some user.
Proof.
  induction rs as [|r rs IH] using rev_ind; intros Hu; [exact Hu|].
  rewrite exec_all_snoc. eapply effect_user_kept; [apply exec_effect | now apply IH].
Qed.



(** A completed session stays completed, and stays the one its token
    finds. *)
Lemma effect_completed_kept db db' token owner :
  effect db db' ->
  (exists v, find_session token db = Some v /\ AdView.user_id v = owner
             /\ AdView.status v = "completed") ->
  exists v, find_session token db' = Some v /\ AdView.user_id v = owner
            /\ AdView.status v = "completed".
Proof.
  intros Heff (v & Hf & Ho & Hs). destruct Heff; try (exists v; now auto).
  - exists v. unfold find_session in *. cbn. split; [now apply find_app_some | auto].
  - unfold find_session in *. cbn [ad_views completed_db].
    rewrite find_map_stable, Hf.
    + cbn [option_map]. eexists. split; [reflexivity|].
      destruct (AdView.id v =? AdView.id ad_view)%string; auto.
    + intros x. destruct (AdView.id x =? AdView.id ad_view)%string; reflexivity.
Qed.

Lemma exec_all_completed_kept rs db token owner :
  (exists v, find_session token db = Some v /\ AdView.user_id v = owner
             /\ AdView.status v = "completed") ->
  exists v, find_session token (exec_all rs db) = Some v /\ AdView.user_id v = owner
            /\ AdView.status v = "completed".
Proof.
  induction rs as [|r rs IH] using rev_ind; intros H; [exact H|].
  rewrite exec_all_snoc. eapply effect_completed_kept; [apply exec_effect | now apply IH].
Qed.

(** ** C5 and C6: completing a session *)

Lemma find_session_none tok db :
  find_session tok db = None <->
  (forall v, In v (ad_views db) -> AdView.session_token v <> tok).
Proof.
  unfold find_session. split.
  - intros H v Hin E. apply (find_none _ _ H) in Hin. cbn in Hin.
    rewrite E, String.eqb_refl in Hin. discriminate.
  - intros H. destruct (find _ (ad_views db)) as [v|] eqn:E; [|reflexivity].
    apply (find_eqb_key AdView.session_token) in E. destruct E as [E Hin].
    now apply H in Hin.
Qed.

Lemma find_session_completed tok now reward v db db' :
  ad_views db' = map (fun x => if (AdView.id x =? AdView.id v)%string
                               then complete_view now reward x else x) (ad_views db) ->
  find_session tok db = Some v ->
  find_session tok db' = Some (complete_view now reward v).
Proof.
  intros E H. unfold find_session in *. rewrite E, find_map_stable, H.
  - cbn. now rewrite String.eqb_refl.
  - intros x. destruct (AdView.id x =? AdView.id v)%string; reflexivity.
Qed.

Lemma ads_complete_ok env uid p db resp db' :
  run_request (ads_complete env uid p) db = (Ok resp, db') ->
  exists user v b,
    get_User uid db = Some user
    /\ find_session (AdCompleteRequest.session_token p) db = Some v
    /\ AdView.user_id v = User.id user
    /\ AdView.status v = "started"
    /\ user_balance user db = Some b
    /\ transaction_clash (cp_transaction_id env) db = false
    /\ resp = AdCompleteResponse.mk (reward_for env v db)
                                    (Balance.available b + reward_for env v db)%Q
    /\ db' = completed_db env user v (reward_for env v db) db.
Proof.
  rewrite ads_complete_run. cbv zeta.
  destruct (get_User uid db) as [user|] eqn:Hu; [|discriminate].
  destruct (find_session _ db) as [v|] eqn:Hv; [|discriminate].
  destruct (negb (AdView.user_id v =? User.id user)%string) eqn:Eo; [discriminate|].
  destruct (negb (AdView.status v =? "started")%string) eqn:Es; [discriminate|].
  destruct (user_balance user db) as [b|] eqn:Hb; [|discriminate].
  destruct (transaction_clash _ db) eqn:Ht; [discriminate|].
  intros E. injection E as <- <-.
  apply negb_false_iff, String.eqb_eq in Eo, Es.
  exists user, v, b. repeat split; try assumption.
  unfold completed_db. now rewrite (user_balance_key _ _ _ Hb).
Qed.

Lemma ads_complete_raise env uid p db e db' :
  run_request (ads_complete env uid p) db = (Raise e, db') -> db' = db.
Proof.
  rewrite ads_complete_run. cbv zeta.
  repeat (break_atomic; try discriminate); intros E; now injection E.
Qed.

(** C5.  For an existing caller: a token that no ad view carries, or
    whose ad view belongs to another user, gives "Session not found"
    (NOT_FOUND); a view of the caller whose status is not "started" gives
    "Already completed" (INVALID_STATE); whenever the handler raises, the
    stored database is unchanged; and after a successful completion a
    second completion of the same token, at once or after any further
    requests, raises "Already completed" and leaves the database, the
    balance included, as it found it. *)
Theorem C5_ads_complete_failures env uid p db user :
  get_User uid db = Some user ->
  let token := AdCompleteRequest.session_token p in
  let outcome := run_request (ads_complete env uid p) db in
  ((forall v, In v (ad_views db) -> AdView.session_token v <> token) ->
     outcome = (Raise session_not_found, db))
  /\ (forall v, find_session token db = Some v -> AdView.user_id v <> User.id user ->
        outcome = (Raise session_not_found, db))
  /\ (forall v, find_session token db = Some v -> AdView.user_id v = User.id user ->
        AdView.status v <> "started" ->
        outcome = (Raise already_completed, db))
  /\ failure_kind session_not_found = Some NOT_FOUND
  /\ failure_kind already_completed = Some INVALID_STATE
  /\ (forall e db', outcome = (Raise e, db') -> db' = db)
  /\ (forall resp db1, outcome = (Ok resp, db1) ->
        forall later env2,
          let db2 := exec_all later db1 in
          run_request (ads_complete env2 uid p) db2 = (Raise already_completed, db2)
          /\ user_balance user (snd (run_request (ads_complete env2 uid p) db2))
             = user_balance user db2).
Proof.
  intros Huser token outcome. subst outcome.
  split; [|split; [|split; [|split; [|split; [|split]]]]].
  - intros Hnone. apply find_session_none in Hnone.
    rewrite ads_complete_run, Huser. fold token. now rewrite Hnone.
  - intros v Hv Hother. rewrite ads_complete_run, Huser. fold token. rewrite Hv.
    apply String.eqb_neq in Hother. now rewrite Hother.
  - intros v Hv Hown Hst. rewrite ads_complete_run, Huser. fold token. rewrite Hv.
    apply String.eqb_eq in Hown. apply String.eqb_neq in Hst. now rewrite Hown, Hst.
  - reflexivity.
  - reflexivity.
  - intros e db'. apply ads_complete_raise.
  - intros resp db1 Hok later env2 db2.
    apply ads_complete_ok in Hok.
    destruct Hok as (user' & v & b & Hu & Hv & Hown & Hst & Hb & Ht & -> & ->).
    assert (user' = user) by congruence. subst user'.
    assert (Hu2 : get_User uid db2 = Some user)
      by (apply exec_all_user_kept; exact Hu).
    destruct (exec_all_completed_kept later
                (completed_db env user v (reward_for env v db) db) token (User.id user))
      as (v2 & Hv2 & Hown2 & Hst2).
    { exists (complete_view (cp_completed_at env) (reward_for env v db) v).
      split; [|split; [exact Hown | reflexivity]].
      apply (find_session_completed _ (cp_completed_at env) (reward_for env v db) v db);
        [reflexivity | exact Hv]. }
    fold db2 in Hv2.
    assert (E : run_request (ads_complete env2 uid p) db2 = (Raise already_completed, db2)).
    { rewrite ads_complete_run, Hu2. fold token. rewrite Hv2, Hown2, Hst2.
      rewrite String.eqb_refl. reflexivity. }
    rewrite E. split; reflexivity.
Qed.

Lemma C5_ads_complete_failures_witness :
  run_request (ads_complete (mkCompleteEnv 0.25 5000 5001 "tx-9" 5002) "user-1"
                 (AdCompleteRequest.mk "token-1")) demo_completed_db
  = (Raise already_completed, demo_completed_db).
Proof.
  assert (Huser : get_User "user-1" demo_started_db = Some demo_user)
    by (vm_compute; reflexivity).
  destruct (C5_ads_complete_failures (mkCompleteEnv 0.5 3000 3001 "tx-1" 3002) "user-1"
              (AdCompleteRequest.mk "token-1") demo_started_db demo_user Huser)
    as (_ & _ & _ & _ & _ & _ & Htwice).
  refine (proj1 (Htwice _ demo_completed_db _ [] (mkCompleteEnv 0.25 5000 5001 "tx-9" 5002))).
  vm_compute. reflexivity.
Defined.



Lemma uniform_in_range draw a b :
  (a <= b)%Q -> (0 <= draw)%Q -> (draw < 1)%Q ->
  (a <= uniform draw a b)%Q /\ (uniform draw a b <= b)%Q.
Proof.
  unfold uniform. intros Hab H0 H1. split; nra.
Qed.



(** ** C9: registration *)

Lemma get_user_run uid db :
  run_request (get_user uid) db =
  match get_User uid db with
  | Some user => (Ok user, db)
  | None => (Raise user_not_found, db)
  end.
Proof.
  flatten_handler.
Qed.

Lemma register_ok env p db resp db' :
  run_request (register env p) db = (Ok resp, db') ->
  find_email (AuthRegisterRequest.email p) db = None
  /\ user_clash (registered_user env p) db = false
  /\ balance_clash (reg_user_id env) db = false
  /\ resp = AuthRegisterResponse.mk "Registered successfully" (reg_user_id env) true
  /\ db' = new_user_db (registered_user env p) [] (reg_balance_updated_at env) db.
Proof.
  rewrite register_run. unfold find_email.
  destruct (find _ (users db)); [discriminate|].
  destruct (user_clash _ db); [discriminate|].
  destruct (balance_clash _ db); [discriminate|].
  intros E. injection E as <- <-. unfold new_user_db. rewrite app_nil_r.
  repeat split.
Qed.

(** C9.  A successful registration appends exactly one user, carrying the
    given email and username and the hash of the password, and one balance
    row for that user with available and pending both 0; nothing else
    changes.  From then on, after any further requests, registering the
    same email again is refused with "Email already used" (CONFLICT) and
    changes nothing, and the id returned by the first registration still
    resolves to the same user.  A registration that raises stores nothing.
    The registration does succeed when the email and the new key are
    unused. *)
Theorem C9_register env p db :
  let outcome := run_request (register env p) db in
  let user := User.mk (reg_user_id env) (AuthRegisterRequest.email p)
                      (AuthRegisterRequest.username p)
                      (reg_hash env (AuthRegisterRequest.password p))
                      true (reg_created_at env) in
  (forall resp db', outcome = (Ok resp, db') ->
     users db' = users db ++ [user]
     /\ balances db' = balances db ++ [Balance.mk (reg_user_id env) 0 0
                                                   (reg_balance_updated_at env)]
     /\ AuthRegisterResponse.user_id resp = reg_user_id env
     /\ auth_accounts db' = auth_accounts db /\ ad_units db' = ad_units db
     /\ ad_views db' = ad_views db /\ transactions db' = transactions db
     /\ withdrawals db' = withdrawals db
     /\ forall later env2 p2,
          AuthRegisterRequest.email p2 = AuthRegisterRequest.email p ->
          let db2 := exec_all later db' in
          run_request (register env2 p2) db2 = (Raise email_already_used, db2)
          /\ run_request (get_user (AuthRegisterResponse.user_id resp)) db2 = (Ok user, db2))
  /\ failure_kind email_already_used = Some CONFLICT
  /\ (forall e db', outcome = (Raise e, db') -> db' = db)
  /\ (find_email (AuthRegisterRequest.email p) db = None ->
      get_User (reg_user_id env) db = None ->
      balance_clash (reg_user_id env) db = false ->
      exists resp db', outcome = (Ok resp, db')).
Proof.
  intros outcome user. subst outcome. split; [|split; [|split]].
  - intros resp db' Hok. apply register_ok in Hok.
    destruct Hok as (Hemail & Hclash & Hbal & -> & ->).
    fold (registered_user env p) in user. subst user.
    unfold new_user_db. cbn [users balances auth_accounts ad_units ad_views transactions
                             withdrawals AuthRegisterResponse.user_id].
    rewrite app_nil_r.
    do 8 (split; [reflexivity|]).
    intros later env2 p2 Hsame.
    match goal with
    | |- context [exec_all later ?d] =>
        destruct (exec_all_users later d) as [l Hdb2]; cbn [users] in Hdb2;
        generalize dependent (exec_all later d)
    end.
    intros db2 Hdb2. split.
    + rewrite register_run, Hdb2.
      assert (Hfound : find (fun u => (User.email u =? AuthRegisterRequest.email p2)%string)
                            (users db ++ [registered_user env p])
                       = Some (registered_user env p)).
      { rewrite find_app, Hsame. unfold find_email in Hemail. rewrite Hemail.
        cbn. now rewrite String.eqb_refl. }
      now rewrite (find_app_some _ _ l _ Hfound).
    + rewrite get_user_run. unfold get_User. rewrite Hdb2.
      assert (Hfound : find (fun u => (User.id u =? reg_user_id env)%string)
                            (users db ++ [registered_user env p])
                       = Some (registered_user env p)).
      { rewrite find_app. pose proof (user_clash_no_id _ _ Hclash) as Hid.
        unfold get_User in Hid. cbn [registered_user User.id] in Hid. rewrite Hid.
        cbn. now rewrite String.eqb_refl. }
      now rewrite (find_app_some _ _ l _ Hfound).
  - reflexivity.
  - intros e db'. rewrite register_run.
    repeat (break_atomic; try discriminate); intros E; now injection E.
  - intros Hemail Hid Hbal. rewrite register_run.
    unfold find_email in Hemail. rewrite Hemail, Hbal.
    assert (Hclash : user_clash (registered_user env p) db = false).
    { unfold user_clash. apply not_true_is_false. intros E.
      apply existsb_exists in E. destruct E as [x [Hin Hx]].
      apply orb_true_iff in Hx. destruct Hx as [Hx|Hx].
      - unfold get_User in Hid. apply (find_none _ _ Hid) in Hin. cbn in Hin, Hx. congruence.
      - apply (find_none _ _ Hemail) in Hin. cbn in Hin, Hx. congruence. }
    rewrite Hclash. eauto.
Qed.

Lemma C9_register_witness :
  exists resp db',
    run_request (register (mkRegisterEnv (fun pw => ("bcrypt:" ++ pw)%string) "user-2" 6000 6001)
                          (AuthRegisterRequest.mk "bob@example.com" "hunter2hunter2" "bob"))
                demo_completed_db
    = (Ok resp, db').
Proof.
  destruct (C9_register (mkRegisterEnv (fun pw => ("bcrypt:" ++ pw)%string) "user-2" 6000 6001)
                        (AuthRegisterRequest.mk "bob@example.com" "hunter2hunter2" "bob")
                        demo_completed_db) as (_ & _ & _ & Hok).
  apply Hok; vm_compute; reflexivity.
Defined.

(** ** C10: external-identity login *)


Lemma NoDup_snoc {A} (l : list A) (x : A) :
  NoDup l -> ~ In x l -> NoDup (l ++ [x]).
Proof.
  intros Hnd Hx. apply (Permutation_NoDup (Permutation_cons_append l x)).
  now constructor.
Qed.





(** ** C2: reviewing a withdrawal *)

(** C2, as stated, fails.  The withdrawal "wd-1" has been approved; a
    second review with decision rejected does not raise: it answers with
    status "rejected" and stores the withdrawal as rejected, with the new
    review time and notes. *)
Lemma C2_counterexample :
  exists w,
    get_Withdrawal "wd-1" demo_approved_db = Some w
    /\ Withdrawal.status w = "approved"
    /\ is_terminal w = true
    /\ exists resp db',
         run_request (review_withdrawal (mkReviewEnv 6000) "admin_demo" "wd-1"
                        (AdminWithdrawalReviewRequest.mk rejected None))
                     demo_approved_db
         = (Ok resp, db')
         /\ WithdrawResponse.status resp = "rejected"
         /\ option_map Withdrawal.status (get_Withdrawal "wd-1" db') = Some "rejected"
         /\ option_map Withdrawal.reviewed_at (get_Withdrawal "wd-1" db') = Some (Some 6000)
         /\ db' <> demo_approved_db
         /\ ~ (exists e,
                 run_request (review_withdrawal (mkReviewEnv 6000) "admin_demo" "wd-1"
                                (AdminWithdrawalReviewRequest.mk rejected None))
                             demo_approved_db
                 = (Raise e, demo_approved_db)
                 /\ failure_kind e = Some INVALID_STATE).
Proof.
  eexists. split; [vm_compute; reflexivity|].
  split; [reflexivity|]. split; [reflexivity|].
  eexists. eexists. split; [vm_compute; reflexivity|].
  split; [reflexivity|]. split; [reflexivity|]. split; [reflexivity|].
  split.
  - intros E. apply (f_equal withdrawals) in E. vm_compute in E. discriminate E.
  - intros (e & E & _). vm_compute in E. discriminate E.
Qed.

Lemma get_Withdrawal_reviewed env p w wid db :
  get_Withdrawal wid db = Some w ->
  get_Withdrawal wid (reviewed_db env p w db) = Some (review (rv_reviewed_at env) p w).
Proof.
  intros H. unfold get_Withdrawal, reviewed_db in *. cbn [withdrawals set_withdrawals].
  rewrite find_map_stable, H.
  - cbn. now rewrite String.eqb_refl.
  - intros x. destruct (Withdrawal.id x =? Withdrawal.id w)%string; reflexivity.
Qed.

Lemma review_status_not_pending d : review_status_str d <> "pending".
Proof.
  destruct d; discriminate.
Qed.

Lemma effect_withdrawals db db' : effect db db' -> withdrawals_evolve db db'.
Proof.
  unfold withdrawals_evolve. destruct 1.
  1-5: exists (fun x => x), []; cbn; rewrite map_id, app_nil_r; repeat split; auto.
  - exists (fun x => x), [requested_withdrawal env user p]. cbn. rewrite map_id.
    repeat split; auto.
  - exists (fun x => if (Withdrawal.id x =? Withdrawal.id w)%string
                     then review (rv_reviewed_at env) p x else x), [].
    cbn. rewrite app_nil_r. repeat split; auto.
    + destruct (Withdrawal.id x =? Withdrawal.id w)%string; reflexivity.
    + destruct (Withdrawal.id x =? Withdrawal.id w)%string; [|now left].
      right. cbn. destruct (AdminWithdrawalReviewRequest.status p); auto.
Qed.

Lemma statuses_kept_refl db : statuses_kept db db.
Proof.
  exists (fun x => x), []. rewrite map_id, app_nil_r. split; [reflexivity|]. auto.
Qed.

Lemma statuses_kept_step db db' db'' :
  statuses_kept db db' -> withdrawals_evolve db' db'' -> statuses_kept db db''.
Proof.
  intros (g1 & rest1 & E1 & H1) (g2 & added & E2 & H2 & _).
  exists (fun x => g2 (g1 x)), (map g2 rest1 ++ added).
  split.
  - now rewrite E2, E1, map_app, map_map, app_assoc.
  - intros x. destruct (H1 x) as [Hid1 Hs1]. destruct (H2 (g1 x)) as [Hid2 Hs2].
    split; [congruence|].
    destruct Hs2 as [Hs2|Hs2]; [rewrite Hs2; exact Hs1 | now right].
Qed.

Lemma exec_all_statuses_kept rs db : statuses_kept db (exec_all rs db).
Proof.
  induction rs as [|r rs IH] using rev_ind; [apply statuses_kept_refl|].
  rewrite exec_all_snoc. eapply statuses_kept_step; [exact IH|].
  apply effect_withdrawals, exec_effect.
Qed.

(** C2, amended.  [review_withdrawal] does not look at the current status.
    With the admin token and an existing withdrawal it always succeeds,
    whether the withdrawal is pending, approved or rejected: the row is
    stored with the decision as status (approved or rejected, never
    pending), the review time and the notes, its other fields unchanged,
    and the response reports the new status.  Without the admin token it
    raises "Not authorized" and for an unknown id "Withdrawal not found",
    storing nothing.  Under every request, each stored withdrawal keeps
    its id and either keeps its status or gets a review decision, and new
    rows are pending; over any sequence of requests the same holds of the
    rows stored at its beginning: a status never returns to pending. *)
Theorem C2_review_withdrawal env wid p db :
  (forall w, get_Withdrawal wid db = Some w ->
     exists db',
       run_request (review_withdrawal env ADMIN_TOKEN wid p) db
       = (Ok (WithdrawResponse.mk (Withdrawal.id w)
                (review_status_str (AdminWithdrawalReviewRequest.status p))
                (Withdrawal.created_at w)), db')
       /\ get_Withdrawal wid db'
          = Some (Withdrawal.mk (Withdrawal.id w) (Withdrawal.user_id w) (Withdrawal.amount w)
                    (Withdrawal.fee w) (Withdrawal.payout_method w) (Withdrawal.destination w)
                    (review_status_str (AdminWithdrawalReviewRequest.status p))
                    (Withdrawal.created_at w) (Some (rv_reviewed_at env))
                    (AdminWithdrawalReviewRequest.review_notes p))
       /\ review_status_str (AdminWithdrawalReviewRequest.status p) <> "pending"
       /\ balances db' = balances db /\ transactions db' = transactions db)
  /\ (forall token, token <> ADMIN_TOKEN ->
        run_request (review_withdrawal env token wid p) db = (Raise not_authorized, db))
  /\ (get_Withdrawal wid db = None ->
        run_request (review_withdrawal env ADMIN_TOKEN wid p) db
        = (Raise withdrawal_not_found, db))
  /\ (forall r, withdrawals_evolve db (exec r db))
  /\ (forall later, statuses_kept db (exec_all later db)).
Proof.
  split; [|split; [|split; [|split]]].
  - intros w Hw. rewrite review_withdrawal_run, Hw. cbn [negb String.eqb].
    eexists. split; [reflexivity|].
    split; [apply (get_Withdrawal_reviewed env p w wid db Hw)|].
    split; [apply review_status_not_pending|]. split; reflexivity.
  - intros token Hne. rewrite review_withdrawal_run.
    apply String.eqb_neq in Hne. now rewrite Hne.
  - intros Hnone. rewrite review_withdrawal_run, Hnone. reflexivity.
  - intros r. apply effect_withdrawals, exec_effect.
  - intros later. apply exec_all_statuses_kept.
Qed.

Lemma C2_review_withdrawal_witness :
  exists db',
    run_request (review_withdrawal (mkReviewEnv 6000) ADMIN_TOKEN "wd-1"
                   (AdminWithdrawalReviewRequest.mk rejected None)) demo_approved_db
    = (Ok (WithdrawResponse.mk "wd-1" "rejected" 4001), db').
Proof.
  destruct (C2_review_withdrawal (mkReviewEnv 6000) "wd-1"
              (AdminWithdrawalReviewRequest.mk rejected None) demo_approved_db)
    as (Hok & _).
  destruct (Hok (Withdrawal.mk "wd-1" "user-1" 10 0.2 "paypal" "ann@example.com" "approved"
                   4001 (Some 5000) (Some "paid")))
    as (db' & Hrun & _).
  - vm_compute. reflexivity.
  - exists db'. exact Hrun.
Defined.

(** ** Ordering by a key, latest first *)

Section OrderBy.
Context {A : Type}.
Variable key : A -> Z.

Lemma insert_desc_perm x l : Permutation (x :: l) (insert_desc key x l).
Proof.
  induction l as [|y l IH]; cbn [insert_desc]; [reflexivity|].
  destruct (key y <=? key x); [reflexivity|].
  rewrite perm_swap. now apply perm_skip.
Qed.

Lemma order_by_desc_perm l : Permutation l (order_by_desc key l).
Proof.
  induction l as [|x l IH]; cbn; [constructor|].
  rewrite <- insert_desc_perm. now apply perm_skip.
Qed.

Lemma insert_desc_sorted x l :
  StronglySorted (desc key) l -> StronglySorted (desc key) (insert_desc key x l).
Proof.
  induction 1 as [|y l Hs IH Hall]; cbn [insert_desc].
  - repeat constructor.
  - destruct (key y <=? key x) eqn:E.
    + apply Z.leb_le in E. constructor; [now constructor|].
      constructor; [exact E|].
      eapply Forall_impl; [|exact Hall]. unfold desc. intros; lia.
    + apply Z.leb_gt in E. constructor; [exact IH|].
      eapply Permutation_Forall; [apply insert_desc_perm|].
      constructor; [unfold desc; lia | exact Hall].
Qed.

Lemma order_by_desc_sorted l : StronglySorted (desc key) (order_by_desc key l).
Proof.
  induction l as [|x l IH]; cbn; [constructor|].
  now apply insert_desc_sorted.
Qed.

(** The head of the ordered list carries the greatest key. *)
Lemma order_by_desc_head l x :
  hd_error (order_by_desc key l) = Some x ->
  In x l /\ forall y, In y l -> key y <= key x.
Proof.
  intros H. pose proof (order_by_desc_sorted l) as Hs.
  pose proof (order_by_desc_perm l) as Hp.
  destruct (order_by_desc key l) as [|z rest]; [discriminate|].
  injection H as ->. split.
  - eapply Permutation_in; [symmetry; exact Hp | now left].
  - intros y Hy. apply (Permutation_in _ Hp) in Hy. destruct Hy as [<-|Hy]; [lia|].
    inversion Hs as [|? ? _ Hall]; subst.
    rewrite Forall_forall in Hall. now apply Hall.
Qed.

Lemma order_by_desc_nil l : hd_error (order_by_desc key l) = None -> l = [].
Proof.
  intros H. pose proof (order_by_desc_perm l) as Hp.
  destruct (order_by_desc key l); [|discriminate].
  now apply Permutation_sym, Permutation_nil in Hp.
Qed.

End OrderBy.

(** ** C8: the earnings history *)



(** ** C7: starting a session, refusals *)

Lemma recent_view_most_recent user db last :
  recent_view_of user db = Some last ->
  In last (ad_views db) /\ AdView.user_id last = User.id user
  /\ forall v, In v (ad_views db) -> AdView.user_id v = User.id user ->
       AdView.started_at v <= AdView.started_at last.
Proof.
  unfold recent_view_of. intros H. apply order_by_desc_head in H.
  destruct H as [Hin Hmax]. apply filter_In in Hin. destruct Hin as [Hin Hk].
  apply String.eqb_eq in Hk. repeat split; try assumption.
  intros v Hv Hu. apply Hmax. apply filter_In. split; [exact Hv|].
  now apply String.eqb_eq.
Qed.

Lemma recent_view_none user db :
  recent_view_of user db = None ->
  forall v, In v (ad_views db) -> AdView.user_id v <> User.id user.
Proof.
  unfold recent_view_of. intros H v Hin Hu. apply order_by_desc_nil in H.
  assert (Hf : In v (filter (fun v => AdView.user_id v =? User.id user)%string (ad_views db)))
    by (apply filter_In; split; [exact Hin | now apply String.eqb_eq]).
  rewrite H in Hf. contradiction.
Qed.


Lemma ads_start_raise env uid p db e db' :
  run_request (ads_start env uid p) db = (Raise e, db') -> db' = db.
Proof.
  rewrite ads_start_run. unfold ads_start_tail.
  repeat (break_atomic; try discriminate); intros E; now injection E.
Qed.

Lemma ads_start_ok env uid p db resp db' :
  run_request (ads_start env uid p) db = (Ok resp, db') ->
  exists user ad_unit,
    get_User uid db = Some user
    /\ get_AdUnit (AdStartRequest.ad_unit_id p) db = Some ad_unit
    /\ AdUnit.is_active ad_unit = true
    /\ cooldown_passed env ad_unit user db
    /\ daily_count_of user (start_of_day (st_now_day env)) db < AdUnit.daily_cap ad_unit
    /\ view_clash env db = false
    /\ resp = AdStartResponse.mk (st_session_token env) (AdUnit.cooldown_seconds ad_unit)
    /\ db' = set_ad_views (fun l => l ++ [started_view env user ad_unit]) db.
Proof.
  rewrite ads_start_run.
  destruct (get_User uid db) as [user|] eqn:Hu; [|discriminate].
  destruct (get_AdUnit _ db) as [ad_unit|] eqn:Ha; [|discriminate].
  destruct (AdUnit.is_active ad_unit) eqn:Hact; cbn [negb]; [|discriminate].
  intros H. exists user, ad_unit.
  assert (Htail : ads_start_tail env user ad_unit db = (Ok resp, db') ->
                  daily_count_of user (start_of_day (st_now_day env)) db
                  < AdUnit.daily_cap ad_unit
                  /\ view_clash env db = false
                  /\ resp = AdStartResponse.mk (st_session_token env)
                                               (AdUnit.cooldown_seconds ad_unit)
                  /\ db' = set_ad_views (fun l => l ++ [started_view env user ad_unit]) db).
  { unfold ads_start_tail.
    destruct (daily_count_of _ _ db >=? AdUnit.daily_cap ad_unit) eqn:Ec; [discriminate|].
    destruct (view_clash env db); [discriminate|].
    intros E. injection E as <- <-.
    rewrite Z.geb_leb in Ec. apply Z.leb_gt in Ec. auto. }
  unfold cooldown_passed.
  destruct (recent_view_of user db) as [recent|].
  - destruct (Z.abs (AdUnit.cooldown_seconds ad_unit / 86400) >? 999999999) eqn:Er;
      [discriminate|].
    destruct (st_now_elapsed env - AdView.started_at recent
              <? AdUnit.cooldown_seconds ad_unit * usec_per_second) eqn:El; [discriminate|].
    rewrite Z.gtb_ltb in Er. apply Z.ltb_ge in Er. apply Z.ltb_ge in El.
    apply Htail in H. tauto.
  - apply Htail in H. tauto.
Qed.



(** ** C4: the daily cap *)

(** C4, as stated, fails.  Ad units A and B both have a daily cap of 1.
    The user has completed one view of A today and, 61 seconds after
    starting it, asks to start a view of B.  Of B the user has completed
    nothing today, yet the request is refused with "Daily cap reached":
    the handler counts the user's completed views of every ad unit. *)
Lemma C4_counterexample :
  get_User "user-1" cap_db = Some demo_user
  /\ get_AdUnit "unit-b" cap_db = Some cap_unit_b
  /\ daily_count_for_unit demo_user cap_unit_b (start_of_day 61002001) cap_db = 0
  /\ AdUnit.daily_cap cap_unit_b = 1
  /\ daily_count_of demo_user (start_of_day 61002001) cap_db = 1
  /\ cooldown_passed (mkStartEnv 61002000 61002001 "token-2" "view-2" 61002002)
                     cap_unit_b demo_user cap_db
  /\ run_request (ads_start (mkStartEnv 61002000 61002001 "token-2" "view-2" 61002002)
                            "user-1" (AdStartRequest.mk "unit-b")) cap_db
     = (Raise daily_cap_reached, cap_db)
  /\ failure_kind daily_cap_reached = Some RATE_LIMITED
  /\ ~ (AdUnit.daily_cap cap_unit_b
        <= daily_count_for_unit demo_user cap_unit_b (start_of_day 61002001) cap_db).
Proof.
  split; [vm_compute; reflexivity|].
  split; [vm_compute; reflexivity|].
  split; [vm_compute; reflexivity|].
  split; [vm_compute; reflexivity|].
  split; [vm_compute; reflexivity|].
  split; [vm_compute; split; discriminate|].
  split; [vm_compute; reflexivity|].
  split; [reflexivity|].
  vm_compute. intros H. apply H. reflexivity.
Qed.

Lemma daily_count_of_counted user since db :
  daily_count_of user since db
  = Z.of_nat (List.length (filter (counted user since) (ad_views db))).
Proof.
  reflexivity.
Qed.

Lemma map_update_absent {A} (key : A -> string) (k : string) (g : A -> A) (l : list A) :
  (forall x, In x l -> (key x =? k)%string = false) ->
  map (fun x => if (key x =? k)%string then g x else x) l = l.
Proof.
  intros H. rewrite <- (map_id l) at 2. apply map_ext_in.
  intros x Hx. now rewrite (H x Hx).
Qed.

Lemma view_clash_ids env db :
  view_clash env db = false ->
  forall x, In x (ad_views db) ->
    (AdView.id x =? st_view_id env)%string = false
    /\ (AdView.session_token x =? st_session_token env)%string = false.
Proof.
  unfold view_clash. intros H x Hx.
  apply (existsb_false_forall _ _ H) in Hx. now apply orb_false_iff in Hx.
Qed.

Lemma ads_start_tail_eq env uid p db user ad_unit :
  get_User uid db = Some user ->
  get_AdUnit (AdStartRequest.ad_unit_id p) db = Some ad_unit ->
  AdUnit.is_active ad_unit = true ->
  cooldown_passed env ad_unit user db ->
  run_request (ads_start env uid p) db = ads_start_tail env user ad_unit db.
Proof.
  intros Hu Ha Hact Hcool. rewrite ads_start_run, Hu, Ha, Hact. cbn [negb].
  unfold cooldown_passed in Hcool.
  destruct (recent_view_of user db) as [recent|]; [|reflexivity].
  destruct Hcool as [Hrange Hel].
  replace (Z.abs (AdUnit.cooldown_seconds ad_unit / 86400) >? 999999999) with false
    by (symmetry; rewrite Z.gtb_ltb; apply Z.ltb_ge; exact Hrange).
  replace (st_now_elapsed env - AdView.started_at recent
           <? AdUnit.cooldown_seconds ad_unit * usec_per_second) with false
    by (symmetry; apply Z.ltb_ge; exact Hel).
  reflexivity.
Qed.

Lemma count_after_start user since env owner ad_unit db :
  daily_count_of user since
    (set_ad_views (fun l => l ++ [started_view env owner ad_unit]) db)
  = daily_count_of user since db.
Proof.
  unfold daily_count_of. cbn [ad_views set_ad_views]. rewrite filter_app. cbn [filter].
  cbn [started_view AdView.status AdView.user_id AdView.started_at].
  replace ("started" =? "completed")%string with false by reflexivity.
  rewrite andb_false_r. cbn [andb]. now rewrite app_nil_r.
Qed.

(** Completing the view that the preceding start appended. *)
Lemma start_then_complete env cenv user ad_unit db uid :
  get_User uid db = Some user ->
  user_balance user db <> None ->
  view_clash env db = false ->
  transaction_clash (cp_transaction_id cenv) db = false ->
  let db1 := set_ad_views (fun l => l ++ [started_view env user ad_unit]) db in
  let reward := reward_for cenv (started_view env user ad_unit) db in
  exists resp,
    run_request (ads_complete cenv uid (AdCompleteRequest.mk (st_session_token env))) db1
    = (Ok resp,
       mkDB (users db) (auth_accounts db) (ad_units db)
            (ad_views db ++ [complete_view (cp_completed_at cenv) reward
                               (started_view env user ad_unit)])
            (map (fun b => if (Balance.user_id b =? User.id user)%string
                           then credit (cp_updated_at cenv) reward b else b) (balances db))
            (transactions db ++ [Transaction.mk (cp_transaction_id cenv) (User.id user)
                                   "earn" "ad_view" reward (cp_occurred_at cenv)])
            (withdrawals db)).
Proof.
  intros Hu Hb Hclash Ht db1 reward.
  pose proof (view_clash_ids _ _ Hclash) as Hfresh.
  rewrite ads_complete_run.
  replace (get_User uid db1) with (Some user) by (symmetry; exact Hu).
  cbn [AdCompleteRequest.session_token].
  assert (Hfind : find_session (st_session_token env) db1
                  = Some (started_view env user ad_unit)).
  { unfold find_session, db1. cbn [ad_views set_ad_views]. rewrite find_app.
    replace (find (fun v => (AdView.session_token v =? st_session_token env)%string)
                  (ad_views db)) with (@None AdView.t).
    - cbn. now rewrite String.eqb_refl.
    - symmetry. apply existsb_find_none. apply not_true_is_false. intros E.
      apply existsb_exists in E. destruct E as [x [Hx E]].
      destruct (Hfresh x Hx) as [_ Hx2]. congruence. }
  rewrite Hfind. cbn [started_view AdView.user_id AdView.status AdView.id].
  rewrite String.eqb_refl.
  replace ("started" =? "started")%string with true by reflexivity.
  cbn [negb].
  replace (user_balance user db1) with (user_balance user db) by reflexivity.
  destruct (user_balance user db) as [b|] eqn:Eb; [|congruence].
  replace (transaction_clash (cp_transaction_id cenv) db1) with false
    by (symmetry; exact Ht).
  cbv zeta. eexists. apply f_equal2; [reflexivity|].
  unfold db1. cbn [users auth_accounts ad_units ad_views balances transactions withdrawals
                   set_ad_views].
  rewrite (user_balance_key _ _ _ Eb), map_app.
  rewrite (map_update_absent AdView.id (st_view_id env))
    by (intros x Hx; now destruct (Hfresh x Hx)).
  cbn [map AdView.id]. rewrite String.eqb_refl. reflexivity.
Qed.

Section Rounds.
Variables (se : nat -> StartEnv) (ce : nat -> CompleteEnv).
Variables (uid aid : string) (user : User.t) (ad_unit : AdUnit.t).
Variables (day : datetime) (db0 : DB).
(** The number of rounds; the attempt after the last round has index [K]. *)
Variable K : nat.

Hypothesis Huser : get_User uid db0 = Some user.
Hypothesis Hbalance : user_balance user db0 <> None.
Hypothesis Hunit : get_AdUnit aid db0 = Some ad_unit.
Hypothesis Hactive : AdUnit.is_active ad_unit = true.
Hypothesis Hrange : Z.abs (AdUnit.cooldown_seconds ad_unit / 86400) <= 999999999.
(** Every round is clocked within the day that begins at [day]. *)
Hypothesis Hday : forall i, (i <= K)%nat ->
  start_of_day (st_now_day (se i)) = day /\ day <= st_started_at (se i).
(** Every round begins at least the cooldown after the views already
    stored and after the rounds before it. *)
Hypothesis Hcool0 : forall v i, (i <= K)%nat ->
  In v (ad_views db0) -> AdView.user_id v = User.id user ->
  AdUnit.cooldown_seconds ad_unit * usec_per_second
  <= st_now_elapsed (se i) - AdView.started_at v.
Hypothesis Hcool : forall i j, (i < j <= K)%nat ->
  AdUnit.cooldown_seconds ad_unit * usec_per_second
  <= st_now_elapsed (se j) - st_started_at (se i).
(** The generated keys and tokens are new. *)
Hypothesis Hfresh_view0 : forall i x, (i <= K)%nat -> In x (ad_views db0) ->
  AdView.id x <> st_view_id (se i) /\ AdView.session_token x <> st_session_token (se i).
Hypothesis Hfresh_view : forall i j, (i <= K)%nat -> (j <= K)%nat -> i <> j ->
  st_view_id (se i) <> st_view_id (se j)
  /\ st_session_token (se i) <> st_session_token (se j).
Hypothesis Hfresh_tx0 : forall i x, (i < K)%nat -> In x (transactions db0) ->
  Transaction.id x <> cp_transaction_id (ce i).
Hypothesis Hfresh_tx : forall i j, (i < K)%nat -> (j < K)%nat -> i <> j ->
  cp_transaction_id (ce i) <> cp_transaction_id (ce j).

Lemma after_rounds_start : after_rounds se ce user ad_unit db0 0%nat db0.
Proof.
  unfold after_rounds. cbn. rewrite !app_nil_r. repeat split; auto.
Qed.

Lemma after_rounds_user i db :
  after_rounds se ce user ad_unit db0 i db -> get_User uid db = Some user.
Proof.
  intros (Hu & _). unfold get_User in *. now rewrite Hu.
Qed.

Lemma after_rounds_unit i db :
  after_rounds se ce user ad_unit db0 i db -> get_AdUnit aid db = Some ad_unit.
Proof.
  intros (_ & Ha & _). unfold get_AdUnit in *. now rewrite Ha.
Qed.

Lemma after_rounds_view i db v :
  after_rounds se ce user ad_unit db0 i db -> In v (ad_views db) ->
  In v (ad_views db0) \/ exists j, (j < i)%nat /\ v = done_view se ce user ad_unit j.
Proof.
  intros (_ & _ & _ & Hv & _) Hin. rewrite Hv in Hin. apply in_app_or in Hin.
  destruct Hin as [Hin|Hin]; [now left|]. right.
  apply in_map_iff in Hin. destruct Hin as (j & <- & Hj). apply in_seq in Hj.
  exists j. split; [lia | reflexivity].
Qed.

Lemma after_rounds_cooldown i db :
  (i <= K)%nat -> after_rounds se ce user ad_unit db0 i db ->
  cooldown_passed (se i) ad_unit user db.
Proof.
  intros Hi HR. unfold cooldown_passed.
  destruct (recent_view_of user db) as [recent|] eqn:Hr; [|exact I].
  split; [exact Hrange|].
  apply recent_view_most_recent in Hr. destruct Hr as (Hin & Hown & _).
  destruct (after_rounds_view i db recent HR Hin) as [H0 | (j & Hj & ->)].
  - now apply Hcool0.
  - cbn. apply Hcool. lia.
Qed.

Lemma after_rounds_view_clash i db :
  (i <= K)%nat -> after_rounds se ce user ad_unit db0 i db -> view_clash (se i) db = false.
Proof.
  intros Hi HR. unfold view_clash. apply not_true_is_false. intros E.
  apply existsb_exists in E. destruct E as (x & Hx & E).
  apply orb_true_iff in E.
  destruct (after_rounds_view i db x HR Hx) as [H0 | (j & Hj & ->)].
  - destruct (Hfresh_view0 i x Hi H0) as [H1 H2].
    destruct E as [E|E]; apply String.eqb_eq in E; contradiction.
  - assert (Hne : j <> i) by lia.
    destruct (Hfresh_view j i ltac:(lia) Hi Hne) as [H1 H2].
    cbn in E. destruct E as [E|E]; apply String.eqb_eq in E; contradiction.
Qed.

Lemma after_rounds_transaction_clash i db :
  (i < K)%nat -> after_rounds se ce user ad_unit db0 i db ->
  transaction_clash (cp_transaction_id (ce i)) db = false.
Proof.
  intros Hi (_ & _ & _ & _ & Ht). unfold transaction_clash. apply not_true_is_false. intros E.
  apply existsb_exists in E. destruct E as (x & Hx & E). apply String.eqb_eq in E.
  rewrite Ht in Hx. apply in_app_or in Hx. destruct Hx as [Hx|Hx].
  - exact (Hfresh_tx0 i x Hi Hx E).
  - apply in_map_iff in Hx. destruct Hx as (j & <- & Hj). apply in_seq in Hj.
    assert (Hne : j <> i) by lia. exact (Hfresh_tx j i ltac:(lia) Hi Hne E).
Qed.

Lemma after_rounds_count i db :
  (i <= K)%nat -> after_rounds se ce user ad_unit db0 i db ->
  daily_count_of user day db = daily_count_of user day db0 + Z.of_nat i.
Proof.
  intros Hi (_ & _ & _ & Hv & _).
  rewrite !daily_count_of_counted, Hv, filter_app, length_app.
  rewrite Nat2Z.inj_add. f_equal.
  rewrite forallb_filter_id.
  - now rewrite length_map, length_seq.
  - apply forallb_forall. intros v Hin. apply in_map_iff in Hin.
    destruct Hin as (j & <- & Hj). apply in_seq in Hj. unfold counted. cbn.
    rewrite String.eqb_refl. cbn. apply Z.leb_le. apply Hday. lia.
Qed.
Lemma run_rounds_S k i db :
  run_rounds se ce uid aid (S k) i db
  = match run_rounds se ce uid aid 1 i db with
    | Some db2 => run_rounds se ce uid aid k (S i) db2
    | None => None
    end.
Proof.
  cbn [run_rounds].
  destruct (run_request (ads_start (se i) uid (AdStartRequest.mk aid)) db) as [[r1|e1] db1];
    [|reflexivity].
  destruct (run_request (ads_complete (ce i) uid
                           (AdCompleteRequest.mk (st_session_token (se i)))) db1)
    as [[r2|e2] db2]; reflexivity.
Qed.

Lemma seq_snoc i : seq 0 (S i) = seq 0 i ++ [i].
Proof.
  now rewrite seq_S.
Qed.

Lemma round_step i db :
  (i < K)%nat ->
  after_rounds se ce user ad_unit db0 i db ->
  daily_count_of user day db0 + Z.of_nat i < AdUnit.daily_cap ad_unit ->
  exists db2,
    run_rounds se ce uid aid 1 i db = Some db2
    /\ after_rounds se ce user ad_unit db0 (S i) db2.
Proof.
  intros Hi HR Hcap. cbn [run_rounds].
  assert (Hi' : (i <= K)%nat) by lia.
  pose proof (after_rounds_user i db HR) as Hu.
  pose proof (after_rounds_unit i db HR) as Ha.
  rewrite (ads_start_tail_eq (se i) uid (AdStartRequest.mk aid) db user ad_unit Hu Ha Hactive
             (after_rounds_cooldown i db Hi' HR)).
  unfold ads_start_tail.
  rewrite (proj1 (Hday i Hi')), (after_rounds_count i db Hi' HR).
  replace (daily_count_of user day db0 + Z.of_nat i >=? AdUnit.daily_cap ad_unit) with false
    by (symmetry; rewrite Z.geb_leb; apply Z.leb_gt; exact Hcap).
  rewrite (after_rounds_view_clash i db Hi' HR).
  destruct HR as (HRu & HRa & HRb & HRv & HRt).
  destruct (start_then_complete (se i) (ce i) user ad_unit db uid Hu HRb
              (after_rounds_view_clash i db Hi' (conj HRu (conj HRa (conj HRb (conj HRv HRt)))))
              (after_rounds_transaction_clash i db Hi
                 (conj HRu (conj HRa (conj HRb (conj HRv HRt))))))
    as (resp & Hrun).
  cbv zeta in Hrun. rewrite Hrun. eexists. split; [reflexivity|].
  assert (Hreward : reward_for (ce i) (started_view (se i) user ad_unit) db
                    = uniform (cp_random (ce i)) (AdUnit.reward_min ad_unit)
                              (AdUnit.reward_max ad_unit)).
  { unfold reward_for. cbn [started_view AdView.ad_unit_id].
    pose proof (find_eqb_key AdUnit.id aid (ad_units db0) ad_unit Hunit) as [Hid _].
    rewrite Hid, Ha. reflexivity. }
  unfold after_rounds.
  cbn [users ad_units ad_views transactions].
  split; [exact HRu|]. split; [exact HRa|]. split; [|split].
  - unfold user_balance in *. cbn [balances].
    rewrite find_balance_map by reflexivity.
    destruct (find _ (balances db)); [discriminate | congruence].
  - rewrite HRv, seq_snoc, map_app, <- app_assoc. cbn [map]. unfold done_view.
    now rewrite Hreward.
  - rewrite HRt, seq_snoc, map_app, <- app_assoc. cbn [map]. unfold done_transaction.
    now rewrite Hreward.
Qed.

Lemma rounds_succeed k : forall i db,
  (i + k <= K)%nat ->
  after_rounds se ce user ad_unit db0 i db ->
  daily_count_of user day db0 + Z.of_nat i + Z.of_nat k <= AdUnit.daily_cap ad_unit ->
  exists db',
    run_rounds se ce uid aid k i db = Some db'
    /\ after_rounds se ce user ad_unit db0 (i + k)%nat db'.
Proof.
  induction k as [|k IH]; intros i db Hik HR Hcap.
  - exists db. rewrite Nat.add_0_r. split; [reflexivity | exact HR].
  - rewrite run_rounds_S.
    destruct (round_step i db ltac:(lia) HR) as (db2 & Hstep & HR2); [lia|].
    rewrite Hstep. destruct (IH (S i) db2 ltac:(lia) HR2) as (db' & Hrun & HR'); [lia|].
    exists db'. split; [exact Hrun|]. now rewrite <- Nat.add_succ_comm.
Qed.

(** With [n0] views counted for the day at the outset, the rounds go
    through as long as the count stays within the cap; once the count has
    reached the cap the next start is refused; and a day boundary later
    than every start counts none of these views. *)
Lemma daily_cap_rounds :
  daily_count_of user day db0 + Z.of_nat K <= AdUnit.daily_cap ad_unit ->
  exists dbk,
    run_rounds se ce uid aid K 0 db0 = Some dbk
    /\ daily_count_of user day dbk = daily_count_of user day db0 + Z.of_nat K
    /\ (daily_count_of user day db0 + Z.of_nat K = AdUnit.daily_cap ad_unit ->
        run_request (ads_start (se K) uid (AdStartRequest.mk aid)) dbk
        = (Raise daily_cap_reached, dbk))
    /\ (forall later,
          (forall v, In v (ad_views db0) -> AdView.user_id v = User.id user ->
                     AdView.started_at v < later) ->
          (forall i, (i < K)%nat -> st_started_at (se i) < later) ->
          daily_count_of user later dbk = 0).
Proof.
  intros Hcap.
  destruct (rounds_succeed K 0%nat db0 ltac:(lia) after_rounds_start)
    as (dbk & Hrun & HR); [lia|].
  cbn [Nat.add] in HR. exists dbk. split; [exact Hrun|].
  split; [apply (after_rounds_count K dbk (le_n K) HR)|]. split.
  - intros Hfull.
    rewrite (ads_start_tail_eq (se K) uid (AdStartRequest.mk aid) dbk user ad_unit
               (after_rounds_user K dbk HR) (after_rounds_unit K dbk HR) Hactive
               (after_rounds_cooldown K dbk (le_n K) HR)).
    unfold ads_start_tail.
    rewrite (proj1 (Hday K (le_n K))), (after_rounds_count K dbk (le_n K) HR), Hfull.
    replace (AdUnit.daily_cap ad_unit >=? AdUnit.daily_cap ad_unit) with true
      by (symmetry; rewrite Z.geb_leb; apply Z.leb_refl).
    reflexivity.
  - intros later Hold Hnew. rewrite daily_count_of_counted.
    rewrite filter_nil_forall; [reflexivity|].
    intros v Hin. unfold counted.
    destruct (AdView.user_id v =? User.id user)%string eqn:Eu; [|reflexivity].
    apply String.eqb_eq in Eu.
    assert (Hlt : AdView.started_at v < later).
    { destruct (after_rounds_view K dbk v HR Hin) as [H0 | (j & Hj & ->)].
      - now apply Hold.
      - cbn. now apply Hnew. }
    replace (later <=? AdView.started_at v) with false
      by (symmetry; apply Z.leb_gt; exact Hlt).
    now rewrite andb_false_r.
Qed.
End Rounds.

Lemma start_of_day_bounds dt :
  start_of_day dt <= dt < start_of_day dt + usec_per_day
  /\ start_of_day dt mod usec_per_day = 0.
Proof.
  unfold start_of_day.
  assert (Hpos : 0 < usec_per_day) by reflexivity.
  pose proof (Z.mod_pos_bound dt usec_per_day Hpos) as Hb.
  split; [lia|].
  rewrite Zminus_mod, Z.mod_mod, Z.sub_diag by lia. reflexivity.
Qed.

Lemma count_single_unit user ad_unit since db :
  (forall v, In v (ad_views db) -> AdView.user_id v = User.id user ->
             AdView.ad_unit_id v = AdUnit.id ad_unit) ->
  daily_count_for_unit user ad_unit since db = daily_count_of user since db.
Proof.
  intros Hone. unfold daily_count_for_unit, daily_count_of. do 2 f_equal.
  apply filter_ext_in. intros v Hin.
  destruct (AdView.user_id v =? User.id user)%string eqn:E; [|reflexivity].
  apply String.eqb_eq in E. rewrite (Hone v Hin E), String.eqb_refl. reflexivity.
Qed.

(** C4, amended.  The count is per user, over all ad units: the caller's
    views whose status is "completed" and whose start time is at or after
    00:00 UTC of the day of the request's clock reading.  For an existing
    caller, an active ad unit and a passed cooldown test, [ads_start] is
    refused with "Daily cap reached" (RATE_LIMITED) exactly when that count
    is at least the requested unit's [daily_cap]; the count agrees with
    the count per ad unit when all of the caller's views are of the
    requested unit; below the cap, and with unused keys, the request
    stores a started view, which leaves the count as it was.  Consequently, when [K] sessions are started and completed at
    once within one UTC day, the cooldown respected, and the count was
    [n0] at the outset with [n0 + K] within the cap, all [K] rounds
    succeed and the count is [n0 + K]; if that equals the cap the next
    start on that day is refused; and for a day boundary later than every
    start the count of these views is 0 again. *)
Theorem C4_daily_cap env uid p db user ad_unit :
  get_User uid db = Some user ->
  get_AdUnit (AdStartRequest.ad_unit_id p) db = Some ad_unit ->
  AdUnit.is_active ad_unit = true ->
  cooldown_passed env ad_unit user db ->
  let since := start_of_day (st_now_day env) in
  let n := daily_count_of user since db in
  let outcome := run_request (ads_start env uid p) db in
  (since <= st_now_day env < since + usec_per_day /\ since mod usec_per_day = 0)
  /\ n = Z.of_nat (List.length
                     (filter (fun v => (AdView.user_id v =? User.id user)%string
                                       && (AdView.status v =? "completed")%string
                                       && (since <=? AdView.started_at v))
                             (ad_views db)))
  /\ (outcome = (Raise daily_cap_reached, db) <-> AdUnit.daily_cap ad_unit <= n)
  /\ failure_kind daily_cap_reached = Some RATE_LIMITED
  /\ ((forall v, In v (ad_views db) -> AdView.user_id v = User.id user ->
                 AdView.ad_unit_id v = AdUnit.id ad_unit) ->
      daily_count_for_unit user ad_unit since db = n)
  /\ (n < AdUnit.daily_cap ad_unit -> view_clash env db = false ->
        outcome = (Ok (AdStartResponse.mk (st_session_token env)
                                          (AdUnit.cooldown_seconds ad_unit)),
                   set_ad_views (fun l => l ++ [started_view env user ad_unit]) db)
        /\ daily_count_of user since (snd outcome) = n)
  /\ (forall se ce day K,
        user_balance user db <> None ->
        rounds_env se ce user ad_unit day db K ->
        daily_count_of user day db + Z.of_nat K <= AdUnit.daily_cap ad_unit ->
        exists dbk,
          run_rounds se ce uid (AdStartRequest.ad_unit_id p) K 0 db = Some dbk
          /\ daily_count_of user day dbk = daily_count_of user day db + Z.of_nat K
          /\ (daily_count_of user day db + Z.of_nat K = AdUnit.daily_cap ad_unit ->
              run_request (ads_start (se K) uid p) dbk = (Raise daily_cap_reached, dbk))
          /\ (forall later,
                (forall v, In v (ad_views db) -> AdView.user_id v = User.id user ->
                           AdView.started_at v < later) ->
                (forall i, (i < K)%nat -> st_started_at (se i) < later) ->
                daily_count_of user later dbk = 0)).
Proof.
  intros Hu Ha Hact Hcool since n outcome.
  assert (Hrun : outcome = ads_start_tail env user ad_unit db)
    by (apply ads_start_tail_eq; assumption).
  split; [apply start_of_day_bounds|].
  split; [reflexivity|].
  split.
  { rewrite Hrun. unfold ads_start_tail. fold since. fold n.
    destruct (n >=? AdUnit.daily_cap ad_unit) eqn:E.
    - rewrite Z.geb_leb in E. apply Z.leb_le in E. tauto.
    - rewrite Z.geb_leb in E. apply Z.leb_gt in E. split; [|lia].
      destruct (view_clash env db); discriminate. }
  split; [reflexivity|].
  split; [apply count_single_unit|].
  split.
  { intros Hlt Hclash. rewrite Hrun. unfold ads_start_tail. fold since. fold n.
    replace (n >=? AdUnit.daily_cap ad_unit) with false
      by (symmetry; rewrite Z.geb_leb; apply Z.leb_gt; exact Hlt).
    rewrite Hclash. split; [reflexivity|]. cbn [snd]. apply count_after_start. }
  intros se ce day K Hbal (Hrange & Hday & Hc0 & Hc & Hv0 & Hv & Ht0 & Ht) Hcap.
  destruct p as [aid]. cbn [AdStartRequest.ad_unit_id] in *.
  exact (daily_cap_rounds se ce uid aid user ad_unit day db K Hu Hbal Ha Hact Hrange
           Hday Hc0 Hc Hv0 Hv Ht0 Ht Hcap).
Qed.

Lemma cap_rounds_env : rounds_env cap_se cap_ce demo_user cap_unit_a 0 cap_registered_db 1.
Proof.
  unfold rounds_env.
  split; [vm_compute; discriminate|].
  split.
  { intros [|[|i]] Hi; [| |lia]; vm_compute; (split; [reflexivity | discriminate]). }
  split; [intros v i _ Hin; vm_compute in Hin; contradiction|].
  split.
  { intros [|i] [|[|j]] Hij; try lia. vm_compute. discriminate. }
  split; [intros i x _ Hin; vm_compute in Hin; contradiction|].
  split.
  { intros [|[|i]] [|[|j]] Hi Hj Hne; try lia; try congruence;
      cbn; split; discriminate. }
  split; [intros i x _ Hin; vm_compute in Hin; contradiction|].
  intros i j Hi Hj Hne. lia.
Defined.

Lemma C4_daily_cap_witness :
  exists dbk,
    run_rounds cap_se cap_ce "user-1" "unit-a" 1 0 cap_registered_db = Some dbk
    /\ daily_count_of demo_user 0 dbk = 1
    /\ run_request (ads_start (cap_se 1) "user-1" (AdStartRequest.mk "unit-a")) dbk
       = (Raise daily_cap_reached, dbk).
Proof.
  assert (Hu : get_User "user-1" cap_registered_db = Some demo_user)
    by (vm_compute; reflexivity).
  assert (Ha : get_AdUnit "unit-a" cap_registered_db = Some cap_unit_a) by reflexivity.
  assert (Hcool : cooldown_passed (cap_se 0) cap_unit_a demo_user cap_registered_db)
    by (vm_compute; exact I).
  destruct (C4_daily_cap (cap_se 0) "user-1" (AdStartRequest.mk "unit-a") cap_registered_db
              demo_user cap_unit_a Hu Ha eq_refl Hcool)
    as (_ & _ & _ & _ & _ & _ & Hrounds).
  destruct (Hrounds cap_se cap_ce 0 1%nat) as (dbk & Hrun & Hcount & Hfull & _).
  - vm_compute. discriminate.
  - exact cap_rounds_env.
  - vm_compute. discriminate.
  - exists dbk. split; [exact Hrun|]. split; [exact Hcount|].
    apply Hfull. reflexivity.
Defined.

(** ** The two scenarios the specification spells out *)

(** With the seeded ad unit (rewards 0.002 to 0.01, cooldown 60 s, cap 30)
    the user completes the session: the reward and the new available
    balance are 0.006 for the draw 0.5, within the range; a second start
    one second after the first was stored is refused as rate limited. *)
Example scenario_reward_and_cooldown :
  exists resp db',
    run_request (ads_complete (mkCompleteEnv 0.5 3000 3001 "tx-1" 3002) "user-1"
                   (AdCompleteRequest.mk "token-1")) seeded_started_db
    = (Ok resp, db')
    /\ (AdCompleteResponse.reward resp == 0.006)%Q
    /\ (0.002 <= AdCompleteResponse.new_balance resp)%Q
    /\ (AdCompleteResponse.new_balance resp <= 0.01)%Q
    /\ option_map Balance.available (user_balance demo_user db')
       = Some (AdCompleteResponse.new_balance resp)
    /\ run_request (ads_start (mkStartEnv 1002002 1002003 "token-2" "view-2" 1002004)
                              "user-1" (AdStartRequest.mk "unit-1")) db'
       = (Raise cooldown_active, db')
    /\ failure_kind cooldown_active = Some RATE_LIMITED.
Proof.
  eexists. eexists. split; [vm_compute; reflexivity|].
  split; [vm_compute; reflexivity|].
  split; [vm_compute; discriminate|].
  split; [vm_compute; discriminate|].
  split; [vm_compute; reflexivity|].
  split; [vm_compute; reflexivity | reflexivity].
Qed.

(** The user holding 15 withdraws 10: available 5, pending 10, the
    withdrawal pending.  The admin approves it: status approved and the
    review time stored; the balance stays as it was. *)
Example scenario_withdraw_and_review :
  exists resp db1 resp2 db2,
    run_request (request_withdraw (mkWithdrawEnv 4000 "wd-1" 4001 "tx-1" 4002) "user-1"
                   (WithdrawRequest.mk 10 "paypal" "ann@example.com")) funded_db
    = (Ok resp, db1)
    /\ WithdrawResponse.status resp = "pending"
    /\ user_balance demo_user db1 = Some (Balance.mk "user-1" (15 - 10) (0 + 10) 4000)
    /\ run_request (review_withdrawal (mkReviewEnv 5000) "admin_demo" "wd-1"
                      (AdminWithdrawalReviewRequest.mk approved None)) db1
       = (Ok resp2, db2)
    /\ WithdrawResponse.status resp2 = "approved"
    /\ option_map Withdrawal.reviewed_at (get_Withdrawal "wd-1" db2) = Some (Some 5000)
    /\ user_balance demo_user db2 = user_balance demo_user db1.
Proof.
  eexists. eexists. eexists. eexists.
  split; [vm_compute; reflexivity|].
  split; [reflexivity|].
  split; [reflexivity|].
  split; [vm_compute; reflexivity|].
  repeat split.
Qed.

(** ** Every request is one of the labelled transitions *)

Lemma request_withdraw_ok env uid p db resp db' :
  run_request (request_withdraw env uid p) db = (Ok resp, db') ->
  exists user b,
    get_User uid db = Some user
    /\ user_balance user db = Some b
    /\ (10 <= WithdrawRequest.amount p)%Q
    /\ (WithdrawRequest.amount p <= Balance.available b)%Q
    /\ withdrawal_clash (wd_withdrawal_id env) db = false
    /\ transaction_clash (wd_transaction_id env) db = false
    /\ resp = WithdrawResponse.mk (wd_withdrawal_id env) "pending" (wd_created_at env)
    /\ db' = withdrawn_db env user p db.
Proof.
  rewrite request_withdraw_run. cbv zeta.
  destruct (get_User uid db) as [user|] eqn:Hu; [|discriminate].
  destruct (QMicromega.Qlt_bool (WithdrawRequest.amount p) 10) eqn:Emin; [discriminate|].
  destruct (user_balance user db) as [b|] eqn:Hb; [|discriminate].
  destruct (QMicromega.Qlt_bool (Balance.available b) (WithdrawRequest.amount p)) eqn:Eav;
    [discriminate|].
  destruct (withdrawal_clash _ db) eqn:Hw; [discriminate|].
  destruct (transaction_clash _ db) eqn:Ht; [discriminate|].
  intros E. injection E as <- <-. exists user, b.
  assert (Hmin : (10 <= WithdrawRequest.amount p)%Q).
  { apply Qnot_lt_le. intros C. apply QMicromega.Qlt_bool_iff in C. congruence. }
  assert (Hav : (WithdrawRequest.amount p <= Balance.available b)%Q).
  { apply Qnot_lt_le. intros C. apply QMicromega.Qlt_bool_iff in C. congruence. }
  repeat split; try assumption.
  unfold withdrawn_db. now rewrite (user_balance_key _ _ _ Hb).
Qed.

Lemma request_withdraw_raise env uid p db e db' :
  run_request (request_withdraw env uid p) db = (Raise e, db') -> db' = db.
Proof.
  rewrite request_withdraw_run. cbv zeta.
  repeat (break_atomic; try discriminate); intros E; now injection E.
Qed.

Lemma google_auth_db env p db :
  snd (run_request (google_auth env p) db) = db
  \/ (GoogleAuthRequest.id_token p <> ""
      /\ find_google_account (GoogleAuthRequest.id_token p) db = None
      /\ user_clash (google_user env (GoogleAuthRequest.id_token p)) db = false
      /\ balance_clash (g_user_id env) db = false
      /\ account_clash (g_account_id env) (GoogleAuthRequest.id_token p) db = false
      /\ run_request (google_auth env p) db
         = (Ok (TokenResponse.mk (g_access_token env) "bearer" (g_user_id env)),
            new_user_db (google_user env (GoogleAuthRequest.id_token p))
                        [google_account env (GoogleAuthRequest.id_token p)]
                        (g_balance_updated_at env) db)).
Proof.
  rewrite google_auth_run. cbv zeta.
  destruct (GoogleAuthRequest.id_token p =? "")%string eqn:Ee; [now left|].
  destruct (find_google_account _ db) as [a|] eqn:Ea.
  { destruct (get_User _ db); now left. }
  destruct (user_clash _ db) eqn:Eu; [now left|].
  destruct (balance_clash _ db) eqn:Eb; [now left|].
  destruct (account_clash _ _ db) eqn:Ec; [now left|].
  right. apply String.eqb_neq in Ee. repeat split; auto.
Qed.

Lemma register_raise env p db e db' :
  run_request (register env p) db = (Raise e, db') -> db' = db.
Proof.
  rewrite register_run.
  repeat (break_atomic; try discriminate); intros E; now injection E.
Qed.

Theorem exec_transition r db : transition r db (exec r db).
Proof.
  destruct r; cbn [exec].
  - rewrite on_startup_run. destruct (ad_units db) eqn:E; cbn [snd].
    + now apply tr_startup.
    + apply tr_none.
  - destruct (run_request (register env payload) db) as [[resp|e] db'] eqn:E; cbn [snd].
    + apply register_ok in E. destruct E as (H1 & H2 & H3 & _ & ->). now apply tr_register.
    + apply register_raise in E. subst. apply tr_none.
  - destruct (google_auth_db env payload db) as [E | (H1 & H2 & H3 & H4 & H5 & E)].
    + rewrite E. apply tr_none.
    + rewrite E. cbn [snd]. now apply tr_google.
  - destruct (run_request (ads_start env user_id payload) db) as [[resp|e] db'] eqn:E;
      cbn [snd].
    + apply ads_start_ok in E.
      destruct E as (user & ad_unit & H1 & H2 & H3 & H4 & H5 & H6 & _ & ->).
      now apply (tr_start env user_id payload db user ad_unit).
    + apply ads_start_raise in E. subst. apply tr_none.
  - destruct (run_request (ads_complete env user_id payload) db) as [[resp|e] db'] eqn:E;
      cbn [snd].
    + apply ads_complete_ok in E.
      destruct E as (user & v & b & H1 & H2 & H3 & H4 & H5 & H6 & _ & ->).
      now apply (tr_complete env user_id payload db user v b).
    + apply ads_complete_raise in E. subst. apply tr_none.
  - rewrite get_balance_run. repeat (break_atomic; cbn [snd]; try apply tr_none).
  - rewrite get_history_run. repeat (break_atomic; cbn [snd]; try apply tr_none).
  - destruct (run_request (request_withdraw env user_id payload) db) as [[resp|e] db'] eqn:E;
      cbn [snd].
    + apply request_withdraw_ok in E.
      destruct E as (user & b & H1 & H2 & H3 & H4 & H5 & H6 & _ & ->).
      now apply (tr_withdraw env user_id payload db user b).
    + apply request_withdraw_raise in E. subst. apply tr_none.
  - rewrite list_withdrawals_run. repeat (break_atomic; cbn [snd]; try apply tr_none).
  - rewrite list_users_db. apply tr_none.
  - rewrite list_withdrawals_admin_db. apply tr_none.
  - rewrite review_withdrawal_run.
    destruct (negb (admin_token =? ADMIN_TOKEN)%string) eqn:Et; cbn [snd]; [apply tr_none|].
    apply negb_false_iff, String.eqb_eq in Et.
    destruct (get_Withdrawal withdrawal_id db) as [w|] eqn:Ew; cbn [snd]; [|apply tr_none].
    now apply tr_review.
Qed.

(** ** Invariants of the stored database *)

(** ** Invariants along the transitions *)

Lemma reachable_by_transitions (P : DB -> Prop) units :
  P (fresh_db units) ->
  (forall r db db', reachable units db -> P db -> transition r db db' -> P db') ->
  forall db, reachable units db -> P db.
Proof.
  intros Hfresh Hstep db Hreach. induction Hreach as [|db r Hreach IH].
  - exact Hfresh.
  - eapply Hstep; [exact Hreach | exact IH | apply exec_transition].
Qed.

Lemma clash_not_in {A} (key : A -> string) (k : string) (l : list A) :
  (forall x, In x l -> (key x =? k)%string = false) -> ~ In k (map key l).
Proof.
  intros H Hin. apply in_map_iff in Hin. destruct Hin as (x & Hx & Hin).
  specialize (H x Hin). rewrite Hx, String.eqb_refl in H. discriminate.
Qed.

Lemma NoDup_map_snoc {A} (key : A -> string) (l : list A) (x : A) :
  NoDup (map key l) ->
  (forall y, In y l -> (key y =? key x)%string = false) ->
  NoDup (map key (l ++ [x])).
Proof.
  intros Hnd Hfresh. rewrite map_app. cbn. apply NoDup_snoc; [exact Hnd|].
  now apply clash_not_in.
Qed.

Lemma map_key_update {A} (key : A -> string) (k : string) (g : A -> A) (l : list A) :
  (forall x, key (g x) = key x) ->
  map key (map (fun x => if (key x =? k)%string then g x else x) l) = map key l.
Proof.
  intros Hg. rewrite map_map. apply map_ext. intros x.
  destruct (key x =? k)%string; [apply Hg | reflexivity].
Qed.

Lemma map_other_key_update {A} (key other : A -> string) (k : string) (g : A -> A)
                           (l : list A) :
  (forall x, other (g x) = other x) ->
  map other (map (fun x => if (key x =? k)%string then g x else x) l) = map other l.
Proof.
  intros Hg. rewrite map_map. apply map_ext. intros x.
  destruct (key x =? k)%string; [apply Hg | reflexivity].
Qed.

Lemma user_clash_parts u db :
  user_clash u db = false ->
  forall x, In x (users db) ->
    (User.id x =? User.id u)%string = false /\ (User.email x =? User.email u)%string = false.
Proof.
  unfold user_clash. intros H x Hx.
  apply (existsb_false_forall _ _ H) in Hx. now apply orb_false_iff in Hx.
Qed.

Lemma account_clash_parts key token db :
  account_clash key token db = false ->
  forall x, In x (auth_accounts db) ->
    (AuthAccount.id x =? key)%string = false
    /\ (AuthAccount.provider_id x =? token)%string = false.
Proof.
  unfold account_clash. intros H x Hx.
  apply (existsb_false_forall _ _ H) in Hx. now apply orb_false_iff in Hx.
Qed.

Lemma keys_unique_new_user u accounts now db :
  user_clash u db = false ->
  balance_clash (User.id u) db = false ->
  NoDup (map AuthAccount.id (auth_accounts db ++ accounts)) ->
  NoDup (map AuthAccount.provider_id (auth_accounts db ++ accounts)) ->
  keys_unique db -> keys_unique (new_user_db u accounts now db).
Proof.
  intros Hu Hb Ha1 Ha2 [K1 K2 K3 K4 K5 K6 K7 K8 K9 K10].
  pose proof (user_clash_parts u db Hu) as Hparts.
  constructor; cbn [new_user_db users auth_accounts ad_units ad_views balances transactions
                    withdrawals]; try assumption.
  - apply NoDup_map_snoc; [exact K1|]. intros y Hy. now destruct (Hparts y Hy).
  - apply NoDup_map_snoc; [exact K2|]. intros y Hy. now destruct (Hparts y Hy).
  - apply (NoDup_map_snoc Balance.user_id (balances db) (Balance.mk (User.id u) 0 0 now));
      [exact K8|].
    intros y Hy. exact (existsb_false_forall _ _ Hb y Hy).
Qed.

Lemma transition_keys_unique r db db' :
  transition r db db' -> keys_unique db -> keys_unique db'.
Proof.
  intros Htr HK. destruct Htr.
  - exact HK.
  - destruct HK. constructor; cbn; try assumption.
    match goal with H : ad_units _ = [] |- _ => rewrite H end. cbn. repeat constructor. auto.
  - apply keys_unique_new_user; try assumption; rewrite app_nil_r; apply HK.
  - pose proof (account_clash_parts _ _ _ H3) as Hparts.
    apply keys_unique_new_user; try assumption.
    + apply (NoDup_map_snoc AuthAccount.id); [apply HK|].
      intros y Hy. now destruct (Hparts y Hy).
    + apply (NoDup_map_snoc AuthAccount.provider_id); [apply HK|].
      intros y Hy. now destruct (Hparts y Hy).
  - pose proof (view_clash_ids _ _ H4) as Hparts.
    destruct HK. constructor; cbn [set_ad_views users auth_accounts ad_units ad_views balances
                                   transactions withdrawals]; try assumption.
    + apply NoDup_map_snoc; [assumption|]. intros y Hy. now destruct (Hparts y Hy).
    + apply NoDup_map_snoc; [assumption|]. intros y Hy. now destruct (Hparts y Hy).
  - destruct HK. constructor; cbn [completed_db users auth_accounts ad_units ad_views balances
                                   transactions withdrawals]; try assumption.
    + now rewrite (map_key_update AdView.id) by reflexivity.
    + now rewrite (map_other_key_update AdView.id AdView.session_token) by reflexivity.
    + now rewrite (map_key_update Balance.user_id) by reflexivity.
    + apply NoDup_map_snoc; [assumption|].
      intros y Hy. exact (existsb_false_forall _ _ H4 y Hy).
  - destruct HK. constructor; cbn [withdrawn_db users auth_accounts ad_units ad_views balances
                                   transactions withdrawals]; try assumption.
    + now rewrite (map_key_update Balance.user_id) by reflexivity.
    + apply NoDup_map_snoc; [assumption|].
      intros y Hy. exact (existsb_false_forall _ _ H4 y Hy).
    + apply NoDup_map_snoc; [assumption|].
      intros y Hy. exact (existsb_false_forall _ _ H3 y Hy).
  - destruct HK. constructor; cbn [reviewed_db set_withdrawals users auth_accounts ad_units
                                   ad_views balances transactions withdrawals]; try assumption.
    now rewrite (map_key_update Withdrawal.id) by reflexivity.
Qed.

Lemma reachable_keys_unique units db :
  NoDup (map AdUnit.id units) -> reachable units db -> keys_unique db.
Proof.
  intros Hunits. apply reachable_by_transitions.
  - constructor; cbn; try constructor. exact Hunits.
  - intros r d d' _ HK Htr. eapply transition_keys_unique; eassumption.
Qed.

Lemma get_User_some_id uid db user : get_User uid db = Some user -> User.id user = uid.
Proof.
  intros H. apply (find_eqb_key User.id) in H. tauto.
Qed.






Lemma transition_views_consistent r db db' :
  transition r db db' ->
  Forall view_consistent (ad_views db) -> Forall view_consistent (ad_views db').
Proof.
  intros Htr HV. destruct Htr; try exact HV.
  - cbn. apply Forall_app. split; [exact HV|]. constructor; [|constructor].
    left. repeat split.
  - cbn. apply Forall_forall. intros x Hx. apply in_map_iff in Hx.
    destruct Hx as (y & <- & Hy). rewrite Forall_forall in HV. specialize (HV y Hy).
    destruct (AdView.id y =? AdView.id v)%string; [|exact HV].
    right. cbn. repeat split; discriminate.
Qed.

Lemma transition_withdrawals_consistent r db db' :
  transition r db db' ->
  Forall withdrawal_consistent (withdrawals db) ->
  Forall withdrawal_consistent (withdrawals db').
Proof.
  intros Htr HW. destruct Htr; try exact HW.
  - cbn. apply Forall_app. split; [exact HW|]. constructor; [|constructor].
    split; [assumption|]. split; [reflexivity|]. left. repeat split.
  - cbn. apply Forall_forall. intros x Hx. apply in_map_iff in Hx.
    destruct Hx as (y & <- & Hy). rewrite Forall_forall in HW. specialize (HW y Hy).
    destruct (Withdrawal.id y =? Withdrawal.id w)%string; [|exact HW].
    destruct HW as (Ha & Hf & _). split; [exact Ha|]. split; [exact Hf|].
    right. cbn. split; [|discriminate].
    destruct (AdminWithdrawalReviewRequest.status p); auto.
Qed.

Lemma transition_transactions_consistent r db db' :
  transition r db db' ->
  Forall transaction_consistent (transactions db) ->
  Forall transaction_consistent (transactions db').
Proof.
  intros Htr HT. destruct Htr; try exact HT.
  - cbn. apply Forall_app. split; [exact HT|]. constructor; [|constructor].
    left. split; reflexivity.
  - cbn. apply Forall_app. split; [exact HT|]. constructor; [|constructor].
    right. cbn. repeat split. lra.
Qed.

(** ** Properties beyond the claims: the stored data *)

Lemma NoDup_map_unique {A B} (key : A -> B) (l : list A) x y :
  NoDup (map key l) -> In x l -> In y l -> key x = key y -> x = y.
Proof.
  induction l as [|a l IH]; cbn; intros Hnd Hx Hy E; [contradiction|].
  inversion Hnd as [|? ? Hnotin Hnd']; subst.
  destruct Hx as [<-|Hx], Hy as [<-|Hy].
  - reflexivity.
  - exfalso. apply Hnotin. rewrite E. now apply in_map.
  - exfalso. apply Hnotin. rewrite <- E. now apply in_map.
  - now apply IH.
Qed.

(** X1.  Every database reachable from an inventory with distinct ad unit
    ids satisfies the key constraints of [models.py]: primary keys,
    emails, provider ids and session tokens are pairwise different in
    their tables.  Hence a lookup by user id is unambiguous, and every
    user has exactly one balance row. *)
Theorem X1_keys_unique units db :
  NoDup (map AdUnit.id units) ->
  reachable units db ->
  keys_unique db
  /\ (forall uid user other,
        get_User uid db = Some user -> In other (users db) -> User.id other = uid ->
        other = user)
  /\ (forall user, In user (users db) ->
        exists b, user_balance user db = Some b
                  /\ In b (balances db)
                  /\ forall b', In b' (balances db) ->
                       Balance.user_id b' = User.id user -> b' = b).
Proof.
  intros Hunits Hreach.
  pose proof (reachable_keys_unique units db Hunits Hreach) as HK.
  split; [exact HK|]. split.
  - intros uid user other Hget Hin Hid.
    pose proof (find_eqb_key User.id _ _ _ Hget) as [Hid' Hin'].
    apply (NoDup_map_unique User.id (users db)); [apply HK | assumption | assumption |].
    congruence.
  - intros user Hin.
    pose proof (inv_has_balance db (reachable_ledger_inv units db Hreach) user Hin) as Hb.
    destruct (user_balance user db) as [b|] eqn:Eb; [|congruence].
    exists b. pose proof (find_eqb_key Balance.user_id _ _ _ Eb) as [Hkey Hinb].
    split; [reflexivity|]. split; [exact Hinb|].
    intros b' Hin' Hkey'.
    apply (NoDup_map_unique Balance.user_id (balances db)); [apply HK | assumption..|].
    congruence.
Qed.

Lemma X1_keys_unique_witness :
  keys_unique demo_withdrawn_db
  /\ exists b, user_balance demo_user demo_withdrawn_db = Some b.
Proof.
  destruct (X1_keys_unique [demo_unit] demo_withdrawn_db) as (HK & _ & Hone).
  - repeat constructor. cbn. tauto.
  - unfold demo_withdrawn_db, exec_all. cbn [fold_left].
    repeat apply reach_exec. apply reach_fresh.
  - split; [exact HK|].
    destruct (Hone demo_user) as (b & Hb & _).
    + vm_compute. auto.
    + exists b. exact Hb.
Defined.



(** X3.  In every reachable database a view is either started, with no
    completion time and no rewarded amount, or completed, with both set:
    [ads_start] stores the former, [ads_complete] turns it into the
    latter in one step, and nothing else writes a view. *)
Theorem X3_views_consistent units db :
  reachable units db ->
  forall v, In v (ad_views db) ->
    (AdView.status v = "started"
     /\ AdView.completed_at v = None /\ AdView.rewarded_amount v = None)
    \/ (AdView.status v = "completed"
        /\ AdView.completed_at v <> None /\ AdView.rewarded_amount v <> None).
Proof.
  intros Hreach. apply Forall_forall. revert db Hreach.
  apply (reachable_by_transitions (fun d => Forall view_consistent (ad_views d))).
  - constructor.
  - intros r d d' _ HV Htr. eapply transition_views_consistent; eassumption.
Qed.

Lemma X3_views_consistent_witness :
  Forall view_consistent (ad_views demo_withdrawn_db).
Proof.
  apply Forall_forall.
  apply (X3_views_consistent [demo_unit] demo_withdrawn_db).
  unfold demo_withdrawn_db, exec_all. cbn [fold_left].
  repeat apply reach_exec. apply reach_fresh.
Defined.

(** X4.  In every reachable database each withdrawal is for at least 10,
    carries the fee 0.2, and is either pending with no review time and no
    notes, or approved or rejected with a review time. *)
Theorem X4_withdrawals_consistent units db :
  reachable units db ->
  forall w, In w (withdrawals db) ->
    (10 <= Withdrawal.amount w)%Q
    /\ Withdrawal.fee w = 0.2%Q
    /\ ((Withdrawal.status w = "pending"
         /\ Withdrawal.reviewed_at w = None /\ Withdrawal.review_notes w = None)
        \/ ((Withdrawal.status w = "approved" \/ Withdrawal.status w = "rejected")
            /\ Withdrawal.reviewed_at w <> None)).
Proof.
  intros Hreach. apply Forall_forall. revert db Hreach.
  apply (reachable_by_transitions (fun d => Forall withdrawal_consistent (withdrawals d))).
  - constructor.
  - intros r d d' _ HW Htr. eapply transition_withdrawals_consistent; eassumption.
Qed.

Lemma X4_withdrawals_consistent_witness :
  Forall withdrawal_consistent (withdrawals demo_approved_db).
Proof.
  apply Forall_forall.
  apply (X4_withdrawals_consistent [demo_unit] demo_approved_db).
  unfold demo_approved_db, exec_all. cbn [fold_left].
  repeat apply reach_exec. apply reach_fresh.
Defined.

Lemma transition_transactions_grow r db db' :
  transition r db db' ->
  exists added, transactions db' = transactions db ++ added /\ (List.length added <= 1)%nat.
Proof.
  destruct 1; cbn; try (exists []; rewrite app_nil_r; split; [reflexivity | cbn; lia]).
  - eexists. split; [reflexivity | cbn; lia].
  - eexists. split; [reflexivity | cbn; lia].
Qed.

(** X5.  Transactions are only ever appended: whatever the requests, the
    stored transactions stay as they are, in place and unchanged, and each
    request adds at most one.  In a reachable database a transaction is
    either of type "earn" with source "ad_view", or of type "spend" with
    source "withdrawal" and an amount of at most -10. *)
Theorem X5_transactions_append_only rs db :
  (exists added,
     transactions (exec_all rs db) = transactions db ++ added
     /\ (List.length added <= List.length rs)%nat)
  /\ (forall units, reachable units db ->
        forall t, In t (transactions db) ->
          (Transaction.type t = "earn" /\ Transaction.source t = "ad_view")
          \/ (Transaction.type t = "spend" /\ Transaction.source t = "withdrawal"
              /\ (Transaction.amount t <= - (10))%Q)).
Proof.
  split.
  - induction rs as [|r rs IH] using rev_ind.
    + exists []. rewrite app_nil_r. split; [reflexivity | cbn; lia].
    + destruct IH as (added & E & Hlen). rewrite exec_all_snoc.
      destruct (transition_transactions_grow r _ _ (exec_transition r (exec_all rs db)))
        as (more & E' & Hlen').
      exists (added ++ more). rewrite E', E, app_assoc. split; [reflexivity|].
      rewrite !length_app. cbn. lia.
  - intros units Hreach. apply Forall_forall. revert db Hreach.
    apply (reachable_by_transitions
             (fun d => Forall transaction_consistent (transactions d))).
    + constructor.
    + intros r d d' _ HT Htr. eapply transition_transactions_consistent; eassumption.
Qed.

Lemma review_withdrawal_raise env token wid p db e db' :
  run_request (review_withdrawal env token wid p) db = (Raise e, db') -> db' = db.
Proof.
  rewrite review_withdrawal_run.
  repeat (break_atomic; try discriminate); intros E; now injection E.
Qed.

Lemma is_raise_fst {A} (x : result A * DB) db :
  is_raise (fst x) = true -> (forall e db', x = (Raise e, db') -> db' = db) -> snd x = db.
Proof.
  destruct x as [[a|e] d]; cbn; [discriminate|]. intros _ H. now apply (H e).
Qed.

(** X6.  Every handler stores all of its changes or none: when the handler
    of a request raises, whatever the exception, the stored database is
    the one the request found.  The handlers of the five reading
    endpoints never change it at all. *)
Theorem X6_raise_stores_nothing r db :
  (raised r db = true -> exec r db = db)
  /\ (read_only r = true -> exec r db = db).
Proof.
  split.
  - destruct r; cbn [raised exec]; intros H.
    + rewrite on_startup_run in H. destruct (ad_units db); discriminate H.
    + apply (is_raise_fst _ db H). intros e db'. apply register_raise.
    + destruct (google_auth_db env payload db) as [E | (_ & _ & _ & _ & _ & E)];
        [exact E|]. rewrite E in H. discriminate H.
    + apply (is_raise_fst _ db H). intros e db'. apply ads_start_raise.
    + apply (is_raise_fst _ db H). intros e db'. apply ads_complete_raise.
    + rewrite get_balance_run. repeat (break_atomic; cbn [snd]; try reflexivity).
    + rewrite get_history_run. repeat (break_atomic; cbn [snd]; try reflexivity).
    + apply (is_raise_fst _ db H). intros e db'. apply request_withdraw_raise.
    + rewrite list_withdrawals_run. repeat (break_atomic; cbn [snd]; try reflexivity).
    + apply list_users_db.
    + apply list_withdrawals_admin_db.
    + apply (is_raise_fst _ db H). intros e db'. apply review_withdrawal_raise.
  - destruct r; cbn [read_only exec]; intros H; try discriminate H.
    + rewrite get_balance_run. repeat (break_atomic; cbn [snd]; try reflexivity).
    + rewrite get_history_run. repeat (break_atomic; cbn [snd]; try reflexivity).
    + rewrite list_withdrawals_run. repeat (break_atomic; cbn [snd]; try reflexivity).
    + apply list_users_db.
    + apply list_withdrawals_admin_db.
Qed.

Lemma X6_raise_stores_nothing_witness :
  exec (ReqWithdraw (mkWithdrawEnv 4000 "wd-9" 4001 "tx-9" 4002) "user-1"
                    (WithdrawRequest.mk 100 "paypal" "ann@example.com"))
       demo_completed_db
  = demo_completed_db.
Proof.
  apply (proj1 (X6_raise_stores_nothing
                  (ReqWithdraw (mkWithdrawEnv 4000 "wd-9" 4001 "tx-9" 4002) "user-1"
                               (WithdrawRequest.mk 100 "paypal" "ann@example.com"))
                  demo_completed_db)).
  vm_compute. reflexivity.
Defined.

(** X7.  [on_startup] never raises.  On a database without ad units it
    stores exactly one, "Rewarded Video" with rewards from 0.002 to 0.01,
    cooldown 60, daily cap 30, active; on a database that has an ad unit
    it stores nothing.  So it touches only the ad unit table, and running
    it again, with whatever new key, changes nothing. *)
Theorem X7_on_startup_seeds_once env env2 db :
  fst (run_request (on_startup env) db) = Ok tt
  /\ (ad_units db = [] ->
      ad_units (exec (ReqStartup env) db)
      = [AdUnit.mk (su_unit_id env) "Rewarded Video" 0.002 0.01 60 30 true])
  /\ (ad_units db <> [] -> exec (ReqStartup env) db = db)
  /\ exec (ReqStartup env2) (exec (ReqStartup env) db) = exec (ReqStartup env) db
  /\ users (exec (ReqStartup env) db) = users db
  /\ balances (exec (ReqStartup env) db) = balances db
  /\ ad_views (exec (ReqStartup env) db) = ad_views db
  /\ transactions (exec (ReqStartup env) db) = transactions db
  /\ withdrawals (exec (ReqStartup env) db) = withdrawals db.
Proof.
  cbn [exec]. rewrite (on_startup_run env db).
  destruct (ad_units db) as [|a l] eqn:E; cbn [fst snd].
  - split; [reflexivity|]. split; [intros _; cbn; rewrite E; reflexivity|].
    split; [congruence|]. split; [|repeat split].
    rewrite on_startup_run. cbn [ad_units set_ad_units]. rewrite E. reflexivity.
  - split; [reflexivity|]. split; [discriminate|]. split; [reflexivity|].
    split; [|repeat split]. rewrite on_startup_run, E. reflexivity.
Qed.

(** ** Properties beyond the claims: the reading endpoints *)





(** X10.  [list_withdrawals] shows a user that user's withdrawals and no
    others, in stored order.  After the user's successful withdrawal
    request the list is the list from before followed by the response of
    that request; a successful withdrawal request of another user leaves
    the list as it was. *)
Theorem X10_list_withdrawals uid db user :
  get_User uid db = Some user ->
  exists rows,
    run_request (list_withdrawals uid) db = (Ok rows, db)
    /\ (forall row, In row rows <->
          exists w, In w (withdrawals db) /\ Withdrawal.user_id w = uid
                    /\ row = WithdrawResponse.mk (Withdrawal.id w) (Withdrawal.status w)
                                                 (Withdrawal.created_at w))
    /\ (forall env p resp db',
          run_request (request_withdraw env uid p) db = (Ok resp, db') ->
          run_request (list_withdrawals uid) db' = (Ok (rows ++ [resp]), db'))
    /\ (forall other env p resp db',
          other <> uid ->
          run_request (request_withdraw env other p) db = (Ok resp, db') ->
          run_request (list_withdrawals uid) db' = (Ok rows, db')).
Proof.
  intros Hu. pose proof (get_User_some_id _ _ _ Hu) as Hid.
  exists (map withdraw_response (user_withdrawals user db)).
  split; [now rewrite list_withdrawals_run, Hu|]. split; [|split].
  - intros row. unfold user_withdrawals. rewrite in_map_iff. split.
    + intros (w & <- & Hw). apply filter_In in Hw. destruct Hw as [Hw Hk].
      apply String.eqb_eq in Hk. exists w. split; [exact Hw|]. split; [congruence|].
      reflexivity.
    + intros (w & Hw & Hk & ->). exists w. split; [reflexivity|].
      apply filter_In. split; [exact Hw|]. apply String.eqb_eq. congruence.
  - intros env p resp db' Hok. apply request_withdraw_ok in Hok.
    destruct Hok as (user' & b & Hu' & _ & _ & _ & _ & _ & -> & ->).
    assert (user' = user) by congruence. subst user'.
    rewrite list_withdrawals_run.
    replace (get_User uid (withdrawn_db env user p db)) with (Some user)
      by (symmetry; exact Hu).
    unfold user_withdrawals. cbn [withdrawals withdrawn_db].
    rewrite filter_app, map_app. cbn [filter requested_withdrawal Withdrawal.user_id].
    rewrite String.eqb_refl. reflexivity.
  - intros other env p resp db' Hne Hok. apply request_withdraw_ok in Hok.
    destruct Hok as (user2 & b & Hu2 & _ & _ & _ & _ & _ & _ & ->).
    pose proof (get_User_some_id _ _ _ Hu2) as Hid2.
    rewrite list_withdrawals_run.
    replace (get_User uid (withdrawn_db env user2 p db)) with (Some user)
      by (symmetry; exact Hu).
    unfold user_withdrawals. cbn [withdrawals withdrawn_db].
    rewrite filter_app. cbn [filter requested_withdrawal Withdrawal.user_id].
    replace (User.id user2 =? User.id user)%string with false
      by (symmetry; apply String.eqb_neq; congruence).
    now rewrite app_nil_r.
Qed.

Lemma X10_list_withdrawals_witness :
  run_request (list_withdrawals "user-1") demo_withdrawn_db
  = (Ok [WithdrawResponse.mk "wd-1" "pending" 4001], demo_withdrawn_db).
Proof.
  destruct (X10_list_withdrawals "user-1" demo_completed_db demo_user)
    as (rows & Hrun & _ & Hafter & _).
  - vm_compute. reflexivity.
  - assert (Hrows : rows = []).
    { assert (E : run_request (list_withdrawals "user-1") demo_completed_db
                  = (Ok [], demo_completed_db)) by (vm_compute; reflexivity).
      rewrite E in Hrun. now injection Hrun. }
    subst rows.
    apply (Hafter (mkWithdrawEnv 4000 "wd-1" 4001 "tx-2" 4002)
                  (WithdrawRequest.mk 10 "paypal" "ann@example.com")
                  (WithdrawResponse.mk "wd-1" "pending" 4001) demo_withdrawn_db).
    vm_compute. reflexivity.
Defined.

(** X11.  [list_withdrawals_admin] answers only to the admin token; any
    other token gets "Not authorized".  With the token it reports every
    stored withdrawal exactly once, latest creation first, each with id,
    user, amount, status and creation time, and stores nothing. *)
Theorem X11_list_withdrawals_admin db :
  (forall token, token <> ADMIN_TOKEN ->
     run_request (list_withdrawals_admin token) db = (Raise not_authorized, db))
  /\ failure_kind not_authorized = Some FORBIDDEN
  /\ exists rows,
       run_request (list_withdrawals_admin ADMIN_TOKEN) db
       = (Ok (map withdrawal_summary rows), db)
       /\ Permutation (withdrawals db) rows
       /\ StronglySorted (desc Withdrawal.created_at) rows
       /\ map AdminWithdrawalSummary.created_at (map withdrawal_summary rows)
          = map Withdrawal.created_at rows.
Proof.
  split; [|split; [reflexivity|]].
  - intros token Hne. apply String.eqb_neq in Hne.
    unfold list_withdrawals_admin. run_handler. now rewrite Hne.
  - exists (order_by_desc Withdrawal.created_at (withdrawals db)).
    split; [unfold list_withdrawals_admin; run_handler; reflexivity|].
    split; [apply order_by_desc_perm|]. split; [apply order_by_desc_sorted|].
    rewrite map_map. reflexivity.
Qed.








(** ** Properties beyond the claims: signing in with Google *)






(** ** Properties beyond the claims: from a start to its completion *)





(** ** Properties beyond the claims: no balance below zero *)

Lemma reward_for_nonneg env v db :
  rewards_nonneg db -> (0 <= cp_random env)%Q -> (cp_random env < 1)%Q ->
  (0 <= reward_for env v db)%Q.
Proof.
  intros HR H0 H1. unfold reward_for.
  destruct (get_AdUnit (AdView.ad_unit_id v) db) as [u|] eqn:Eu; [|apply Qle_refl].
  destruct (find_eqb_key AdUnit.id _ _ _ Eu) as [_ Hin].
  destruct (HR u Hin) as [Hmin Hrange].
  destruct (uniform_in_range (cp_random env) _ _ Hrange H0 H1) as [Hlo _].
  eapply Qle_trans; eassumption.
Qed.

Lemma transition_nonneg r db db' :
  transition r db db' -> well_drawn r -> keys_unique db ->
  rewards_nonneg db /\ balances_nonneg db ->
  rewards_nonneg db' /\ balances_nonneg db'.
Proof.
  intros Htr Hw HK [HR HB]. destruct Htr.
  - now split.
  - split; [|exact HB]. intros u Hu. cbn [ad_units set_ad_units] in Hu.
    apply in_app_or in Hu. destruct Hu as [Hu|[<-|[]]]; [now apply HR|].
    split; vm_compute; discriminate.
  - split; [exact HR|]. intros b Hb. cbn [balances new_user_db] in Hb.
    apply in_app_or in Hb. destruct Hb as [Hb|[<-|[]]]; [now apply HB|].
    split; apply Qle_refl.
  - split; [exact HR|]. intros b Hb. cbn [balances new_user_db] in Hb.
    apply in_app_or in Hb. destruct Hb as [Hb|[<-|[]]]; [now apply HB|].
    split; apply Qle_refl.
  - now split.
  - split; [exact HR|]. intros x Hx. cbn [balances completed_db] in Hx.
    apply in_map_iff in Hx. destruct Hx as (y & <- & Hy).
    destruct (HB y Hy) as [Hav Hpe].
    destruct (Balance.user_id y =? User.id user)%string; [|now split].
    cbn [credit Balance.available Balance.pending]. split; [|exact Hpe].
    destruct Hw as [Hlo Hhi].
    pose proof (reward_for_nonneg env v db HR Hlo Hhi) as Hrew.
    replace 0%Q with (0 + 0)%Q by reflexivity. now apply Qplus_le_compat.
  - split; [exact HR|]. intros x Hx. cbn [balances withdrawn_db] in Hx.
    apply in_map_iff in Hx. destruct Hx as (y & <- & Hy).
    destruct (HB y Hy) as [Hav Hpe].
    destruct (Balance.user_id y =? User.id user)%string eqn:Ek; [|now split].
    apply String.eqb_eq in Ek.
    match goal with Hb : user_balance user db = Some _ |- _ =>
      destruct (find_eqb_key Balance.user_id _ _ _ Hb) as [Hkey Hinb] end.
    assert (y = b).
    { apply (NoDup_map_unique Balance.user_id (balances db));
        [apply HK | assumption | assumption | congruence]. }
    subst y. cbn [hold Balance.available Balance.pending].
    match goal with
    | H10 : (10 <= WithdrawRequest.amount p)%Q,
      Hle : (WithdrawRequest.amount p <= Balance.available b)%Q |- _ =>
        split; lra
    end.
  - now split.
Qed.

(** X15.  No balance goes below zero.  From an inventory of ad units with
    distinct ids and reward ranges 0 <= reward_min <= reward_max, and with
    every completion drawing from [0, 1), any sequence of requests leaves
    every stored balance with available >= 0 and pending >= 0; so
    [get_balance] never reports a negative amount. *)
Theorem X15_balances_nonneg units rs :
  NoDup (map AdUnit.id units) ->
  (forall u, In u units ->
     (0 <= AdUnit.reward_min u)%Q /\ (AdUnit.reward_min u <= AdUnit.reward_max u)%Q) ->
  Forall well_drawn rs ->
  let db := exec_all rs (fresh_db units) in
  (forall b, In b (balances db) ->
     (0 <= Balance.available b)%Q /\ (0 <= Balance.pending b)%Q)
  /\ (forall uid resp db',
        run_request (get_balance uid) db = (Ok resp, db') ->
        (0 <= BalanceResponse.balance resp)%Q /\ (0 <= BalanceResponse.pending resp)%Q).
Proof.
  intros Hunits Hranges Hrs db.
  assert (Hinv : rewards_nonneg db /\ balances_nonneg db).
  { unfold db. clear db. induction rs as [|r rs IH] using rev_ind.
    - split; [exact Hranges|]. intros b [].
    - apply Forall_app in Hrs. destruct Hrs as [Hrs Hr].
      rewrite exec_all_snoc.
      apply (transition_nonneg r (exec_all rs (fresh_db units))).
      + apply exec_transition.
      + now inversion Hr.
      + apply (reachable_keys_unique units); [exact Hunits | apply reachable_exec_all].
      + now apply IH. }
  destruct Hinv as [_ HB]. split; [exact HB|].
  intros uid resp db'. rewrite get_balance_run.
  destruct (get_User uid db) as [user|]; [|discriminate].
  destruct (user_balance user db) as [b|] eqn:Eb; [|discriminate].
  intros E. injection E as <- _. cbn [BalanceResponse.balance BalanceResponse.pending].
  apply HB. now destruct (find_eqb_key Balance.user_id _ _ _ Eb).
Qed.

Lemma X15_balances_nonneg_witness :
  Forall (fun b => (0 <= Balance.available b)%Q /\ (0 <= Balance.pending b)%Q)
         (balances demo_withdrawn_db).
Proof.
  apply Forall_forall.
  apply (X15_balances_nonneg [demo_unit]
           [demo_register; demo_start; demo_complete; demo_withdraw]).
  - repeat constructor. cbn. tauto.
  - intros u [<-|[]]. split; vm_compute; discriminate.
  - repeat constructor; vm_compute; discriminate.
Defined.

(** ** Properties beyond the claims: earnings and views *)










(** ** Properties beyond the claims: reviewing again *)

Lemma exec_review env wid p db w :
  get_Withdrawal wid db = Some w ->
  run_request (review_withdrawal env ADMIN_TOKEN wid p) db
  = (Ok (withdraw_response (review (rv_reviewed_at env) p w)), reviewed_db env p w db).
Proof.
  intros H. rewrite review_withdrawal_run, H.
  replace (negb (ADMIN_TOKEN =? ADMIN_TOKEN)%string) with false by reflexivity.
  reflexivity.
Qed.

Lemma reviewed_db_twice env1 env2 p1 p2 w db :
  reviewed_db env2 p2 (review (rv_reviewed_at env1) p1 w) (reviewed_db env1 p1 w db)
  = reviewed_db env2 p2 w db.
Proof.
  unfold reviewed_db, set_withdrawals.
  cbn [users auth_accounts ad_units ad_views balances transactions withdrawals].
  f_equal. rewrite map_map. apply map_ext. intros x.
  cbn [review Withdrawal.id].
  destruct (Withdrawal.id x =? Withdrawal.id w)%string eqn:E.
  - cbn [review Withdrawal.id]. rewrite E. reflexivity.
  - rewrite E. reflexivity.
Qed.

Lemma reviewed_db_comm env1 env2 p1 p2 w w' db :
  Withdrawal.id w <> Withdrawal.id w' ->
  reviewed_db env2 p2 w' (reviewed_db env1 p1 w db)
  = reviewed_db env1 p1 w (reviewed_db env2 p2 w' db).
Proof.
  intros Hne. unfold reviewed_db, set_withdrawals.
  cbn [users auth_accounts ad_units ad_views balances transactions withdrawals].
  f_equal. rewrite !map_map. apply map_ext. intros x.
  destruct (Withdrawal.id x =? Withdrawal.id w)%string eqn:E;
    destruct (Withdrawal.id x =? Withdrawal.id w')%string eqn:E';
    cbn [review Withdrawal.id]; rewrite ?E, ?E'; try reflexivity.
  apply String.eqb_eq in E, E'. congruence.
Qed.

Lemma get_Withdrawal_other env p w wid' w' db :
  Withdrawal.id w <> wid' ->
  get_Withdrawal wid' db = Some w' ->
  get_Withdrawal wid' (reviewed_db env p w db) = Some w'.
Proof.
  intros Hne H. pose proof (find_eqb_key Withdrawal.id _ _ _ H) as [Hid _].
  unfold get_Withdrawal, reviewed_db in *. cbn [withdrawals set_withdrawals].
  rewrite find_map_stable, H.
  - cbn [option_map].
    replace (Withdrawal.id w' =? Withdrawal.id w)%string with false; [reflexivity|].
    symmetry. apply String.eqb_neq. congruence.
  - intros x. destruct (Withdrawal.id x =? Withdrawal.id w)%string; reflexivity.
Qed.

(** X17.  A review can be repeated, and the last one wins: reviewing a
    withdrawal a second time answers and stores exactly what that review
    would have answered and stored had the first never been made, so the
    earlier decision, review time and notes are gone.  Reviews of
    different withdrawals do not interfere: the other withdrawal is
    untouched, and the two reviews give the same database in either
    order. *)
Theorem X17_review_again env1 env2 p1 p2 wid db w :
  get_Withdrawal wid db = Some w ->
  let once := exec (ReqReview env1 ADMIN_TOKEN wid p1) db in
  run_request (review_withdrawal env2 ADMIN_TOKEN wid p2) once
  = (Ok (WithdrawResponse.mk wid
           (review_status_str (AdminWithdrawalReviewRequest.status p2))
           (Withdrawal.created_at w)),
     exec (ReqReview env2 ADMIN_TOKEN wid p2) db)
  /\ get_Withdrawal wid (exec (ReqReview env2 ADMIN_TOKEN wid p2) once)
     = Some (review (rv_reviewed_at env2) p2 w)
  /\ (forall wid' w',
        wid' <> wid -> get_Withdrawal wid' db = Some w' ->
        get_Withdrawal wid' once = Some w'
        /\ exec (ReqReview env2 ADMIN_TOKEN wid' p2) once
           = exec (ReqReview env1 ADMIN_TOKEN wid p1)
                  (exec (ReqReview env2 ADMIN_TOKEN wid' p2) db)).
Proof.
  intros H once.
  pose proof (find_eqb_key Withdrawal.id _ _ _ H) as [Hid _].
  assert (Honce : once = reviewed_db env1 p1 w db).
  { unfold once. cbn [exec]. now rewrite (exec_review env1 wid p1 db w H). }
  pose proof (get_Withdrawal_reviewed env1 p1 w wid db H) as H1.
  assert (Htwice : exec (ReqReview env2 ADMIN_TOKEN wid p2) db = reviewed_db env2 p2 w db).
  { cbn [exec]. now rewrite (exec_review env2 wid p2 db w H). }
  split; [|split].
  - rewrite Honce, (exec_review env2 wid p2 _ _ H1), reviewed_db_twice, Htwice.
    unfold withdraw_response. cbn [review Withdrawal.id Withdrawal.status
                                   Withdrawal.created_at].
    now rewrite Hid.
  - cbn [exec]. rewrite Honce, (exec_review env2 wid p2 _ _ H1), reviewed_db_twice.
    cbn [snd]. now apply get_Withdrawal_reviewed.
  - intros wid' w' Hne H'.
    pose proof (find_eqb_key Withdrawal.id _ _ _ H') as [Hid' _].
    assert (Hother : get_Withdrawal wid' once = Some w').
    { rewrite Honce. apply get_Withdrawal_other; congruence. }
    split; [exact Hother|].
    cbn [exec]. rewrite Honce in Hother |- *.
    rewrite (exec_review env2 wid' p2 _ _ Hother), (exec_review env2 wid' p2 _ _ H').
    cbn [snd].
    assert (Hw : get_Withdrawal wid (reviewed_db env2 p2 w' db) = Some w).
    { apply get_Withdrawal_other; congruence. }
    rewrite (exec_review env1 wid p1 _ _ Hw). cbn [snd].
    apply reviewed_db_comm. congruence.
Qed.

Lemma X17_review_again_witness :
  run_request (review_withdrawal (mkReviewEnv 6000) ADMIN_TOKEN "wd-1"
                 (AdminWithdrawalReviewRequest.mk rejected None))
              demo_approved_db
  = (Ok (WithdrawResponse.mk "wd-1" "rejected" 4001),
     exec (ReqReview (mkReviewEnv 6000) ADMIN_TOKEN "wd-1"
                     (AdminWithdrawalReviewRequest.mk rejected None))
          demo_withdrawn_db).
Proof.
  refine (proj1 (X17_review_again (mkReviewEnv 5000) (mkReviewEnv 6000)
                   (AdminWithdrawalReviewRequest.mk approved (Some "paid"))
                   (AdminWithdrawalReviewRequest.mk rejected None)
                   "wd-1" demo_withdrawn_db
                   (Withdrawal.mk "wd-1" "user-1" 10 0.2 "paypal" "ann@example.com"
                                  "pending" 4001 None None) _)).
  vm_compute. reflexivity.
Defined.

(** ** Properties beyond the claims: a new user *)





(** ** Properties beyond the claims: nothing is deleted *)

Lemma extends_refl {A B} (key : A -> B) l : extends key l l.
Proof.
  exists []. now rewrite app_nil_r.
Qed.

Lemma extends_trans {A B} (key : A -> B) l1 l2 l3 :
  extends key l1 l2 -> extends key l2 l3 -> extends key l1 l3.
Proof.
  intros [a Ha] [b Hb]. exists (a ++ b). now rewrite Hb, Ha, app_assoc.
Qed.

Lemma extends_app {A B} (key : A -> B) l added : extends key l (l ++ added).
Proof.
  exists (map key added). apply map_app.
Qed.

Lemma extends_update {A B} (key : A -> B) (test : A -> bool) (g : A -> A) l :
  (forall x, key (g x) = key x) ->
  extends key l (map (fun x => if test x then g x else x) l).
Proof.
  intros Hg. exists []. rewrite app_nil_r, map_map. apply map_ext. intros x.
  now destruct (test x).
Qed.

Lemma rows_kept_refl db : rows_kept db db.
Proof.
  constructor; try apply extends_refl. reflexivity.
Qed.

Lemma rows_kept_trans db1 db2 db3 :
  rows_kept db1 db2 -> rows_kept db2 db3 -> rows_kept db1 db3.
Proof.
  intros [U1 A1 N1 I1 V1 B1 W1] [U2 A2 N2 I2 V2 B2 W2].
  constructor; try (eapply extends_trans; eassumption).
  intros Hne. rewrite <- (I1 Hne). apply I2. now rewrite (I1 Hne).
Qed.

Lemma transition_rows_kept r db db' : transition r db db' -> rows_kept db db'.
Proof.
  intros Htr. destruct Htr; try apply rows_kept_refl;
    constructor;
    cbn [users auth_accounts ad_units ad_views balances transactions withdrawals
         set_ad_units set_ad_views set_withdrawals new_user_db completed_db withdrawn_db
         reviewed_db];
    try apply extends_refl; try apply extends_app; try reflexivity;
    try (apply extends_update; reflexivity).
  intros Hne. congruence.
Qed.

(** X19.  No request deletes a row or rewrites its identity.  Over any
    sequence of requests the users, the accounts and the ad units stay as
    they are, in place, with rows only added at the end, and an inventory
    that is not empty never changes; every view keeps its id, owner, ad
    unit, session token and start time; every balance keeps its user; and
    every withdrawal keeps its id, owner, amount, fee, payout method,
    destination and creation time. *)
Theorem X19_nothing_deleted rs db :
  let db' := exec_all rs db in
  (exists added, users db' = users db ++ added)
  /\ (exists added, auth_accounts db' = auth_accounts db ++ added)
  /\ (exists added, ad_units db' = ad_units db ++ added)
  /\ (ad_units db <> [] -> ad_units db' = ad_units db)
  /\ (exists added, map view_fixed (ad_views db') = map view_fixed (ad_views db) ++ added)
  /\ (exists added,
        map Balance.user_id (balances db') = map Balance.user_id (balances db) ++ added)
  /\ (exists added,
        map withdrawal_fixed (withdrawals db')
        = map withdrawal_fixed (withdrawals db) ++ added).
Proof.
  intros db'.
  assert (HK : rows_kept db db').
  { unfold db'. clear db'. induction rs as [|r rs IH] using rev_ind.
    - apply rows_kept_refl.
    - rewrite exec_all_snoc. eapply rows_kept_trans; [exact IH|].
      apply (transition_rows_kept r), exec_transition. }
  destruct HK as [[u Hu] [a Ha] [n Hn] HI HV HB HW].
  rewrite !map_id in Hu, Ha, Hn.
  repeat split; try assumption; eexists; eassumption.
Qed.

(** ** Properties beyond the claims: the settings of an ad unit at their edges *)

(** X20.  [ads_start] at the edges of an ad unit's settings, for a stored
    user and an active ad unit.  A cooldown beyond the range of
    [timedelta] makes the request of a user who has a view raise
    [OverflowError], which is none of the failure kinds, and stores
    nothing.  A daily cap of 0 or less refuses every request that gets
    past the cooldown test with "Daily cap reached", even with no view
    that day.  A cooldown of 0 or less never holds a request back whose
    clock is not behind the user's latest start. *)
Theorem X20_ad_unit_edge_settings env uid p db user ad_unit :
  get_User uid db = Some user ->
  get_AdUnit (AdStartRequest.ad_unit_id p) db = Some ad_unit ->
  AdUnit.is_active ad_unit = true ->
  (999999999 < Z.abs (AdUnit.cooldown_seconds ad_unit / 86400) ->
   (exists v, In v (ad_views db) /\ AdView.user_id v = User.id user) ->
   run_request (ads_start env uid p) db = (Raise OverflowError, db)
   /\ failure_kind OverflowError = None)
  /\ (cooldown_passed env ad_unit user db ->
      AdUnit.daily_cap ad_unit <= 0 ->
      run_request (ads_start env uid p) db = (Raise daily_cap_reached, db))
  /\ (- (86400 * 999999999) <= AdUnit.cooldown_seconds ad_unit <= 0 ->
      (forall v, In v (ad_views db) -> AdView.user_id v = User.id user ->
         AdView.started_at v <= st_now_elapsed env) ->
      cooldown_passed env ad_unit user db).
Proof.
  intros Hu Ha Hact. split; [|split].
  - intros Hrange (v & Hv & Hown). split; [|reflexivity].
    rewrite ads_start_run, Hu, Ha, Hact. cbn [negb].
    destruct (recent_view_of user db) as [recent|] eqn:Hr.
    + replace (Z.abs (AdUnit.cooldown_seconds ad_unit / 86400) >? 999999999) with true;
        [reflexivity|].
      symmetry. rewrite Z.gtb_ltb. now apply Z.ltb_lt.
    + exfalso. exact (recent_view_none _ _ Hr v Hv Hown).
  - intros Hcool Hcap.
    rewrite (ads_start_tail_eq env uid p db user ad_unit Hu Ha Hact Hcool).
    unfold ads_start_tail.
    replace (daily_count_of user (start_of_day (st_now_day env)) db
             >=? AdUnit.daily_cap ad_unit) with true; [reflexivity|].
    symmetry. rewrite Z.geb_leb. apply Z.leb_le.
    unfold daily_count_of. lia.
  - intros [Hlo Hhi] Hclock. unfold cooldown_passed.
    destruct (recent_view_of user db) as [recent|] eqn:Hr; [|exact I].
    destruct (recent_view_most_recent _ _ _ Hr) as (Hin & Hown & _).
    specialize (Hclock recent Hin Hown). split.
    + apply Z.abs_le. split.
      * apply Z.div_le_lower_bound; lia.
      * apply Z.le_trans with 0; [|lia]. apply Z.div_le_upper_bound; lia.
    + unfold usec_per_second. lia.
Qed.

Lemma X20_ad_unit_edge_settings_witness :
  run_request (ads_start (mkStartEnv 2000 2001 "token-1" "view-1" 2002) "user-1"
                         (AdStartRequest.mk "unit-0"))
              (exec_all [demo_register]
                        (fresh_db [AdUnit.mk "unit-0" "Capped" 0.002 0.01 60 0 true]))
  = (Raise daily_cap_reached,
     exec_all [demo_register]
              (fresh_db [AdUnit.mk "unit-0" "Capped" 0.002 0.01 60 0 true])).
Proof.
  refine (proj1 (proj2 (X20_ad_unit_edge_settings
                          (mkStartEnv 2000 2001 "token-1" "view-1" 2002) "user-1"
                          (AdStartRequest.mk "unit-0")
                          (exec_all [demo_register]
                             (fresh_db [AdUnit.mk "unit-0" "Capped" 0.002 0.01 60 0 true]))
                          demo_user (AdUnit.mk "unit-0" "Capped" 0.002 0.01 60 0 true)
                          _ _ _)) _ _).
  - vm_compute. reflexivity.
  - vm_compute. reflexivity.
  - reflexivity.
  - vm_compute. exact I.
  - cbn. lia.
Defined.
